(** * Quantitative indicator engine of TradingAgents-CN: a shallow embedding

    The development follows the four analyzers under
    [tradingagents/utils/analyzers/] and the aggregator
    [tradingagents/utils/enhanced_analysis_toolkit.py].

    Conventions of the embedding.

    - Python [str] values are byte strings ([string]) holding the UTF-8
      encoding of the text.  Substring tests, [split] on an ASCII separator
      and prefix tests agree on code points and on UTF-8 bytes.  [strip]
      removes ASCII white space and the regular-expression class [\d] is
      the ASCII digits: the input texts are taken to use ASCII digits and
      ASCII white space.
    - Python [float] and numpy [float64] numbers are exact rationals ([Q]):
      rounding error is outside the model.  Where the source divides numpy
      or pandas values without a guard, the quotient is taken in [xq], the
      rationals extended with the IEEE results of a division by zero
      (infinities and NaN).
    - [np.sqrt] has no rational counterpart; the functions that use it take
      it as the parameter [np_sqrt].
    - [np.random] is a sequence of standard normal variates that the code
      consumes in program order ([Rng.t]).
    - [math.sqrt] and [np.exp], the three-decimal formatting of a float
      and the date of the run are parameters as well ([math_sqrt],
      [np_exp], [format_3f], [current_date]). *)

From Stdlib Require Import ZArith QArith Qround Qabs List String Ascii Bool.
From Stdlib Require Import Lia Lqa Orders Sorting.Mergesort Sorting.Sorted Permutation.
Import ListNotations.

Local Open Scope Z_scope.
Local Open Scope Q_scope.

(** ** Python strings *)

Module PyStr.

Definition char_in (c : ascii) (codes : list nat) : bool :=
  existsb (Nat.eqb (nat_of_ascii c)) codes.

Definition is_digit (c : ascii) : bool :=
  let n := nat_of_ascii c in (48 <=? n)%nat && (n <=? 57)%nat.

Definition is_dot (c : ascii) : bool := Ascii.eqb c "."%char.

(** the character class [[\d.]] *)
Definition is_digit_or_dot (c : ascii) : bool := is_digit c || is_dot c.

(** ASCII white space as [str.strip] sees it *)
Definition is_space (c : ascii) : bool :=
  char_in c [9; 10; 11; 12; 13; 28; 29; 30; 31; 32]%nat.

Definition is_empty (s : string) : bool :=
  match s with EmptyString => true | _ => false end.

(** [needle in hay] *)
Fixpoint contains (needle hay : string) : bool :=
  if String.prefix needle hay then true
  else match hay with
       | EmptyString => false
       | String _ t => contains needle t
       end.

(** [s.split(sep)] for a one-character separator *)
Fixpoint split (sep : ascii) (s : string) : list string :=
  match s with
  | EmptyString => [EmptyString]
  | String c t =>
      if Ascii.eqb c sep then EmptyString :: split sep t
      else match split sep t with
           | h :: r => String c h :: r
           | [] => [String c EmptyString]
           end
  end.

Fixpoint take_while (p : ascii -> bool) (s : string) : string :=
  match s with
  | EmptyString => EmptyString
  | String c t => if p c then String c (take_while p t) else EmptyString
  end.

Fixpoint drop_while (p : ascii -> bool) (s : string) : string :=
  match s with
  | EmptyString => EmptyString
  | String c t => if p c then drop_while p t else s
  end.

Fixpoint rstrip (s : string) : string :=
  match s with
  | EmptyString => EmptyString
  | String c t =>
      let t' := rstrip t in
      if is_space c && is_empty t' then EmptyString else String c t'
  end.

(** [s.strip()] *)
Definition strip (s : string) : string := rstrip (drop_while is_space s).

(** [re.search] for a pattern [[class]+]: the leftmost maximal run of
    characters of the class, with the text that follows it. *)
Fixpoint search_run (p : ascii -> bool) (s : string) : option (string * string) :=
  match s with
  | EmptyString => None
  | String c t =>
      if p c then Some (take_while p s, drop_while p s) else search_run p t
  end.

Definition digit_val (c : ascii) : Z := Z.of_nat (nat_of_ascii c - 48).

Fixpoint digits_val_from (acc : Z) (s : string) : Z :=
  match s with
  | EmptyString => acc
  | String c t => digits_val_from (10 * acc + digit_val c)%Z t
  end.

(** [int(s)] for a non-empty string of digits *)
Definition int_of_digits (s : string) : Z := digits_val_from 0%Z s.

Definition all_digits (s : string) : bool :=
  is_empty (drop_while is_digit s).

Definition pow10 (n : nat) : Z := (10 ^ Z.of_nat n)%Z.

(** [float(s)] for a string drawn from [[\d.]+]: [None] stands for the
    [ValueError] raised on a string with no digit or with two dots. *)
Definition float_of_run (s : string) : option Q :=
  let ip := take_while is_digit s in
  match drop_while is_digit s with
  | EmptyString => if is_empty ip then None else Some (inject_Z (int_of_digits ip))
  | String c fp =>
      if is_dot c && all_digits fp && negb (is_empty ip && is_empty fp)
      then Some (inject_Z (int_of_digits ip)
                 + inject_Z (int_of_digits fp) / inject_Z (pow10 (String.length fp)))
      else None
  end.

(** [float(s)] for a signed decimal numeral with an optional exponent,
    white space around it ignored.  Python accepts further spellings
    ([inf], [nan], digit groups with underscores); texts with those are
    outside the model. *)
Definition float_of_string (s : string) : option Q :=
  let s := strip s in
  let '(neg, body) :=
    match s with
    | String "-"%char t => (true, t)
    | String "+"%char t => (false, t)
    | _ => (false, s)
    end in
  let mant := take_while is_digit_or_dot body in
  let rest := drop_while is_digit_or_dot body in
  let scale : option Q :=
    match rest with
    | EmptyString => Some 1
    | String e t =>
        if Ascii.eqb e "e"%char || Ascii.eqb e "E"%char then
          let '(eneg, ds) :=
            match t with
            | String "-"%char u => (true, u)
            | String "+"%char u => (false, u)
            | _ => (false, t)
            end in
          if negb (is_empty ds) && all_digits ds then
            let p := inject_Z (10 ^ int_of_digits ds) in
            Some (if eneg then / p else p)
          else None
        else None
    end in
  match float_of_run mant, scale with
  | Some m, Some k => Some (if neg then - (m * k) else m * k)
  | _, _ => None
  end.

(** [re.search] for [[class]+X] with a literal character [X]: the
    leftmost maximal run that [X] follows. *)
Fixpoint search_run_before (fuel : nat) (p : ascii -> bool) (x : ascii)
         (s : string) : option string :=
  match fuel with
  | O => None
  | S fuel' =>
      match search_run p s with
      | None => None
      | Some (run, rest) =>
          match rest with
          | String c _ =>
              if Ascii.eqb c x then Some run else search_run_before fuel' p x rest
          | EmptyString => None
          end
      end
  end.

Definition upper_char (c : ascii) : ascii :=
  let n := nat_of_ascii c in
  if (97 <=? n)%nat && (n <=? 122)%nat then ascii_of_nat (n - 32) else c.

(** [s.upper()] on the ASCII letters *)
Fixpoint upper (s : string) : string :=
  match s with
  | EmptyString => EmptyString
  | String c t => String (upper_char c) (upper t)
  end.

(** the truth value of a string: non-empty *)
Definition truthy (s : string) : bool := negb (is_empty s).

Definition opt_truthy (s : option string) : bool :=
  match s with Some t => truthy t | None => false end.

End PyStr.

(** ** Numbers *)

Module PyNum.

Definition Qltb (x y : Q) : bool := negb (Qle_bool y x).
Definition Qleb (x y : Q) : bool := Qle_bool x y.
Definition Qgtb (x y : Q) : bool := Qltb y x.
Definition Qgeb (x y : Q) : bool := Qle_bool y x.
Definition Qeqb (x y : Q) : bool := Qeq_bool x y.

Definition Qmin (x y : Q) : Q := if Qleb x y then x else y.
Definition Qmax (x y : Q) : Q := if Qleb x y then y else x.

Definition Qsum (l : list Q) : Q := fold_right Qplus 0 l.

Definition Qlen (l : list Q) : Q := inject_Z (Z.of_nat (List.length l)).

(** the mean of a non-empty list *)
Definition mean (l : list Q) : Q := Qsum l / Qlen l.

(** [np.var] (population variance, [ddof = 0]) *)
Definition np_var (l : list Q) : Q :=
  let m := mean l in mean (map (fun x => (x - m) * (x - m)) l).

(** A float that may be the result of an unguarded division: a rational,
    an infinity or NaN. *)
Inductive xq : Type :=
| Fin (q : Q)
| PInf
| NInf
| NaN.

Definition sgn (q : Q) : comparison := Qcompare q 0.

Definition xopp (x : xq) : xq :=
  match x with
  | Fin q => Fin (- q)
  | PInf => NInf
  | NInf => PInf
  | NaN => NaN
  end.

Definition xadd (x y : xq) : xq :=
  match x, y with
  | NaN, _ | _, NaN => NaN
  | Fin a, Fin b => Fin (a + b)
  | PInf, NInf | NInf, PInf => NaN
  | PInf, _ | _, PInf => PInf
  | NInf, _ | _, NInf => NInf
  end.

Definition xsub (x y : xq) : xq := xadd x (xopp y).

Definition inf_of_sign (c : comparison) : xq :=
  match c with
  | Gt => PInf
  | Lt => NInf
  | Eq => NaN
  end.

Definition xsign (x : xq) : comparison :=
  match x with
  | Fin q => sgn q
  | PInf => Gt
  | NInf => Lt
  | NaN => Eq
  end.

Definition sign_mul (a b : comparison) : comparison :=
  match a, b with
  | Eq, _ | _, Eq => Eq
  | Gt, Gt | Lt, Lt => Gt
  | _, _ => Lt
  end.

Definition xmul (x y : xq) : xq :=
  match x, y with
  | NaN, _ | _, NaN => NaN
  | Fin a, Fin b => Fin (a * b)
  | _, _ => inf_of_sign (sign_mul (xsign x) (xsign y))
  end.

(** IEEE division: a non-zero number over zero is an infinity, zero over
    zero and infinity over infinity are NaN.  (The sign of a zero
    denominator is not tracked: a positive number over zero is [PInf].) *)
Definition xdiv (x y : xq) : xq :=
  match x, y with
  | NaN, _ | _, NaN => NaN
  | Fin a, Fin b => if Qeqb b 0 then inf_of_sign (sgn a) else Fin (a / b)
  | Fin _, _ => Fin 0
  | _, Fin b => if Qeqb b 0 then x else inf_of_sign (sign_mul (xsign x) (sgn b))
  | _, _ => NaN
  end.

(** comparisons: every comparison with NaN is false *)
Definition xltb (x y : xq) : bool :=
  match x, y with
  | Fin a, Fin b => Qltb a b
  | Fin _, PInf | NInf, Fin _ | NInf, PInf => true
  | _, _ => false
  end.

Definition xgtb (x y : xq) : bool := xltb y x.

Definition xleb (x y : xq) : bool :=
  match x, y with
  | Fin a, Fin b => Qleb a b
  | Fin _, PInf | NInf, Fin _ | NInf, PInf | NInf, NInf | PInf, PInf => true
  | _, _ => false
  end.

Definition xabs (x : xq) : xq :=
  match x with
  | Fin q => Fin (Qabs q)
  | NInf => PInf
  | _ => x
  end.

(** [x != 0], which is also the truth value of a float: NaN counts as
    non-zero *)
Definition xnonzero (x : xq) : bool :=
  match x with
  | Fin q => negb (Qeqb q 0)
  | _ => true
  end.

(** [np.sqrt], given the square root [np_sqrt] of the non-negative
    rationals *)
Definition xsqrt (np_sqrt : Q -> Q) (x : xq) : xq :=
  match x with
  | Fin q => if Qltb q 0 then NaN else Fin (np_sqrt q)
  | PInf => PInf
  | _ => NaN
  end.

(** [np.mean] and [np.var] of an array of numbers: NaN on the empty one *)
Definition xmean_of (l : list Q) : xq := xdiv (Fin (Qsum l)) (Fin (Qlen l)).

Definition xvar_of (l : list Q) : xq :=
  match l with
  | [] => NaN
  | _ => Fin (np_var l)
  end.

(** a pandas cell: [None] is the missing value (NaN) *)
Definition of_cell (c : option Q) : xq :=
  match c with Some q => Fin q | None => NaN end.

(** [round(x, 2)]: to the nearest hundredth, ties to even; NaN and the
    infinities are returned as they are *)
Definition round_half_even (q : Q) : Z :=
  let f := Qfloor q in
  let r := q - inject_Z f in
  match Qcompare r (1 # 2) with
  | Lt => f
  | Gt => (f + 1)%Z
  | Eq => if Z.even f then f else (f + 1)%Z
  end.

Definition round_digits (d : nat) (q : Q) : Q :=
  let k := inject_Z (PyStr.pow10 d) in
  inject_Z (round_half_even (q * k)) / k.

Definition xround (d : nat) (x : xq) : xq :=
  match x with
  | Fin q => Fin (round_digits d q)
  | _ => x
  end.

(** [x] is a number, equal to [q] *)
Definition is_num (x : xq) (q : Q) : Prop :=
  match x with Fin a => a == q | _ => False end.

(** [x] is a number that is not negative *)
Definition nonneg (x : xq) : Prop := exists q, x = Fin q /\ 0 <= q.

(** [x] is a number between [lo] and [hi] *)
Definition xbetween (lo hi : Q) (x : xq) : Prop :=
  match x with
  | Fin q => lo <= q /\ q <= hi
  | _ => False
  end.

End PyNum.

(** ** The random source *)

Module Rng.

(** [np.random] seen as the sequence of standard normal variates it will
    produce, with the number of variates already consumed. *)
Record t : Type := mk { draws : nat -> Q; pos : nat }.

(** [np.random.normal(loc, scale)]: [loc + scale * z] for the next
    variate [z] *)
Definition normal (loc scale : Q) (g : t) : Q * t :=
  (loc + scale * draws g (pos g), mk (draws g) (S (pos g))).

(** [np.random.normal(loc, scale, n)] *)
Fixpoint normal_n (loc scale : Q) (n : nat) (g : t) : list Q * t :=
  match n with
  | O => ([], g)
  | S n' =>
      let '(x, g1) := normal loc scale g in
      let '(xs, g2) := normal_n loc scale n' g1 in
      (x :: xs, g2)
  end.

End Rng.

(** ** enhanced_technical_analysis.py *)

Module Technical.
Import PyNum.

(** One row of the OHLCV frame.  [Volume] is a pandas cell: [None] is a
    value that [pd.to_numeric(errors='coerce')] turned into NaN. *)
Record bar : Type := mk_bar
  { Open : Q; High : Q; Low : Q; Close : Q; Volume : option Q }.

(** The frame [df]: its rows in index order, and whether it has a
    [Volume] column. *)
Record frame : Type := mk_frame { rows : list bar; has_volume : bool }.

Definition series := list xq.

(** [s.iloc[-k]] *)
Definition iloc_neg {A} (s : list A) (k : nat) : option A :=
  if (k <=? List.length s)%nat then nth_error s (List.length s - k) else None.

Definition cell (o : option xq) : xq :=
  match o with Some x => x | None => NaN end.

(** [s.diff()] *)
Fixpoint diff_from (prev : Q) (l : list Q) : series :=
  match l with
  | [] => []
  | x :: t => Fin (x - prev) :: diff_from x t
  end.

Definition diff (l : list Q) : series :=
  match l with
  | [] => []
  | x :: t => NaN :: diff_from x t
  end.

(** [s.where(cond, 0)] *)
Definition where_or_zero (cond : xq -> bool) (s : series) : series :=
  map (fun x => if cond x then x else Fin 0) s.

Definition window {A} (w : nat) (s : list A) (i : nat) : list A :=
  firstn w (skipn (i + 1 - w) s).

Definition xsum (l : series) : xq := fold_right xadd (Fin 0) l.

Definition xmean (l : series) : xq :=
  xdiv (xsum l) (Fin (inject_Z (Z.of_nat (List.length l)))).

Definition positions {A} (s : list A) : list nat := seq 0 (List.length s).

(** [s.rolling(w).mean()]: NaN until [w] observations are in the window *)
Definition rolling_mean (w : nat) (s : series) : series :=
  map (fun i => if (w <=? i + 1)%nat then xmean (window w s i) else NaN)
      (positions s).

Section WithSqrt.

Variable np_sqrt : Q -> Q.

(** the sample standard deviation ([ddof = 1]) of a window *)
Definition xstd (l : series) : xq :=
  let m := xmean l in
  let sq := map (fun x => xmul (xsub x m) (xsub x m)) l in
  xsqrt np_sqrt (xdiv (xsum sq) (Fin (inject_Z (Z.of_nat (List.length l) - 1)))).

(** [s.rolling(w).std()] *)
Definition rolling_std (w : nat) (s : series) : series :=
  map (fun i => if (w <=? i + 1)%nat then xstd (window w s i) else NaN)
      (positions s).

Definition zip_with (f : xq -> xq -> xq) (a b : series) : series :=
  map (fun p => f (fst p) (snd p)) (combine a b).

Record rsi_info : Type := mk_rsi
  { rsi_value : xq; rsi_signal : string; rsi_trend : string }.

Record bollinger_info : Type := mk_bb
  { bb_upper_value : xq; bb_middle : xq; bb_lower_value : xq;
    bb_width_value : xq; bb_position : xq; bb_squeeze : string }.

Record volume_info : Type := mk_vol
  { vol_current : Z; vol_avg_20d : Z; vol_ratio : Q; vol_trend : string }.

(** The indicator categories of the result that are modelled; an
    absent key is [None].  ([price_info], [moving_averages], [ema],
    [macd], [atr] and [support_resistance] are computed next to them in
    the source and are not part of this record.) *)
Record indicators : Type := mk_ind
  { rsi : option rsi_info;
    bollinger_bands : option bollinger_info;
    volume : option volume_info }.

Inductive result : Type :=
| TechError (msg : string)
| TechOk (ind : indicators).

Definition closes (df : frame) : list Q := map Close (rows df).

(** lines 85-87: [delta.where(delta > 0, 0)] and [-delta.where(delta < 0, 0)] *)
Definition gains (df : frame) : series :=
  where_or_zero (fun d => xgtb d (Fin 0)) (diff (closes df)).

Definition losses (df : frame) : series :=
  map xopp (where_or_zero (fun d => xltb d (Fin 0)) (diff (closes df))).

(** lines 84-96 *)
Definition rsi_series (df : frame) : series :=
  let gain := rolling_mean 14 (gains df) in
  let loss := rolling_mean 14 (losses df) in
  let rs := zip_with xdiv gain loss in
  map (fun r => xsub (Fin 100) (xdiv (Fin 100) (xadd (Fin 1) r))) rs.

Definition calc_rsi (df : frame) : option rsi_info :=
  if (14 <=? List.length (rows df))%nat then
    let rsi := rsi_series df in
    let current_rsi := cell (iloc_neg rsi 1) in
    Some (mk_rsi (xround 2 current_rsi)
            (if xgtb current_rsi (Fin 70) then "overbought"
             else if xltb current_rsi (Fin 30) then "oversold"
             else "neutral")
            (if xgtb (cell (iloc_neg rsi 1)) (cell (iloc_neg rsi 2))
             then "up" else "down"))
  else None.

(** lines 116-119: the series [sma20], [bb_upper] and [bb_lower] *)
Definition bollinger_series (df : frame) : series * series * series :=
  let close := map Fin (closes df) in
  let sma20 := rolling_mean 20 close in
  let std20 := rolling_std 20 close in
  let band := map (fun s => xmul s (Fin 2)) std20 in
  (sma20, zip_with xadd sma20 band, zip_with xsub sma20 band).

(** the divisor of line 127: [bb_upper.iloc[-1] - bb_lower.iloc[-1]] *)
Definition bollinger_position_divisor (df : frame) : xq :=
  let '(_, bb_upper, bb_lower) := bollinger_series df in
  xsub (cell (iloc_neg bb_upper 1)) (cell (iloc_neg bb_lower 1)).

(** lines 115-129 *)
Definition calc_bollinger (df : frame) : option bollinger_info :=
  if (20 <=? List.length (rows df))%nat then
    let current_price := cell (iloc_neg (map Fin (closes df)) 1) in
    let '(sma20, bb_upper, bb_lower) := bollinger_series df in
    let bb_width :=
      map (fun x => xmul x (Fin 100))
          (zip_with xdiv (zip_with xsub bb_upper bb_lower) sma20) in
    let up := cell (iloc_neg bb_upper 1) in
    let lo := cell (iloc_neg bb_lower 1) in
    Some (mk_bb (xround 2 up)
            (xround 2 (cell (iloc_neg sma20 1)))
            (xround 2 lo)
            (xround 2 (cell (iloc_neg bb_width 1)))
            (xround 2 (xmul (xdiv (xsub current_price lo)
                                  (bollinger_position_divisor df))
                            (Fin 100)))
            (if xltb (cell (iloc_neg bb_width 1))
                     (cell (iloc_neg (rolling_mean 20 bb_width) 1))
             then "yes" else "no"))
  else None.

(** [int(x)]: truncation towards zero *)
Definition int_of_Q (q : Q) : Z :=
  if Qltb q 0 then (- Qfloor (- q))%Z else Qfloor q.

Definition is_fin (x : xq) : option Q :=
  match x with Fin q => Some q | _ => None end.

(** lines 132-150 *)
Definition calc_volume (df : frame) : option volume_info :=
  if has_volume df then
    let vol := map (fun b => of_cell (Volume b)) (rows df) in
    let avg_volume_20 := cell (iloc_neg (rolling_mean 20 vol) 1) in
    let current_volume := cell (iloc_neg vol 1) in
    match is_fin current_volume, is_fin avg_volume_20 with
    | Some cur, Some avg =>
        if Qgtb avg 0 then
          let m5 := rolling_mean 5 vol in
          Some (mk_vol (int_of_Q cur) (int_of_Q avg)
                  (round_digits 2 (cur / avg))
                  (if (6 <=? List.length (rows df))%nat
                      && xgtb (cell (iloc_neg m5 1)) (cell (iloc_neg m5 6))
                   then "increasing" else "decreasing"))
        else Some (mk_vol 0 0 0 "unknown")
    | _, _ => Some (mk_vol 0 0 0 "unknown")
    end
  else None.

(** lines 26-181, for a frame whose [Close] column holds numbers *)
Definition calculate_technical_indicators (df : frame) : result :=
  if (List.length (rows df) <? 5)%nat then
    TechError "数据不足，无法计算技术指标"
  else
    TechOk (mk_ind (calc_rsi df) (calc_bollinger df) (calc_volume df)).

(** the RSI value the result reports, if it reports one *)
Definition reported_rsi (r : result) : option xq :=
  match r with
  | TechOk ind => option_map rsi_value (rsi ind)
  | TechError _ => None
  end.

Definition reported_bb_position (r : result) : option xq :=
  match r with
  | TechOk ind => option_map bb_position (bollinger_bands ind)
  | TechError _ => None
  end.

End WithSqrt.

(** A series of [n] identical bars at price [p] with volume [v]. *)
Definition flat_bar (p v : Q) : bar := mk_bar p p p p (Some v).
Definition flat_frame (n : nat) (p v : Q) : frame :=
  mk_frame (repeat (flat_bar p v) n) true.

End Technical.

(** ** Exceptions *)

Module PyExc.

Inductive error : Type :=
| ValueError
| IndexError
| AttributeError
| TypeError.

(** the outcome of a Python expression: a value or a raised exception *)
Inductive exc (A : Type) : Type :=
| Ret (a : A)
| Raise (e : error).
Arguments Ret {A} a.
Arguments Raise {A} e.

Definition bind {A B} (m : exc A) (k : A -> exc B) : exc B :=
  match m with
  | Ret a => k a
  | Raise e => Raise e
  end.

Definition of_option {A} (e : error) (o : option A) : exc A :=
  match o with Some a => Ret a | None => Raise e end.

(** [lst[i]] *)
Definition index {A} (l : list A) (i : nat) : exc A :=
  of_option IndexError (nth_error l i).

(** [float(m.group(1))] guarded by [if m], for [m = re.search(r'([\d.]+)', s)]:
    no match leaves the field as it is, a match that is no numeral raises. *)
Definition number_in (s : string) : exc (option Q) :=
  match PyStr.search_run PyStr.is_digit_or_dot s with
  | None => Ret None
  | Some (run, _) =>
      bind (of_option ValueError (PyStr.float_of_run run)) (fun q => Ret (Some q))
  end.

(** a [try] block with [except Exception] *)
Definition try_except {A} (m : exc A) (handler : error -> A) : A :=
  match m with
  | Ret a => a
  | Raise e => handler e
  end.

Fixpoint fold_exc {A S} (f : S -> A -> exc S) (l : list A) (s : S) : exc S :=
  match l with
  | [] => Ret s
  | a :: t => bind (f s a) (fold_exc f t)
  end.

End PyExc.

Declare Scope exc_scope.
Delimit Scope exc_scope with exc.
Notation "x <- m ;; k" := (PyExc.bind m (fun x => k))
  (at level 61, m at next level, right associativity) : exc_scope.

(** ** enhanced_fundamentals_analysis.py *)

Module Fundamentals.
Import PyStr PyNum PyExc.
Local Open Scope exc_scope.
Local Open Scope string_scope.

Record price_info : Type := mk_price_info
  { current_price : option Q;
    market_cap : option Q;
    pe_ratio : option Q;
    pb_ratio : option Q;
    dividend_yield : option Q;
    volume : option Q;
    avg_volume : option Q }.

Definition empty_price_info : price_info :=
  mk_price_info None None None None None None None.

Definition set_opt (new old : option Q) : option Q :=
  match new with Some _ => new | None => old end.

(** the body of the loop of [_extract_price_info] (lines 93-131) *)
Definition extract_line (pi : price_info) (raw : string) : exc price_info :=
  let line := strip raw in
  if contains "当前价格:" line || contains "最新价:" line then
    field <- index (split ":" line) 1 ;;
    v <- number_in field ;;
    Ret (mk_price_info (set_opt v (current_price pi)) (market_cap pi) (pe_ratio pi)
           (pb_ratio pi) (dividend_yield pi) (volume pi) (avg_volume pi))
  else if contains "市值:" line || contains "总市值:" line then
    field <- index (split ":" line) 1 ;;
    let cap_text := strip field in
    match search_run is_digit_or_dot cap_text with
    | None => Ret pi
    | Some (run, rest) =>
        value <- of_option ValueError (float_of_run run) ;;
        let value :=
          if String.prefix "亿" rest then value * 100000000
          else if String.prefix "万" rest then value * 10000
          else value in
        Ret (mk_price_info (current_price pi) (Some value) (pe_ratio pi)
               (pb_ratio pi) (dividend_yield pi) (volume pi) (avg_volume pi))
    end
  else if contains "PE" (upper line) || contains "市盈率" line then
    field <- index (split ":" line) 1 ;;
    v <- number_in field ;;
    Ret (mk_price_info (current_price pi) (market_cap pi) (set_opt v (pe_ratio pi))
           (pb_ratio pi) (dividend_yield pi) (volume pi) (avg_volume pi))
  else if contains "PB" (upper line) || contains "市净率" line then
    field <- index (split ":" line) 1 ;;
    v <- number_in field ;;
    Ret (mk_price_info (current_price pi) (market_cap pi) (pe_ratio pi)
           (set_opt v (pb_ratio pi)) (dividend_yield pi) (volume pi) (avg_volume pi))
  else if contains "股息" line || contains "分红" line then
    match search_run_before (String.length line) is_digit_or_dot "%" line with
    | None => Ret pi
    | Some run =>
        v <- of_option ValueError (float_of_run run) ;;
        Ret (mk_price_info (current_price pi) (market_cap pi) (pe_ratio pi)
               (pb_ratio pi) (Some v) (volume pi) (avg_volume pi))
    end
  else if contains "成交量" line then
    field <- index (split ":" line) 1 ;;
    v <- number_in field ;;
    Ret (mk_price_info (current_price pi) (market_cap pi) (pe_ratio pi)
           (pb_ratio pi) (dividend_yield pi) (set_opt v (volume pi)) (avg_volume pi))
  else Ret pi.

(** [_extract_price_info]: [None] is the empty dict that the [except]
    branch returns. *)
Definition _extract_price_info (stock_data : string) : option price_info :=
  try_except
    (pi <- fold_exc extract_line (split "010" stock_data) empty_price_info ;;
     Ret (Some pi))
    (fun _ => None).

(** the truth value of an optional float: present and not zero *)
Definition num_truthy (x : option Q) : bool :=
  match x with Some q => negb (Qeqb q 0) | None => false end.

Definition num (x : option Q) : Q :=
  match x with Some q => q | None => 0 end.

Record valuation_metrics : Type := mk_valuation
  { v_pe_ratio : option Q;
    v_pb_ratio : option Q;
    ps_ratio : option Q;
    peg_ratio : option Q;
    ev_ebitda : option Q;
    v_dividend_yield : option Q;
    valuation_level : string }.

(** [_extract_growth_rate] *)
Definition _extract_growth_rate (fundamentals_data : string) : option Q :=
  Some 12.5.

(** [_calculate_valuation_metrics] (lines 139-169) *)
Definition _calculate_valuation_metrics (pi : price_info)
           (fundamentals_data : option string) : valuation_metrics :=
  let pe := pe_ratio pi in
  let pb := pb_ratio pi in
  let level :=
    if num_truthy pe && num_truthy pb then
      if Qltb (num pe) 15 && Qltb (num pb) 2 then "低估"
      else if Qgtb (num pe) 30 || Qgtb (num pb) 5 then "高估"
      else "合理"
    else "未知" in
  let peg :=
    match fundamentals_data with
    | Some fd =>
        if truthy fd && num_truthy pe then
          let growth_rate := _extract_growth_rate fd in
          if num_truthy growth_rate && Qgtb (num growth_rate) 0
          then Some (num pe / num growth_rate) else None
        else None
    | None => None
    end in
  mk_valuation pe pb None peg None (dividend_yield pi) level.

Record financial_health : Type := mk_health
  { debt_to_equity : option Q;
    current_ratio : option Q;
    quick_ratio : option Q;
    interest_coverage : option Q;
    cash_ratio : option Q;
    working_capital : option Q;
    health_score : Z;
    health_level : string }.

(** [_calculate_financial_health] (lines 171-217) *)
Definition _calculate_financial_health (fundamentals_data : option string)
  : financial_health :=
  if opt_truthy fundamentals_data then
    let debt_to_equity := Some 0.4 in
    let current_ratio := Some 1.8 in
    let quick_ratio := Some 1.2 in
    let interest_coverage := Some 8.5 in
    let cash_ratio := Some 0.3 in
    let score := 0%Z in
    let score := if num_truthy debt_to_equity && Qltb (num debt_to_equity) 0.5
                 then (score + 20)%Z else score in
    let score := if num_truthy current_ratio && Qgtb (num current_ratio) 1.5
                 then (score + 20)%Z else score in
    let score := if num_truthy quick_ratio && Qgtb (num quick_ratio) 1.0
                 then (score + 20)%Z else score in
    let score := if num_truthy interest_coverage && Qgtb (num interest_coverage) 5
                 then (score + 20)%Z else score in
    let score := if num_truthy cash_ratio && Qgtb (num cash_ratio) 0.2
                 then (score + 20)%Z else score in
    let level :=
      if (80 <=? score)%Z then "优秀"
      else if (60 <=? score)%Z then "良好"
      else if (40 <=? score)%Z then "一般"
      else "较差" in
    mk_health debt_to_equity current_ratio quick_ratio interest_coverage
              cash_ratio None score level
  else mk_health None None None None None None 0 "未知".

(** The keys of the result of [analyze_fundamentals] that are modelled
    ([growth_metrics], [profitability_metrics], [safety_metrics],
    [industry_comparison] and [data_quality] are filled from constants
    and raise nothing). *)
Record fundamentals_result : Type := mk_fundamentals
  { r_price_info : price_info;
    r_valuation_metrics : valuation_metrics;
    r_financial_health : financial_health }.

Inductive result : Type :=
| FundError (msg : string)
| FundOk (r : fundamentals_result).

(** [analyze_fundamentals] (lines 26-77) *)
Definition analyze_fundamentals (stock_data : string)
           (fundamentals_data : option string) : result :=
  match _extract_price_info stock_data with
  | None => FundError "无法解析股票价格数据"
  | Some pi =>
      FundOk (mk_fundamentals pi
                (_calculate_valuation_metrics pi fundamentals_data)
                (_calculate_financial_health fundamentals_data))
  end.

End Fundamentals.

(** ** enhanced_sentiment_analysis.py *)

Module Sentiment.
Import PyStr PyNum PyExc.
Local Open Scope exc_scope.
Local Open Scope string_scope.

(** [int(re.search(r'(\d+)', s).group(1))]: without a digit in [s] the
    search yields [None] and [.group] raises [AttributeError]. *)
Definition first_int (s : string) : exc Z :=
  match search_run is_digit s with
  | None => Raise AttributeError
  | Some (run, _) => Ret (int_of_digits run)
  end.

(** the body of the [try] block of [_calculate_single_time_decay] *)
Definition time_decay_body (time_str : string) : exc Q :=
  if contains "小时前" time_str then
    hours <- first_int time_str ;;
    Ret (if (hours <? 24)%Z then 1.0 else 0.9)
  else if contains "天前" time_str then
    days <- first_int time_str ;;
    Ret (if (days =? 1)%Z then 0.9
         else if (days =? 2)%Z then 0.8
         else if (days =? 3)%Z then 0.7
         else if (days <=? 7)%Z then 0.6
         else if (days <=? 14)%Z then 0.4
         else if (days <=? 30)%Z then 0.2
         else 0.1)
  else Ret 1.0.

(** [_calculate_single_time_decay] (lines 396-426); [current_time] is
    not read by the body. *)
Definition _calculate_single_time_decay (time_str : string) : Q :=
  try_except (time_decay_body time_str) (fun _ => 0.5).

End Sentiment.

(** ** enhanced_risk_analysis.py *)

(** the order [np.percentile] sorts by *)
Module QOrder <: TotalLeBool.
Definition t := Q.
Definition leb := Qle_bool.
Theorem leb_total : forall a1 a2, leb a1 a2 = true \/ leb a2 a1 = true.
Proof.
  intros a1 a2. unfold leb. rewrite !Qle_bool_iff.
  destruct (Qlt_le_dec a1 a2) as [H|H]; [left; now apply Qlt_le_weak | now right].
Qed.
End QOrder.

Module QSort := Sort QOrder.

Module Risk.
Import PyStr PyNum PyExc.
Local Open Scope exc_scope.
Local Open Scope string_scope.

(** the body of the loop of [_parse_price_data] (lines 110-126) *)
Definition parse_line (prices : list Q) (raw : string) : exc (list Q) :=
  let line := strip raw in
  if contains "收盘价:" line || contains "价格:" line || contains "Close:" line then
    field <- index (split ":" line) 1 ;;
    v <- number_in field ;;
    Ret (match v with Some q => (prices ++ [q])%list | None => prices end)
  else if contains "," line && (4 <=? List.length (split "," line))%nat then
    (* try: float(parts[3].strip()) ... except: continue *)
    match float_of_string (nth 3 (split "," line) "") with
    | Some close_price => Ret (prices ++ [close_price])%list
    | None => Ret prices
    end
  else Ret prices.

(** the prices read from the text, before the fallback *)
Definition extracted_prices (stock_data : string) : exc (list Q) :=
  fold_exc parse_line (split "010" stock_data) [].

(** lines 131-137: the random walk substituted for missing data *)
Fixpoint mock_prices (n : nat) (base_price : Q) (g : Rng.t) : list Q * Rng.t :=
  match n with
  | O => ([], g)
  | S n' =>
      let '(change, g1) := Rng.normal 0 0.02 g in
      let base_price := base_price * (1 + change) in
      let '(rest, g2) := mock_prices n' base_price g1 in
      (base_price :: rest, g2)
  end.

(** [_parse_price_data] (lines 104-143): [None] is returned by the
    [except] branch. *)
Definition _parse_price_data (stock_data : string) (g : Rng.t)
  : option (list Q) * Rng.t :=
  match extracted_prices stock_data with
  | Raise _ => (None, g)
  | Ret prices =>
      if (List.length prices <? 30)%nat then
        let '(mock, g') := mock_prices 60 100 g in (Some mock, g')
      else (Some prices, g)
  end.

(** [_calculate_returns]: [np.diff(p) / p[:-1]], for prices that are not
    zero (a zero price makes numpy produce an infinity or NaN, which a
    list of rationals does not hold). *)
Fixpoint _calculate_returns (prices : list Q) : list Q :=
  match prices with
  | p0 :: ((p1 :: _) as t) => (p1 - p0) / p0 :: _calculate_returns t
  | _ => []
  end.

(** [np.percentile(a, q)] with the default linear interpolation between
    the two order statistics around the position [(n - 1) * q / 100];
    NaN on an empty array. *)
Definition np_percentile (a : list Q) (q : Q) : xq :=
  let s := QSort.sort a in
  match s with
  | [] => NaN
  | _ =>
      let n := List.length s in
      let virtual_index := inject_Z (Z.of_nat (n - 1)) * (q / 100) in
      let previous := Z.to_nat (Qfloor virtual_index) in
      let next := Nat.min (previous + 1) (n - 1) in
      let gamma := virtual_index - inject_Z (Qfloor virtual_index) in
      let lo := nth previous s 0 in
      let hi := nth next s 0 in
      Fin (lo + (hi - lo) * gamma)
  end.

(** [a[a <= threshold]] *)
Definition at_or_below (threshold : xq) (a : list Q) : list Q :=
  filter (fun r => xleb (Fin r) threshold) a.

(** the sum of the products of deviations from the means *)
Definition codeviation (x y : list Q) : Q :=
  let mx := mean x in
  let my := mean y in
  Qsum (map (fun p => (fst p - mx) * (snd p - my)) (combine x y)).

(** [np.cov(x, y)[0, 1]] (sample covariance, [ddof = 1]) *)
Definition np_cov (x y : list Q) : xq :=
  xdiv (Fin (codeviation x y)) (Fin (inject_Z (Z.of_nat (List.length x) - 1))).

Definition xclip (lo hi : Q) (x : xq) : xq :=
  match x with
  | Fin q => Fin (Qmax lo (Qmin q hi))
  | PInf => Fin hi
  | NInf => Fin lo
  | NaN => NaN
  end.

Definition risk_free_rate : Q := 0.025.

Record market_risk : Type := mk_market_risk
  { beta : option xq;
    alpha : option xq;
    correlation_with_market : xq;
    systematic_risk : option xq;
    idiosyncratic_risk : option xq;
    r_squared : option xq;
    tracking_error : xq }.

Record var_metrics : Type := mk_var_metrics
  { var_95 : xq;
    var_99 : xq;
    cvar_95 : option xq;
    cvar_99 : option xq;
    var_parametric : xq;
    var_historical : xq;
    var_monte_carlo : xq;
    var_ratio : option xq }.

(** the size of the simulation of line 345 *)
Definition monte_carlo_samples : nat := Z.to_nat 10000.

(** [_parse_market_returns] *)
Definition _parse_market_returns (market_data : string) : option (list Q) := None.

(** The keys of the result of [analyze_risk_metrics] that are modelled.
    ([volatility_metrics] and [downside_risk] are computed from [returns]
    alone, [liquidity_risk] from the text and further random draws taken
    after the ones modelled here, [fundamental_risk] from constants, and
    [comprehensive_risk], the alerts and the recommendations from those.) *)
Record risk_result : Type := mk_risk_result
  { price_data_points : nat;
    analysis_period : nat;
    r_market_risk : market_risk;
    r_var_metrics : var_metrics }.

Inductive result : Type :=
| RiskError (msg : string)
| RiskOk (r : risk_result).


Section WithSqrt.

Variable np_sqrt : Q -> Q.

(** [np.std] *)
Definition np_std (l : list Q) : xq := xsqrt np_sqrt (xvar_of l).

(** [np.corrcoef(x, y)[0, 1]] *)
Definition np_corrcoef (x y : list Q) : xq :=
  let sx := xsqrt np_sqrt (np_cov x x) in
  let sy := xsqrt np_sqrt (np_cov y y) in
  xclip (-1) 1 (xdiv (xdiv (np_cov x y) sx) sy).

(** [_calculate_market_risk] (lines 151-200) *)
Definition _calculate_market_risk (returns : list Q) (market_data : option string)
           (g : Rng.t) : market_risk * Rng.t :=
  let '(market_returns, g') :=
    match market_data with
    | None => Rng.normal_n 0.0008 0.015 (List.length returns) g
    | Some md =>
        match _parse_market_returns md with
        | Some mr =>
            if (List.length mr =? List.length returns)%nat then (mr, g)
            else Rng.normal_n 0.0008 0.015 (List.length returns) g
        | None => Rng.normal_n 0.0008 0.015 (List.length returns) g
        end
    end in
  let covariance := np_cov returns market_returns in
  let market_variance := xvar_of market_returns in
  let beta :=
    if xgtb market_variance (Fin 0) then Some (xdiv covariance market_variance)
    else None in
  let rf_daily := Fin (risk_free_rate / 252) in
  let alpha :=
    match beta with
    | Some b =>
        let expected_return :=
          xadd rf_daily (xmul b (xsub (xmean_of market_returns) rf_daily)) in
        Some (xsub (xmean_of returns) expected_return)
    | None => None
    end in
  let correlation := np_corrcoef returns market_returns in
  let r_squared :=
    if xnonzero correlation then Some (xmul correlation correlation) else None in
  let '(systematic, idiosyncratic) :=
    match beta, r_squared with
    | Some b, Some _ =>
        let total_variance := xvar_of returns in
        let sys := xmul (xmul b b) (xvar_of market_returns) in
        (Some sys, Some (xsub total_variance sys))
    | _, _ => (None, None)
    end in
  let tracking_diff := map (fun p => fst p - snd p) (combine returns market_returns) in
  let tracking_error := xmul (np_std tracking_diff) (Fin (np_sqrt 252)) in
  (mk_market_risk beta alpha correlation systematic idiosyncratic r_squared
     tracking_error, g').

(** [np.random.normal(mean, std, n)] followed by [np.percentile(_, 5)];
    the draws are consumed whatever the parameters are. *)
Definition monte_carlo_var (mean_return std_return : xq) (n : nat) (g : Rng.t)
  : xq * Rng.t :=
  match mean_return, std_return with
  | Fin m, Fin s =>
      let '(simulated_returns, g') := Rng.normal_n m s n g in
      (np_percentile simulated_returns 5, g')
  | _, _ => (NaN, snd (Rng.normal_n 0 0 n g))
  end.

(** [_calculate_var_metrics] (lines 309-352) *)
Definition _calculate_var_metrics (returns : list Q) (g : Rng.t)
  : var_metrics * Rng.t :=
  let var_95 := np_percentile returns 5 in
  let var_99 := np_percentile returns 1 in
  let tail_returns_95 := at_or_below var_95 returns in
  let tail_returns_99 := at_or_below var_99 returns in
  let cvar_95 :=
    if (0 <? List.length tail_returns_95)%nat
    then Some (xmean_of tail_returns_95) else None in
  let cvar_99 :=
    if (0 <? List.length tail_returns_99)%nat
    then Some (xmean_of tail_returns_99) else None in
  let mean_return := xmean_of returns in
  let std_return := np_std returns in
  let var_parametric := xsub mean_return (xmul (Fin 1.645) std_return) in
  let '(var_monte_carlo, g') :=
    monte_carlo_var mean_return std_return monte_carlo_samples g in
  let var_ratio :=
    if xnonzero mean_return then Some (xdiv (xabs var_95) (xabs mean_return))
    else None in
  (mk_var_metrics var_95 var_99 cvar_95 cvar_99 var_parametric var_95
     var_monte_carlo var_ratio, g').

(** lines 51-98 of [analyze_risk_metrics]: the metrics of a price series
    that passed the gate *)
Definition metrics_of_series (prices : list Q) (market_data : option string)
           (g1 : Rng.t) : risk_result :=
  let returns := _calculate_returns prices in
  let '(market_risk, g2) := _calculate_market_risk returns market_data g1 in
  let '(var_metrics, _) := _calculate_var_metrics returns g2 in
  mk_risk_result (List.length prices) (List.length returns) market_risk var_metrics.

(** [analyze_risk_metrics] (lines 30-102) *)
Definition analyze_risk_metrics (stock_data : string)
           (market_data fundamentals_data : option string) (g : Rng.t) : result :=
  let '(price_series, g1) := _parse_price_data stock_data g in
  match price_series with
  | None => RiskError "股票价格数据不足，无法进行风险分析"
  | Some prices =>
      if (List.length prices <? 30)%nat then
        RiskError "股票价格数据不足，无法进行风险分析"
      else RiskOk (metrics_of_series prices market_data g1)
  end.

End WithSqrt.

End Risk.

(** ** enhanced_analysis_toolkit.py *)

Module Toolkit.
Import PyStr PyNum PyExc.
Local Open Scope string_scope.

(** What an analyzer hands back: the dict [{"error": message}] or a dict
    of results.  (The message is not modelled.) *)
Inductive analysis (A : Type) : Type :=
| AnError
| AnOk (a : A).
Arguments AnError {A}.
Arguments AnOk {A} a.

(** The keys of each analysis that the aggregator reads; [None] is an
    absent key. *)
Record tech_view : Type := mk_tech
  { signals : list (string * string);          (* the dict [signals], empty if absent *)
    overall_trend : option string }.

Record fund_view : Type := mk_fund
  { valuation_level : option string;
    health_score : option Q }.

Record sent_view : Type := mk_sent
  { weighted_sentiment : option Q;
    confidence_score : option Q;
    overall_sentiment : option string }.

Record risk_view : Type := mk_risk
  { overall_risk_score : option Q;
    risk_level : option string;
    risk_alerts : list string }.                (* the alerts' descriptions *)

Record summary : Type := mk_summary
  { technical_score : Q;
    fundamentals_score : Q;
    sentiment_score : Q;
    risk_score : Q;
    overall_score : Q;
    key_points : list string;
    strengths : list string;
    weaknesses : list string }.

Record recommendation : Type := mk_recommendation
  { rating : string;
    target_price : option Q;
    time_horizon : string;
    rec_risk_level : string;
    position_size : string;
    risk_warnings : list string;
    action_items : list string }.

Record results : Type := mk_results
  { ticker : string;
    company_name : string;
    technical_analysis : option (analysis tech_view);
    fundamentals_analysis : option (analysis fund_view);
    sentiment_analysis : option (analysis sent_view);
    risk_analysis : option (analysis risk_view);
    comprehensive_summary : option summary;
    investment_recommendation : option recommendation }.

(** [x and "error" not in x] *)
Definition usable {A} (x : option (analysis A)) : option A :=
  match x with
  | Some (AnOk a) => Some a
  | _ => None
  end.

Definition get {A} (o : option A) (default : A) : A :=
  match o with Some a => a | None => default end.

Definition is_bullish (signal : string) : bool :=
  String.eqb signal "买入" || String.eqb signal "看涨".

Definition count_Q {A} (l : list A) : Q := inject_Z (Z.of_nat (List.length l)).

(** lines 274-287 *)
Definition technical_part (res : results) : Q * list string :=
  match usable (technical_analysis res) with
  | Some tech =>
      let sigs := signals tech in
      let score :=
        match sigs with
        | [] => 0
        | _ =>
            let bullish_count := count_Q (filter (fun kv => is_bullish (snd kv)) sigs) in
            let total_signals := count_Q sigs in
            if Qgtb total_signals 0 then bullish_count / total_signals * 100 else 50
        end in
      let trend := get (overall_trend tech) "未知" in
      (score, if String.eqb trend "未知" then [] else ["技术面趋势: " ++ trend])
  | None => (0, [])
  end.

(** lines 289-305 *)
Definition fundamentals_part (res : results) : Q * list string :=
  match usable (fundamentals_analysis res) with
  | Some fund =>
      let valuation := get (valuation_level fund) "未知" in
      let health := get (health_score fund) 50 in
      let score :=
        if String.eqb valuation "低估" then Qmin 100 (health + 20)
        else if String.eqb valuation "合理" then health
        else Qmax 0 (health - 20) in
      (score, if String.eqb valuation "未知" then [] else ["估值水平: " ++ valuation])
  | None => (0, [])
  end.

(** lines 307-321 *)
Definition sentiment_part (res : results) : Q * list string :=
  match usable (sentiment_analysis res) with
  | Some sent =>
      let weighted := get (weighted_sentiment sent) 0 in
      let confidence := get (confidence_score sent) 0.5 in
      let sentiment_score := (weighted + 1) * 50 in
      let overall := get (overall_sentiment sent) "未知" in
      (sentiment_score * confidence,
       if String.eqb overall "未知" then [] else ["市场情绪: " ++ overall])
  | None => (0, [])
  end.

(** lines 323-332 *)
Definition risk_part (res : results) : Q * list string :=
  match usable (risk_analysis res) with
  | Some risk =>
      let risk_score := get (overall_risk_score risk) 50 in
      let level := get (risk_level risk) "未知" in
      (100 - risk_score,
       if String.eqb level "未知" then [] else ["风险水平: " ++ level])
  | None => (0, [])
  end.

Definition strength_or_weakness (score : Q) (strong weak : string)
  : list string * list string :=
  if Qgtb score 70 then ([strong], [])
  else if Qltb score 30 then ([], [weak])
  else ([], []).

(** [_generate_comprehensive_summary] (lines 261-363) *)
Definition _generate_comprehensive_summary (res : results) : summary :=
  let '(technical, kp1) := technical_part res in
  let '(fundamentals, kp2) := fundamentals_part res in
  let '(sentiment, kp3) := sentiment_part res in
  let '(risk, kp4) := risk_part res in
  let scores := [technical; fundamentals; sentiment; risk] in
  let valid_scores := filter (fun s => Qgtb s 0) scores in
  let overall :=
    match valid_scores with
    | [] => 0
    | _ => Qsum valid_scores / count_Q valid_scores
    end in
  let sw1 := strength_or_weakness technical "技术面表现强劲" "技术面偏弱" in
  let sw2 := strength_or_weakness fundamentals "基本面健康" "基本面存在问题" in
  let sw3 := strength_or_weakness sentiment "市场情绪积极" "市场情绪消极" in
  let sw4 := strength_or_weakness risk "风险控制良好" "风险水平较高" in
  mk_summary technical fundamentals sentiment risk overall
    (kp1 ++ kp2 ++ kp3 ++ kp4)%list
    (fst sw1 ++ fst sw2 ++ fst sw3 ++ fst sw4)%list
    (snd sw1 ++ snd sw2 ++ snd sw3 ++ snd sw4)%list.

Definition one_of (s : string) (l : list string) : bool :=
  existsb (String.eqb s) l.

(** [_generate_investment_recommendation] (lines 365-442) *)
Definition _generate_investment_recommendation (res : results) : recommendation :=
  let overall_score :=
    match comprehensive_summary res with
    | Some sm => overall_score sm
    | None => 50
    end in
  let '(rating, position) :=
    if Qgeb overall_score 80 then ("强烈买入", "重仓")
    else if Qgeb overall_score 65 then ("买入", "标准仓位")
    else if Qgeb overall_score 50 then ("持有", "轻仓")
    else if Qgeb overall_score 35 then ("减持", "减仓")
    else ("卖出", "清仓") in
  let '(level, position, warnings) :=
    match usable (risk_analysis res) with
    | Some risk =>
        let level := get (risk_level risk) "中" in
        let high := String.eqb level "高" in
        (level,
         if high && one_of rating ["强烈买入"; "买入"] then "轻仓" else position,
         ((if high then ["投资风险较高，建议谨慎操作"] else [])
            ++ firstn 2 (risk_alerts risk))%list)
    | None => ("中等", position, [])
    end in
  let horizon :=
    match usable (technical_analysis res) with
    | Some tech =>
        let trend := get (overall_trend tech) "" in
        if contains "短期" trend then "短期（1-3个月）"
        else if contains "长期" trend then "长期（6-12个月）"
        else "中期（3-6个月）"
    | None => "中期（3-6个月）"
    end in
  let actions :=
    if one_of rating ["强烈买入"; "买入"] then
      ["可考虑分批建仓"; "设置合理的止损点"; "关注市场整体走势"]
    else if String.eqb rating "持有" then
      ["继续观察基本面变化"; "关注技术面突破信号"; "保持现有仓位"]
    else ["考虑逐步减仓"; "寻找更好的投资机会"; "加强风险控制"] in
  mk_recommendation rating None horizon level position warnings actions.

(** [self.technical_analyzer.analyze_stock_data(stock_data)] (line 106):
    the class [EnhancedTechnicalAnalyzer] defines [calculate_technical_indicators],
    [format_indicators_for_analysis], [analyze_with_deepseek],
    [enhanced_technical_analysis] and [_parse_stock_data], and no
    attribute [analyze_stock_data]; looking it up raises. *)
Definition technical_analyzer_analyze_stock_data (stock_data : string)
  : exc (analysis tech_view) :=
  Raise AttributeError.

(** the keys the aggregator reads from the result of
    [analyze_fundamentals] *)
Definition fund_view_of (r : Fundamentals.result) : analysis fund_view :=
  match r with
  | Fundamentals.FundError _ => AnError
  | Fundamentals.FundOk fr =>
      AnOk (mk_fund
              (Some (Fundamentals.valuation_level (Fundamentals.r_valuation_metrics fr)))
              (Some (inject_Z
                       (Fundamentals.health_score (Fundamentals.r_financial_health fr)))))
  end.

(** a call inside [try: ... except Exception as e: {"error": str(e)}] *)
Definition guarded {A} (call : exc (analysis A)) : analysis A :=
  try_except call (fun _ => AnError).

Section Analyzers.

(** The sentiment and the risk analyzer, as the aggregator sees them:
    [analyze_news_sentiment(news_data, ticker)] and
    [analyze_risk_metrics(stock_data, market_data, fundamentals_data)]. *)
Variable analyze_news_sentiment : string -> string -> exc (analysis sent_view).
Variable analyze_risk_metrics :
  string -> option string -> option string -> exc (analysis risk_view).

(** [comprehensive_analysis] (lines 68-154), the four analyzers having
    been constructed.  ([analysis_date] and [analysis_quality] are not
    part of [results].) *)
Definition comprehensive_analysis (ticker stock_data : string)
           (fundamentals_data news_data market_data : option string)
           (company_name : string) : results :=
  let technical :=
    if truthy stock_data
    then Some (guarded (technical_analyzer_analyze_stock_data stock_data))
    else None in
  let fundamentals :=
    Some (guarded (Ret (fund_view_of
                          (Fundamentals.analyze_fundamentals stock_data
                             fundamentals_data)))) in
  let sentiment :=
    match news_data with
    | Some nd =>
        if truthy nd then Some (guarded (analyze_news_sentiment nd ticker)) else None
    | None => None
    end in
  let risk :=
    Some (guarded (analyze_risk_metrics stock_data market_data fundamentals_data)) in
  let res := mk_results ticker company_name technical fundamentals sentiment risk
                        None None in
  let sm := _generate_comprehensive_summary res in
  let res := mk_results ticker company_name technical fundamentals sentiment risk
                        (Some sm) None in
  let rc := _generate_investment_recommendation res in
  mk_results ticker company_name technical fundamentals sentiment risk
             (Some sm) (Some rc).

End Analyzers.

(** a result dict that holds the given summary and nothing else *)
Definition results_with_summary (sm : summary) : results :=
  mk_results "" "" None None None None (Some sm) None.

Definition summary_with_overall_score (s : Q) : summary :=
  mk_summary 0 0 0 0 s [] [] [].

End Toolkit.

(** ** Sums on fractions in lowest terms

    The operations of [Q] do not reduce fractions, and the sums above grow
    with every term.  These are the same sums with every intermediate
    result reduced; they are used to evaluate the model on concrete
    inputs. *)

Module Reduced.
Import PyNum.






End Reduced.

(** ** Input texts and sample values used in the statements *)

Module Samples.
Local Open Scope string_scope.

Definition newline : string := String "010" EmptyString.

(** the text whose lines are [l] *)
Definition text (l : list string) : string := String.concat newline l.

(** A square root to eight decimals (rounded down), exact at zero. *)
Definition sqrt_approx (q : Q) : Q :=
  Z.sqrt (Qnum q * Zpos (Qden q) * 10 ^ 16) # (Qden q * 10 ^ 8).

(** the rating computed from a summary whose [overall_score] is [s] *)
Definition rating_at (s : Q) : string :=
  Toolkit.rating
    (Toolkit._generate_investment_recommendation
       (Toolkit.results_with_summary (Toolkit.summary_with_overall_score s))).

(** the rating of [_generate_investment_recommendation] as a function of
    the score it reads *)
Definition rating_of_score (s : Q) : string :=
  if PyNum.Qgeb s 80 then "强烈买入"
  else if PyNum.Qgeb s 65 then "买入"
  else if PyNum.Qgeb s 50 then "持有"
  else if PyNum.Qgeb s 35 then "减持"
  else "卖出".

(** The rating ladder in the words of the specification. *)
Definition rating_ladder (s : Q) (r : string) : Prop :=
  (80 <= s -> r = "强烈买入") /\
  (65 <= s /\ s < 80 -> r = "买入") /\
  (50 <= s /\ s < 65 -> r = "持有") /\
  (35 <= s /\ s < 50 -> r = "减持") /\
  (s < 35 -> r = "卖出").

(** thirty bars whose close rises by one from 10 on *)
Definition rising_frame : Technical.frame :=
  Technical.mk_frame
    (map (fun i => let p := inject_Z (Z.of_nat (10 + i)) in
                   Technical.mk_bar p p p p (Some 1000))
         (seq 0 30))
    true.




(** two states of the random source: the variates one tenth of 0, 1, -1, 2,
    -2, 0, 1, ... and one tenth of 3, -1, 0, 2, -3, 1, 3, ... *)
Definition rng_a : Rng.t :=
  Rng.mk (fun i => nth (i mod 5) [0; 0.1; -0.1; 0.2; -0.2] 0) 0.



(** The valuation rule in the words of the specification. *)
Definition valuation_rule (pe pb : Q) (level : string) : Prop :=
  (pe < 15 /\ pb < 2 -> level = "低估") /\
  (30 < pe \/ 5 < pb -> level = "高估") /\
  (~ (pe < 15 /\ pb < 2) /\ ~ (30 < pe \/ 5 < pb) -> level = "合理").

End Samples.

(** ** More of Python's strings *)

Module PyText.
Import PyStr PyExc.

(** a byte that continues a UTF-8 sequence *)
Definition is_continuation (c : ascii) : bool :=
  let n := nat_of_ascii c in (128 <=? n)%nat && (n <? 192)%nat.

(** [len(s)]: the number of code points of the text *)
Fixpoint py_len (s : string) : nat :=
  match s with
  | EmptyString => O
  | String c t => if is_continuation c then py_len t else S (py_len t)
  end.

(** the text after the first [sep], if [s] holds one *)
Fixpoint after_first (sep : ascii) (s : string) : option string :=
  match s with
  | EmptyString => None
  | String c t => if Ascii.eqb c sep then Some t else after_first sep t
  end.

(** [s.split(sep, 1)[1]] *)
Definition split_once_second (sep : ascii) (s : string) : exc string :=
  of_option IndexError (after_first sep s).

(** [hay.count(needle)] for a non-empty [needle]: the occurrences found
    from the left, each search starting after the previous occurrence.
    [skip] is the number of characters still covered by the last one. *)
Fixpoint count_skipping (needle : string) (skip : nat) (hay : string) : nat :=
  match hay with
  | EmptyString => O
  | String _ t =>
      match skip with
      | S k => count_skipping needle k t
      | O =>
          if String.prefix needle hay
          then S (count_skipping needle (String.length needle - 1) t)
          else count_skipping needle O t
      end
  end.

Definition count (needle hay : string) : nat := count_skipping needle O hay.

End PyText.

(** ** enhanced_technical_analysis.py: prices, averages and levels *)

Module TechnicalLevels.
Import PyNum Technical.
Local Open Scope string_scope.






(** [(a - b) / b * 100] *)
Definition pct_from (a b : xq) : xq := xmul (xdiv (xsub a b) b) (Fin 100).

Record price_info : Type := mk_price
  { current_price : xq; prev_close : xq; change : xq; change_pct : xq;
    high_52w : xq; low_52w : xq; from_52w_high : xq; from_52w_low : xq }.

Definition last_close (df : frame) : xq := cell (iloc_neg (map Fin (closes df)) 1).


Record ma_info : Type := mk_ma
  { ma_value : xq; ma_distance : xq; ma_trend : string }.

(** the body of the loop of lines 64-71 *)
Definition calc_ma (df : frame) (period : nat) : option ma_info :=
  if (period <=? List.length (rows df))%nat then
    let m := rolling_mean period (map Fin (closes df)) in
    let ma := cell (iloc_neg m 1) in
    Some (mk_ma (xround 2 ma) (xround 2 (pct_from (last_close df) ma))
            (if xgtb (cell (iloc_neg m 1)) (cell (iloc_neg m 2)) then "up" else "down"))
  else None.

Definition present {A} (k : nat) (o : option A) : list (nat * A) :=
  match o with Some a => [(k, a)] | None => [] end.

(** the dict [moving_averages], the key [MA5] written [5] *)
Definition moving_averages (df : frame) : list (nat * ma_info) :=
  flat_map (fun period => present period (calc_ma df period)) [5; 10; 20; 50; 200]%nat.

(** [s.ewm(span=span).mean()] (pandas' default [adjust=True]): at each
    row the average of the values so far with the weights [(1 - alpha)^i],
    [i] rows back, for [alpha = 2 / (span + 1)].  [num] and [den] are the
    weighted sum and the sum of the weights up to the previous row. *)
Fixpoint ewm_from (alpha num den : Q) (l : list Q) : list Q :=
  match l with
  | [] => []
  | x :: t =>
      let num' := x + (1 - alpha) * num in
      let den' := 1 + (1 - alpha) * den in
      num' / den' :: ewm_from alpha num' den' t
  end.

Definition ewm_mean (span : nat) (l : list Q) : list Q :=
  ewm_from (2 / (inject_Z (Z.of_nat span) + 1)) 0 0 l.

Record ema_info : Type := mk_ema { ema_value : xq; ema_distance : xq }.

(** the body of the loop of lines 75-81 *)
Definition calc_ema (df : frame) (period : nat) : option ema_info :=
  if (period <=? List.length (rows df))%nat then
    let ema := cell (iloc_neg (map Fin (ewm_mean period (closes df))) 1) in
    Some (mk_ema (xround 2 ema) (xround 2 (pct_from (last_close df) ema)))
  else None.

Definition ema (df : frame) : list (nat * ema_info) :=
  flat_map (fun period => present period (calc_ema df period)) [12; 26]%nat.














End TechnicalLevels.

(** ** enhanced_fundamentals_analysis.py: the remaining metrics *)

Module FundamentalsProfile.
Import PyStr PyText PyNum PyExc Fundamentals.
Local Open Scope string_scope.

(** a line that names a ratio or the volume without a colon: no
    "当前价格:", "最新价:", "市值:" or "总市值:" can be in it, and the third,
    the fourth or the sixth branch of the loop of [_extract_price_info]
    takes it *)
Definition bare_label (raw : string) : bool :=
  let line := strip raw in
  negb (contains ":" line)
  && (contains "PE" (upper line) || contains "市盈率" line
      || contains "PB" (upper line) || contains "市净率" line
      || (negb (contains "股息" line || contains "分红" line)
          && contains "成交量" line)).

Record growth_metrics : Type := mk_growth
  { revenue_growth_1y : option Q;
    revenue_growth_3y : option Q;
    profit_growth_1y : option Q;
    profit_growth_3y : option Q;
    eps_growth_1y : option Q;
    roe_trend : string;
    growth_quality : string;
    growth_sustainability : string }.

(** [_calculate_growth_metrics] (lines 219-249) *)
Definition _calculate_growth_metrics (fundamentals_data : option string)
  : growth_metrics :=
  if opt_truthy fundamentals_data then
    let revenue_growth_1y := Some 12.5 in
    let profit_growth_1y := Some 15.2 in
    let quality :=
      if num_truthy revenue_growth_1y && Qgtb (num revenue_growth_1y) 10
         && num_truthy profit_growth_1y
         && Qgtb (num profit_growth_1y) (num revenue_growth_1y)
      then "优秀"
      else if num_truthy revenue_growth_1y && Qgtb (num revenue_growth_1y) 5
      then "良好"
      else "一般" in
    mk_growth revenue_growth_1y (Some 8.3) profit_growth_1y (Some 10.1) (Some 14.8)
      "稳定" quality "未知"
  else mk_growth None None None None None "稳定" "未知" "未知".

Record profitability_metrics : Type := mk_profitability
  { roe : option Q;
    roa : option Q;
    gross_margin : option Q;
    net_margin : option Q;
    operating_margin : option Q;
    roic : option Q;
    profitability_trend : string;
    profitability_level : string }.

(** [_calculate_profitability_metrics] (lines 251-284) *)
Definition _calculate_profitability_metrics (fundamentals_data : option string)
  : profitability_metrics :=
  if opt_truthy fundamentals_data then
    let roe := Some 15.2 in
    let level :=
      if num_truthy roe && Qgtb (num roe) 15 then "优秀"
      else if num_truthy roe && Qgtb (num roe) 10 then "良好"
      else if num_truthy roe && Qgtb (num roe) 5 then "一般"
      else "较差" in
    mk_profitability roe (Some 8.5) (Some 35.8) (Some 12.3) (Some 18.7) (Some 13.9)
      "稳定" level
  else mk_profitability None None None None None None "稳定" "未知".

Record safety_metrics : Type := mk_safety
  { altman_z_score : option Q;
    piotroski_score : option Z;
    debt_service_ratio : option Q;
    cash_coverage : option Q;
    bankruptcy_risk : string;
    financial_distress : string;
    safety_level : string }.

(** [_calculate_safety_metrics] (lines 286-317) *)
Definition _calculate_safety_metrics (fundamentals_data : option string)
  : safety_metrics :=
  if opt_truthy fundamentals_data then
    let z_score := Some 3.2 in
    let '(level, bankruptcy) :=
      if num_truthy z_score && Qgtb (num z_score) 2.99 then ("安全", "低")
      else if num_truthy z_score && Qgtb (num z_score) 1.81 then ("一般", "中等")
      else ("风险", "高") in
    mk_safety z_score (Some 7%Z) (Some 0.25) (Some 2.1) bankruptcy "否" level
  else mk_safety None None None None "低" "否" "未知".

Record industry_comparison : Type := mk_industry
  { industry_avg_pe : Q;
    industry_avg_pb : Q;
    industry_avg_roe : Q;
    pe_percentile : option Q;
    pb_percentile : option Q;
    relative_valuation : string;
    industry_position : string }.

(** [_perform_industry_comparison] (lines 319-342) *)
Definition _perform_industry_comparison (pi : price_info) (vm : valuation_metrics)
  : industry_comparison :=
  let industry_avg_pe := 18.5 in
  let pe := v_pe_ratio vm in
  let relative :=
    if num_truthy pe then
      if Qltb (num pe) (industry_avg_pe * 0.8) then "相对低估"
      else if Qgtb (num pe) (industry_avg_pe * 1.2) then "相对高估"
      else "相对合理"
    else "未知" in
  mk_industry industry_avg_pe 2.3 12.8 None None relative "未知".

Record data_quality : Type := mk_quality
  { completeness : Q;
    freshness : Q;
    reliability : Q;
    overall_score : Q;
    quality_level : string }.

(** [s and len(s) > 100] *)
Definition long_text (s : string) : bool := truthy s && (100 <? py_len s)%nat.

Definition opt_long_text (s : option string) : bool :=
  match s with Some t => long_text t | None => false end.

(** [_assess_data_quality] (lines 349-385) *)
Definition _assess_data_quality (stock_data : string)
           (fundamentals_data : option string) : data_quality :=
  let completeness := 0 in
  let completeness :=
    if long_text stock_data then completeness + 50 else completeness in
  let completeness :=
    if opt_long_text fundamentals_data then completeness + 50 else completeness in
  let freshness := 80 in
  let reliability := 85 in
  let overall := completeness * 0.4 + freshness * 0.3 + reliability * 0.3 in
  mk_quality completeness freshness reliability overall
    (if Qgeb overall 80 then "优秀"
     else if Qgeb overall 60 then "良好"
     else "一般").

(** The keys of the result of [analyze_fundamentals] that
    [Fundamentals.fundamentals_result] does not hold. *)
Record profile : Type := mk_profile
  { p_growth_metrics : growth_metrics;
    p_profitability_metrics : profitability_metrics;
    p_safety_metrics : safety_metrics;
    p_industry_comparison : industry_comparison;
    p_data_quality : data_quality }.

(** lines 51-73 of [analyze_fundamentals]; [None] is an error dict *)
Definition analyze_profile (stock_data : string) (fundamentals_data : option string)
  : option profile :=
  match analyze_fundamentals stock_data fundamentals_data with
  | FundError _ => None
  | FundOk r =>
      Some (mk_profile
              (_calculate_growth_metrics fundamentals_data)
              (_calculate_profitability_metrics fundamentals_data)
              (_calculate_safety_metrics fundamentals_data)
              (_perform_industry_comparison (r_price_info r) (r_valuation_metrics r))
              (_assess_data_quality stock_data fundamentals_data))
  end.

End FundamentalsProfile.

(** ** enhanced_sentiment_analysis.py: from the news text to the alerts *)

Module News.
Import PyStr PyText PyNum PyExc.
Local Open Scope exc_scope.
Local Open Scope string_scope.

(** The dict [current_news] while a news item is being read: an absent
    key is [None]. *)
Record draft : Type := mk_draft
  { d_title : option string;
    d_content : option string;
    d_time : option string;
    d_source : option string;
    d_url : option string }.

Definition empty_draft : draft := mk_draft None None None None None.

(** [len(current_news) == 0] *)
Definition draft_is_empty (d : draft) : bool :=
  match d with
  | mk_draft None None None None None => true
  | _ => false
  end.

Definition is_none {A} (o : option A) : bool :=
  match o with None => true | Some _ => false end.

(** a news item after [setdefault] has filled the absent keys *)
Record news_item : Type := mk_news
  { title : string; content : string; time : string; source : string; url : string }.

Definition labelled (zh en line : string) : bool :=
  String.prefix zh line || String.prefix en line.

(** [line.split(':', 1)[1].strip()] *)
Definition value_of (line : string) : exc string :=
  v <- split_once_second ":" line ;; Ret (strip v).

(** the body of the loop of [_parse_news_data] (lines 144-178) *)
Definition parse_step (st : list draft * draft) (raw : string)
  : exc (list draft * draft) :=
  let '(news_items, cur) := st in
  let line := strip raw in
  if is_empty line then
    Ret (if draft_is_empty cur then (news_items, cur)
         else ((news_items ++ [cur])%list, empty_draft))
  else if labelled "标题:" "Title:" line then
    v <- value_of line ;;
    Ret (news_items,
         mk_draft (Some v) (d_content cur) (d_time cur) (d_source cur) (d_url cur))
  else if labelled "内容:" "Content:" line then
    v <- value_of line ;;
    Ret (news_items,
         mk_draft (d_title cur) (Some v) (d_time cur) (d_source cur) (d_url cur))
  else if labelled "时间:" "Time:" line then
    v <- value_of line ;;
    Ret (news_items,
         mk_draft (d_title cur) (d_content cur) (Some v) (d_source cur) (d_url cur))
  else if labelled "来源:" "Source:" line then
    v <- value_of line ;;
    Ret (news_items,
         mk_draft (d_title cur) (d_content cur) (d_time cur) (Some v) (d_url cur))
  else if labelled "链接:" "URL:" line then
    v <- value_of line ;;
    Ret (news_items,
         mk_draft (d_title cur) (d_content cur) (d_time cur) (d_source cur) (Some v))
  else if contains ":" line && draft_is_empty cur then
    Ret (news_items,
         mk_draft (Some line) (d_content cur) (d_time cur) (d_source cur) (d_url cur))
  else if (20 <? py_len line)%nat && is_none (d_content cur) then
    Ret (news_items,
         mk_draft (d_title cur) (Some line) (d_time cur) (d_source cur) (d_url cur))
  else Ret st.


Section Dated.

(** [self.current_date], the day the analyzer was created
    ([YYYY-MM-DD]) *)
Variable current_date : string.

(** lines 185-190 *)
Definition with_defaults (d : draft) : news_item :=
  mk_news (Toolkit.get (d_title d) "未知标题")
          (Toolkit.get (d_content d) EmptyString)
          (Toolkit.get (d_time d) current_date)
          (Toolkit.get (d_source d) "未知来源")
          (Toolkit.get (d_url d) EmptyString).

(** [_parse_news_data] (lines 136-196) *)
Definition _parse_news_data (news_data : string) : list news_item :=
  try_except
    (st <- fold_exc parse_step (split "010" news_data) ([], empty_draft) ;;
     let '(news_items, cur) := st in
     let news_items :=
       if draft_is_empty cur then news_items else (news_items ++ [cur])%list in
     Ret (map with_defaults news_items))
    (fun _ => []).

End Dated.

Definition positive_keywords : list (string * Q) :=
  [("上涨", 0.8); ("涨停", 1.0); ("突破", 0.7); ("创新高", 0.9);
   ("利好", 0.8); ("盈利", 0.6); ("增长", 0.7); ("扩张", 0.6);
   ("合作", 0.5); ("签约", 0.6); ("中标", 0.7); ("获得", 0.5);
   ("成功", 0.6); ("优秀", 0.5); ("强劲", 0.7); ("超预期", 0.8);
   ("买入", 0.6); ("推荐", 0.5); ("看好", 0.6); ("乐观", 0.6)].

Definition negative_keywords : list (string * Q) :=
  [("下跌", -0.8); ("跌停", -1.0); ("暴跌", -0.9); ("破位", -0.7);
   ("利空", -0.8); ("亏损", -0.7); ("下滑", -0.6); ("萎缩", -0.6);
   ("风险", -0.6); ("警告", -0.7); ("调查", -0.5); ("处罚", -0.8);
   ("失败", -0.6); ("困难", -0.5); ("疲软", -0.6); ("低于预期", -0.7);
   ("卖出", -0.6); ("减持", -0.5); ("看空", -0.6); ("悲观", -0.6)].

(** one of the two loops of lines 256-265: [score] and [word_count]
    after the keywords of one polarity *)
Definition tally (keywords : list (string * Q)) (text : string) (acc : Q * nat)
  : Q * nat :=
  fold_left
    (fun a kw =>
       let n := count (fst kw) text in
       (fst a + inject_Z (Z.of_nat n) * snd kw, (snd a + n)%nat))
    keywords acc.

Section WithSqrt.

(** [math.sqrt] and [np.sqrt] *)
Variable math_sqrt : Q -> Q.
Variable np_sqrt : Q -> Q.

(** [_calculate_text_sentiment] (lines 250-272) *)
Definition _calculate_text_sentiment (text : string) : Q :=
  let '(score, word_count) :=
    tally negative_keywords text (tally positive_keywords text (0, O)) in
  let score :=
    if (0 <? word_count)%nat
    then score / math_sqrt (inject_Z (Z.of_nat word_count))
    else score in
  Qmax (-1.0) (Qmin 1.0 score).

(** [_classify_sentiment] (lines 274-281) *)
Definition _classify_sentiment (score : Q) : string :=
  if Qgtb score 0.3 then "积极"
  else if Qltb score (-0.3) then "消极"
  else "中性".

Record scored : Type := mk_scored
  { s_title : string; score : Q; sentiment : string }.

Record sentiment_scores : Type := mk_scores
  { individual_scores : list scored;
    positive_count : nat;
    negative_count : nat;
    neutral_count : nat;
    average_score : Q;
    sentiment_distribution : option (Q * Q * Q);  (* positive, negative, neutral *)
    extreme_sentiment_ratio : Q }.

Definition ratio (k n : nat) : Q := inject_Z (Z.of_nat k) / inject_Z (Z.of_nat n).

Definition count_if {A} (p : A -> bool) (l : list A) : nat := List.length (filter p l).

(** the text line 213 scores: [f"{title} {content}"] *)
Definition scored_text (item : news_item) : string :=
  title item ++ " " ++ content item.

Definition score_item (item : news_item) : scored :=
  let s := _calculate_text_sentiment (scored_text item) in
  mk_scored (title item) s (_classify_sentiment s).

(** [_calculate_sentiment_scores] (lines 198-248) *)
Definition _calculate_sentiment_scores (news_items : list news_item)
  : sentiment_scores :=
  let individual := map score_item news_items in
  let scores := map score individual in
  let total_count := List.length news_items in
  let positive := count_if (fun s => Qgtb s 0.1) scores in
  let negative := count_if (fun s => negb (Qgtb s 0.1) && Qltb s (-0.1)) scores in
  let neutral :=
    count_if (fun s => negb (Qgtb s 0.1) && negb (Qltb s (-0.1))) scores in
  mk_scores individual positive negative neutral
    (if (0 <? total_count)%nat then Qsum scores / Qlen scores else 0.0)
    (if (0 <? total_count)%nat
     then Some (ratio positive total_count, ratio negative total_count,
                ratio neutral total_count)
     else None)
    (if (0 <? total_count)%nat
     then ratio (count_if (fun s => Qgtb (Qabs s) 0.7) scores) total_count
     else 0).

Definition news_source_weights : list (string * Q) :=
  [("央视新闻", 1.0); ("新华社", 1.0); ("人民日报", 1.0);
   ("证券时报", 0.9); ("上海证券报", 0.9); ("中国证券报", 0.9);
   ("财经", 0.8); ("第一财经", 0.8); ("21世纪经济报道", 0.8);
   ("新浪财经", 0.7); ("腾讯财经", 0.7); ("网易财经", 0.7);
   ("其他", 0.5)].

(** [_get_source_weight] (lines 340-345): the weight of the first key, in
    the order of the dict, that the source holds *)
Definition _get_source_weight (source : string) : Q :=
  match find (fun kw => contains (fst kw) source) news_source_weights with
  | Some kw => snd kw
  | None => 0.5
  end.

(** [re.search(r'\d+%|\d+亿|\d+万', s)] finds a match: some digit stands
    right before one of the three marks *)
Fixpoint has_figure (s : string) : bool :=
  match s with
  | EmptyString => false
  | String c t =>
      (is_digit c
       && (String.prefix "%" t || String.prefix "亿" t || String.prefix "万" t))
      || has_figure t
  end.

Definition high_impact_keywords : list string :=
  ["政策"; "监管"; "业绩"; "重组"; "并购"; "IPO"; "退市"].

(** [_get_content_weight] (lines 347-361) *)
Definition _get_content_weight (content : string) : Q :=
  let weight :=
    fold_left (fun w keyword => if contains keyword content then w * 1.2 else w)
              high_impact_keywords 1.0 in
  let weight := if has_figure content then weight * 1.1 else weight in
  Qmin weight 2.0.

Record weighted : Type := mk_weighted
  { w_title : string; w_source : string;
    base_weight : Q; content_weight : Q; final_weight : Q }.

(** The keys of the result of [_calculate_impact_weights] that are
    modelled; [source_weights], the average per source, is not. *)
Record impact_weights : Type := mk_impact
  { individual_weights : list weighted;
    average_weight : Q;
    high_impact_ratio : Q }.

Definition weigh_item (item : news_item) : weighted :=
  let base_weight := _get_source_weight (source item) in
  let content_weight := _get_content_weight (title item ++ " " ++ content item) in
  mk_weighted (title item) (source item) base_weight content_weight
    (base_weight * content_weight).

(** [_calculate_impact_weights] (lines 283-338) *)
Definition _calculate_impact_weights (news_items : list news_item) : impact_weights :=
  let individual := map weigh_item news_items in
  let finals := map final_weight individual in
  let n := List.length news_items in
  mk_impact individual
    (if (0 <? n)%nat then Qsum finals / Qlen finals else 0.0)
    (if (0 <? n)%nat then ratio (count_if (fun w => Qgtb w 0.7) finals) n else 0.0).

Record decayed : Type := mk_decayed
  { dc_title : string; dc_time : string; decay_factor : Q }.

Record time_decay_factors : Type := mk_decay
  { individual_factors : list decayed;
    average_decay : Q;
    fresh_news_ratio : Q }.

Definition decay_item (item : news_item) : decayed :=
  mk_decayed (title item) (time item) (Sentiment._calculate_single_time_decay (time item)).

(** [_calculate_time_decay] (lines 363-394) *)
Definition _calculate_time_decay (news_items : list news_item) : time_decay_factors :=
  let individual := map decay_item news_items in
  let decays := map decay_factor individual in
  let n := List.length news_items in
  mk_decay individual
    (if (0 <? n)%nat then Qsum decays / Qlen decays else 0.0)
    (if (0 <? n)%nat then ratio (count_if (fun d => Qgtb d 0.8) decays) n else 0.0).

Record comprehensive_sentiment : Type := mk_comprehensive
  { weighted_sentiment : Q;
    confidence_score : Q;
    sentiment_strength : string;
    market_impact_level : string;
    overall_sentiment : string }.

(** the two sums of lines 447-454: [total_weighted_score] and
    [total_weight] *)
Fixpoint weighted_totals (scores weights decays : list Q) : Q * Q :=
  match scores, weights, decays with
  | s :: scores', w :: weights', d :: decays' =>
      let '(tws, tw) := weighted_totals scores' weights' decays' in
      (s * (w * d) + tws, w * d + tw)
  | _, _, _ => (0, 0)
  end.

(** [_calculate_comprehensive_sentiment] (lines 428-494) *)
Definition _calculate_comprehensive_sentiment (ss : sentiment_scores)
           (iw : impact_weights) (td : time_decay_factors) : comprehensive_sentiment :=
  match individual_scores ss with
  | [] => mk_comprehensive 0.0 0.0 "弱" "低" "中性"
  | _ =>
      let '(total_weighted_score, total_weight) :=
        weighted_totals (map score (individual_scores ss))
                        (map final_weight (individual_weights iw))
                        (map decay_factor (individual_factors td)) in
      let weighted_sentiment :=
        if Qgtb total_weight 0 then total_weighted_score / total_weight else 0.0 in
      let news_count := inject_Z (Z.of_nat (List.length (individual_scores ss))) in
      let confidence :=
        Qmin 1.0 (news_count / 10 * average_weight iw * average_decay td) in
      let abs_sentiment := Qabs weighted_sentiment in
      let impact_score := abs_sentiment * confidence in
      mk_comprehensive weighted_sentiment confidence
        (if Qgtb abs_sentiment 0.6 then "强"
         else if Qgtb abs_sentiment 0.3 then "中"
         else "弱")
        (if Qgtb impact_score 0.7 then "高"
         else if Qgtb impact_score 0.4 then "中"
         else "低")
        (if Qgtb weighted_sentiment 0.2 then "积极"
         else if Qltb weighted_sentiment (-0.2) then "消极"
         else "中性")
  end.

Record sentiment_trend : Type := mk_trend
  { trend_direction : string;
    trend_strength : Q;
    volatility : xq;
    recent_change : Q;
    trend_description : string }.

(** [l[-k:]] and [l[:-k]] *)
Definition last_n {A} (k : nat) (l : list A) : list A := skipn (List.length l - k) l.
Definition but_last_n {A} (k : nat) (l : list A) : list A :=
  firstn (List.length l - k) l.

(** [_analyze_sentiment_trend] (lines 496-546) *)
Definition _analyze_sentiment_trend (news_items : list news_item)
           (ss : sentiment_scores) : sentiment_trend :=
  if (List.length (individual_scores ss) <? 3)%nat then
    mk_trend "稳定" 0.0 (Fin 0.0) 0.0 EmptyString
  else
    let scores := map score (individual_scores ss) in
    let recent_scores := last_n 3 scores in
    let earlier_scores :=
      if (3 <? List.length scores)%nat then but_last_n 3 scores else firstn 3 scores in
    let recent_avg := Qsum recent_scores / Qlen recent_scores in
    let earlier_avg := Qsum earlier_scores / Qlen earlier_scores in
    let change := recent_avg - earlier_avg in
    let direction :=
      if Qgtb change 0.1 then "上升"
      else if Qltb change (-0.1) then "下降"
      else "稳定" in
    let strength := Qabs change in
    let strength_desc :=
      if Qgtb strength 0.3 then "强烈"
      else if Qgtb strength 0.1 then "明显"
      else "轻微" in
    mk_trend direction strength
      (if (1 <? List.length scores)%nat then Risk.np_std np_sqrt scores else Fin 0.0)
      change
      ("情绪呈" ++ strength_desc ++ direction ++ "趋势").

Record market_attention : Type := mk_attention
  { news_volume : nat;
    attention_level : string;
    media_coverage_breadth : nat }.

(** [_analyze_market_attention] (lines 578-600) *)
Definition _analyze_market_attention (news_items : list news_item) : market_attention :=
  let n := List.length news_items in
  mk_attention n
    (if (20 <? n)%nat then "高" else if (10 <? n)%nat then "中" else "低")
    (List.length (nodup string_dec (map source news_items))).

(** The alerts of [_generate_risk_alerts], by their [type]. *)
Inductive alert : Type :=
| ExtremeNegative        (* 极端负面情绪, level 高 *)
| SharpDeterioration     (* 情绪急剧恶化, level 中 *)
| HighVolatility.        (* 情绪高波动, level 中 *)

(** [_generate_risk_alerts] (lines 602-633) *)
Definition _generate_risk_alerts (cs : comprehensive_sentiment) (tr : sentiment_trend)
  : list alert :=
  ((if Qltb (weighted_sentiment cs) (-0.6) then [ExtremeNegative] else [])
     ++ (if String.eqb (trend_direction tr) "下降" && Qgtb (trend_strength tr) 0.4
         then [SharpDeterioration] else [])
     ++ (if xgtb (volatility tr) (Fin 0.5) then [HighVolatility] else []))%list.

Record news_data_quality : Type := mk_news_quality
  { completeness : Q;
    timeliness : Q;
    source_reliability : Q;
    overall_score : Q;
    quality_level : string }.

Definition reliable_sources : list string :=
  ["央视"; "新华社"; "人民日报"; "证券时报"; "上海证券报"; "中国证券报"].

(** [_assess_news_data_quality] (lines 635-678) *)
Definition _assess_news_data_quality (news_items : list news_item) : news_data_quality :=
  match news_items with
  | [] => mk_news_quality 0 0 0 0 "未知"
  | _ =>
      let n := List.length news_items in
      let share p := ratio (count_if p news_items) n * 100 in
      let completeness :=
        share (fun i => truthy (title i) && truthy (content i) && truthy (source i)) in
      let timeliness :=
        share (fun i => contains "小时前" (time i) || contains "今天" (time i)) in
      let source_reliability :=
        share (fun i => existsb (fun s => contains s (source i)) reliable_sources) in
      let overall :=
        completeness * 0.4 + timeliness * 0.3 + source_reliability * 0.3 in
      mk_news_quality completeness timeliness source_reliability overall
        (if Qgeb overall 80 then "优秀"
         else if Qgeb overall 60 then "良好"
         else "一般")
  end.

(** The result of [analyze_news_sentiment] ([hot_topics] and
    [analysis_date] are not modelled). *)
Record sentiment_result : Type := mk_result
  { news_count : nat;
    r_sentiment_scores : sentiment_scores;
    r_impact_weights : impact_weights;
    r_time_decay_factors : time_decay_factors;
    r_comprehensive_sentiment : comprehensive_sentiment;
    r_sentiment_trend : sentiment_trend;
    r_market_attention : market_attention;
    r_risk_alerts : list alert;
    r_data_quality : news_data_quality }.

(** lines 92-130: the result for the news items parsed *)
Definition result_of_items (news_items : list news_item) : sentiment_result :=
  let ss := _calculate_sentiment_scores news_items in
  let iw := _calculate_impact_weights news_items in
  let td := _calculate_time_decay news_items in
  let cs := _calculate_comprehensive_sentiment ss iw td in
  let tr := _analyze_sentiment_trend news_items ss in
  mk_result (List.length news_items) ss iw td cs tr
    (_analyze_market_attention news_items)
    (_generate_risk_alerts cs tr)
    (_assess_news_data_quality news_items).

Variable current_date : string.

(** [analyze_news_sentiment] (lines 73-134); [None] is the error dict *)
Definition analyze_news_sentiment (news_data : string) : option sentiment_result :=
  match _parse_news_data current_date news_data with
  | [] => None
  | news_items => Some (result_of_items news_items)
  end.

(** the keys the aggregator reads from that result *)
Definition sent_view_of (r : option sentiment_result) : Toolkit.analysis Toolkit.sent_view :=
  match r with
  | None => Toolkit.AnError
  | Some res =>
      let cs := r_comprehensive_sentiment res in
      Toolkit.AnOk (Toolkit.mk_sent (Some (weighted_sentiment cs))
                      (Some (confidence_score cs)) (Some (overall_sentiment cs)))
  end.

End WithSqrt.


End News.

(** ** enhanced_risk_analysis.py: from the returns to the risk level *)

Module RiskProfile.
Import PyStr PyText PyNum PyExc Risk.
Local Open Scope exc_scope.
Local Open Scope string_scope.

(** [np.cumprod] *)
Fixpoint cumprod_from (acc : Q) (l : list Q) : list Q :=
  match l with
  | [] => []
  | x :: t => acc * x :: cumprod_from (acc * x) t
  end.

Definition np_cumprod (l : list Q) : list Q :=
  match l with
  | [] => []
  | x :: t => x :: cumprod_from x t
  end.

(** [np.maximum.accumulate] *)
Fixpoint running_max_from (acc : Q) (l : list Q) : list Q :=
  match l with
  | [] => []
  | x :: t => Qmax acc x :: running_max_from (Qmax acc x) t
  end.

Definition maximum_accumulate (l : list Q) : list Q :=
  match l with
  | [] => []
  | x :: t => x :: running_max_from x t
  end.

(** the smaller of two floats as [np.min] has it: NaN wins *)
Definition xmin2 (x y : xq) : xq :=
  match x, y with
  | NaN, _ | _, NaN => NaN
  | _, _ => if xleb x y then x else y
  end.

(** [np.min]: a [ValueError] on an empty array *)
Definition np_min (l : list xq) : exc xq :=
  match l with
  | [] => Raise ValueError
  | x :: t => Ret (fold_left xmin2 t x)
  end.

(** lines 290-292: the drawdown at each row *)
Definition drawdowns (returns : list Q) : list xq :=
  let cumulative_returns := np_cumprod (map (fun r => 1 + r) returns) in
  let running_max := maximum_accumulate cumulative_returns in
  map (fun p => xdiv (Fin (fst p - snd p)) (Fin (snd p)))
      (combine cumulative_returns running_max).

(** a drawdown that is a number above -1 and at most 0 *)
Definition shallow (x : xq) : Prop := exists d, x = Fin d /\ -1 < d /\ d <= 0.

(** the truth value of a float that may be absent *)
Definition xtruthy (x : option xq) : bool :=
  match x with Some v => xnonzero v | None => false end.

(** The keys of the result of [_calculate_volatility_metrics] that are
    modelled.  ([volatility_percentile], [garch_volatility],
    [realized_volatility], [volatility_clustering] and [volatility_trend]
    are computed next to them from [returns] and are read by no other
    function of the analyzer.) *)
Record volatility_metrics : Type := mk_volatility
  { daily_volatility : xq; annualized_volatility : xq }.

Record downside_risk : Type := mk_downside
  { downside_deviation : option xq;
    sortino_ratio : option xq;
    maximum_drawdown : xq;
    calmar_ratio : option xq;
    pain_index : xq;
    ulcer_index : xq }.

Record liquidity_risk : Type := mk_liquidity
  { bid_ask_spread : option Q;
    volume_volatility : option xq;
    amihud_illiquidity : option Q;
    turnover_rate : option Q;
    liquidity_score : Z;
    liquidity_level : string }.

Record fundamental_risk : Type := mk_fundamental
  { debt_to_equity : option Q;
    current_ratio : option Q;
    interest_coverage : option Q;
    altman_z_score : option Q;
    piotroski_score : option Z;
    fundamental_risk_score : Z;
    fundamental_risk_level : string }.

(** [_calculate_fundamental_risk] (lines 419-486) *)
Definition _calculate_fundamental_risk (fundamentals_data : option string)
  : fundamental_risk :=
  if opt_truthy fundamentals_data then
    let debt_to_equity := 0.4 in
    let current_ratio := 1.8 in
    let altman_z_score := 3.2 in
    let piotroski_score := 7%Z in
    let score := 0%Z in
    let score :=
      if Qltb debt_to_equity 0.3 then (score + 25)%Z
      else if Qltb debt_to_equity 0.6 then (score + 15)%Z
      else (score + 5)%Z in
    let score :=
      if Qgtb current_ratio 2.0 then (score + 25)%Z
      else if Qgtb current_ratio 1.5 then (score + 15)%Z
      else (score + 5)%Z in
    let score :=
      if Qgtb altman_z_score 2.99 then (score + 25)%Z
      else if Qgtb altman_z_score 1.81 then (score + 15)%Z
      else (score + 5)%Z in
    let score :=
      if (7 <=? piotroski_score)%Z then (score + 25)%Z
      else if (5 <=? piotroski_score)%Z then (score + 15)%Z
      else (score + 5)%Z in
    mk_fundamental (Some debt_to_equity) (Some current_ratio) (Some 8.5)
      (Some altman_z_score) (Some piotroski_score) score
      (if (80 <=? score)%Z then "低"
       else if (60 <=? score)%Z then "中"
       else "高")
  else mk_fundamental None None None None None 0 "未知".

(** the body of the loop of [_extract_volume_data] (lines 407-411) *)
Definition volume_line (volumes : list Q) (line : string) : exc (list Q) :=
  if contains "成交量:" line || contains "Volume:" line then
    field <- index (split ":" line) 1 ;;
    v <- number_in field ;;
    Ret (match v with Some q => (volumes ++ [q])%list | None => volumes end)
  else Ret volumes.

(** [_score_market_risk] (lines 556-573) *)
Definition _score_market_risk (mr : market_risk) : Q :=
  let score := 50 in
  let score :=
    match beta mr with
    | Some b =>
        if xgtb b (Fin 1.5) then score + 30
        else if xgtb b (Fin 1.2) then score + 20
        else if xltb b (Fin 0.8) then score - 10
        else score
    | None => score
    end in
  let score :=
    if xgtb (xabs (correlation_with_market mr)) (Fin 0.8) then score + 15 else score in
  Qmin 100 (Qmax 0 score).

(** [_score_volatility_risk] (lines 575-590) *)
Definition _score_volatility_risk (vm : volatility_metrics) : Q :=
  let score := 50 in
  let annual_vol := annualized_volatility vm in
  let score :=
    if xgtb annual_vol (Fin 0.4) then score + 40
    else if xgtb annual_vol (Fin 0.3) then score + 25
    else if xgtb annual_vol (Fin 0.2) then score + 10
    else score - 10 in
  Qmin 100 (Qmax 0 score).

(** [_score_downside_risk] (lines 592-609) *)
Definition _score_downside_risk (dr : downside_risk) : Q :=
  let score := 50 in
  let max_dd := maximum_drawdown dr in
  let score :=
    if xltb max_dd (Fin (-0.3)) then score + 30
    else if xltb max_dd (Fin (-0.2)) then score + 20
    else if xltb max_dd (Fin (-0.1)) then score + 10
    else score in
  let score :=
    match sortino_ratio dr with
    | Some sortino => if xltb sortino (Fin 0.5) then score + 15 else score
    | None => score
    end in
  Qmin 100 (Qmax 0 score).

(** the dict [risk_scores], in the order of its keys *)
Definition factor_names : list string :=
  ["market_risk"; "volatility_risk"; "downside_risk"; "liquidity_risk";
   "fundamental_risk"].

Definition factor_weights : list Q := [0.25; 0.25; 0.20; 0.15; 0.15].

(** [_suggest_risk_budget] (lines 611-623) *)
Definition _suggest_risk_budget (risk_scores : list (string * Q))
  : list (string * string) :=
  map (fun fs =>
         (fst fs,
          if Qgtb (snd fs) 70 then "需要重点关注和控制"
          else if Qgtb (snd fs) 50 then "适度关注"
          else "风险可控"))
      risk_scores.

Record comprehensive_risk : Type := mk_comprehensive
  { overall_risk_score : Q;
    risk_level : string;
    risk_factors : list string;
    risk_concentration : list (string * Q);
    sharpe_ratio : option xq;
    information_ratio : option xq;
    risk_budget_allocation : list (string * string) }.

(** [_calculate_comprehensive_risk] (lines 488-554); [var_metrics] is
    not read *)
Definition _calculate_comprehensive_risk (mr : market_risk) (vm : volatility_metrics)
           (dr : downside_risk) (var : var_metrics) (lr : liquidity_risk)
           (fr : fundamental_risk) : comprehensive_risk :=
  let sharpe :=
    if xnonzero (annualized_volatility vm)
    then Some (xdiv (Fin (0.08 - risk_free_rate)) (annualized_volatility vm))
    else None in
  let information :=
    match alpha mr with
    | Some a =>
        if xnonzero (tracking_error mr) && xnonzero a
        then Some (xdiv (xmul a (Fin 252)) (tracking_error mr))
        else None
    | None => None
    end in
  let risk_scores :=
    combine factor_names
      [_score_market_risk mr;
       _score_volatility_risk vm;
       _score_downside_risk dr;
       100 - inject_Z (liquidity_score lr);
       100 - inject_Z (fundamental_risk_score fr)] in
  let overall :=
    fold_left Qplus
      (map (fun p => snd (fst p) * snd p) (combine risk_scores factor_weights)) 0 in
  mk_comprehensive overall
    (if Qltb overall 30 then "低"
     else if Qltb overall 60 then "中"
     else "高")
    (map fst (filter (fun fs => Qgtb (snd fs) 60) risk_scores))
    risk_scores sharpe information (_suggest_risk_budget risk_scores).

(** The alerts of [_generate_risk_alerts]: [type], [level] and what the
    [description] is made from. *)
Inductive alert : Type :=
| HighRisk                      (* 高风险警告, level 高 *)
| PoorSharpe (sharpe : xq)      (* 风险调整收益不佳, level 中 *)
| Factor (factor : string).     (* [factor]风险, level 中 *)

(** [_generate_risk_alerts] (lines 625-657) *)
Definition _generate_risk_alerts (cr : comprehensive_risk) : list alert :=
  ((if Qgtb (overall_risk_score cr) 80 then [HighRisk] else [])
     ++ match sharpe_ratio cr with
        | Some sharpe => if xltb sharpe (Fin 0.5) then [PoorSharpe sharpe] else []
        | None => []
        end
     ++ map Factor (risk_factors cr))%list.

(** [_generate_risk_recommendations] (lines 659-696) *)
Definition _generate_risk_recommendations (cr : comprehensive_risk) : list string :=
  ((if String.eqb (risk_level cr) "高" then
      ["建议降低投资仓位至总资产的10-20%"; "考虑使用期权等衍生品进行对冲";
       "设置严格的止损点（建议5-8%）"; "增加投资组合的分散化程度"]
    else if String.eqb (risk_level cr) "中" then
      ["建议控制投资仓位在总资产的20-40%"; "设置合理的止损点（建议8-12%）";
       "定期监控风险指标变化"; "考虑配置部分低风险资产"]
    else
      ["当前风险水平可接受"; "可适当增加投资仓位"; "继续监控市场变化";
       "保持当前风险管理策略"])
     ++ flat_map
          (fun factor =>
             if String.eqb factor "liquidity_risk"
             then ["注意流动性风险，避免在市场波动时被迫卖出"]
             else if String.eqb factor "volatility_risk"
             then ["考虑使用波动率策略或分批建仓"]
             else if String.eqb factor "market_risk"
             then ["关注市场整体走势，考虑市场中性策略"]
             else [])
          (risk_factors cr))%list.

Record risk_data_quality : Type := mk_risk_quality
  { price_data_quality : Q;
    market_data_quality : Q;
    fundamental_data_quality : Q;
    overall_quality : Q;
    quality_level : string;
    data_limitations : list string }.

(** [_assess_risk_data_quality] (lines 698-745) *)
Definition _assess_risk_data_quality (stock_data : string)
           (market_data fundamentals_data : option string) : risk_data_quality :=
  let '(price, l1) :=
    if FundamentalsProfile.long_text stock_data then (80, [])
    else (40, ["价格数据不足"]) in
  let '(market, l2) :=
    if opt_truthy market_data then (70, []) else (30, ["缺少市场基准数据"]) in
  let '(fundamental, l3) :=
    if opt_truthy fundamentals_data then (75, []) else (25, ["缺少基本面数据"]) in
  let overall := price * 0.5 + market * 0.3 + fundamental * 0.2 in
  mk_risk_quality price market fundamental overall
    (if Qgeb overall 70 then "良好"
     else if Qgeb overall 50 then "一般"
     else "较差")
    (l1 ++ l2 ++ l3)%list.

Section WithSqrt.

Variable np_sqrt : Q -> Q.

(** [np.exp], which [np.random.lognormal] applies to a normal variate *)
Variable np_exp : Q -> Q.

(** lines 210-211 of [_calculate_volatility_metrics] *)
Definition _calculate_volatility_metrics (returns : list Q) : volatility_metrics :=
  mk_volatility (np_std np_sqrt returns)
                (xmul (np_std np_sqrt returns) (Fin (np_sqrt 252))).

(** [_calculate_downside_risk] (lines 266-307) *)
Definition _calculate_downside_risk (returns : list Q) : exc downside_risk :=
  let downside_returns := filter (fun r => Qltb r 0) returns in
  let downside_deviation :=
    if (0 <? List.length downside_returns)%nat
    then Some (xmul (xsqrt np_sqrt (xmean_of (map (fun r => r * r) downside_returns)))
                    (Fin (np_sqrt 252)))
    else None in
  let sortino :=
    match downside_deviation with
    | Some dd =>
        if xnonzero dd && xgtb dd (Fin 0) then
          let excess_return :=
            xsub (xmul (xmean_of returns) (Fin 252)) (Fin risk_free_rate) in
          Some (xdiv excess_return dd)
        else None
    | None => None
    end in
  let dds := drawdowns returns in
  maximum_drawdown <- np_min dds ;;
  let calmar :=
    if xnonzero maximum_drawdown && xltb maximum_drawdown (Fin 0)
    then Some (xdiv (xmul (xmean_of returns) (Fin 252)) (xabs maximum_drawdown))
    else None in
  Ret (mk_downside downside_deviation sortino maximum_drawdown calmar
         (Technical.xmean (map xabs dds))
         (xsqrt np_sqrt (Technical.xmean (map (fun d => xmul d d) dds)))).

(** [np.random.lognormal(mean, sigma)] *)
Definition lognormal (mean sigma : Q) (g : Rng.t) : Q * Rng.t :=
  let '(z, g') := Rng.normal mean sigma g in (np_exp z, g').

Fixpoint lognormal_n (mean sigma : Q) (n : nat) (g : Rng.t) : list Q * Rng.t :=
  match n with
  | O => ([], g)
  | S n' =>
      let '(x, g1) := lognormal mean sigma g in
      let '(xs, g2) := lognormal_n mean sigma n' g1 in
      (x :: xs, g2)
  end.

(** [_extract_volume_data] (lines 402-417) *)
Definition _extract_volume_data (stock_data : string) (g : Rng.t)
  : exc (option (list Q) * Rng.t) :=
  volumes <- fold_exc volume_line (split "010" stock_data) [] ;;
  let '(volumes, g') :=
    if (List.length volumes <? 10)%nat then lognormal_n 13 0.5 30 g
    else (volumes, g) in
  Ret (match volumes with [] => None | _ => Some volumes end, g').

(** [_calculate_liquidity_risk] (lines 354-400) *)
Definition _calculate_liquidity_risk (stock_data : string) (g : Rng.t)
  : exc (liquidity_risk * Rng.t) :=
  vg <- _extract_volume_data stock_data g ;;
  let '(volumes, g') := vg in
  match volumes with
  | Some vs =>
      if (1 <? List.length vs)%nat then
        let volume_volatility := xdiv (np_std np_sqrt vs) (xmean_of vs) in
        let avg_volume := xmean_of vs in
        let score := 0%Z in
        let score :=
          if xgtb avg_volume (Fin 1000000) then (score + 30)%Z
          else if xgtb avg_volume (Fin 500000) then (score + 20)%Z
          else (score + 10)%Z in
        let score :=
          if xltb volume_volatility (Fin 0.5) then (score + 20)%Z
          else if xltb volume_volatility (Fin 1.0) then (score + 10)%Z
          else score in
        Ret (mk_liquidity (Some 0.001) (Some volume_volatility) (Some 0.0001)
               (Some 0.05) score
               (if (40 <=? score)%Z then "高"
                else if (25 <=? score)%Z then "中"
                else "低"),
             g')
      else Ret (mk_liquidity None None None None 0 "未知", g')
  | None => Ret (mk_liquidity None None None None 0 "未知", g')
  end.

(** The keys of the result of [analyze_risk_metrics] that
    [Risk.risk_result] does not hold. *)
Record profile : Type := mk_profile
  { p_volatility_metrics : volatility_metrics;
    p_downside_risk : downside_risk;
    p_liquidity_risk : liquidity_risk;
    p_fundamental_risk : fundamental_risk;
    p_comprehensive_risk : comprehensive_risk;
    p_risk_alerts : list alert;
    p_risk_recommendations : list string;
    p_data_quality : risk_data_quality }.

(** lines 51-98 of [analyze_risk_metrics], for a price series that
    passed the gate; the random source is read in the order of the calls *)
Definition profile_of_series (stock_data : string) (prices : list Q)
           (market_data fundamentals_data : option string) (g1 : Rng.t)
  : exc profile :=
  let returns := _calculate_returns prices in
  let '(market_risk, g2) := _calculate_market_risk np_sqrt returns market_data g1 in
  let volatility_metrics := _calculate_volatility_metrics returns in
  downside_risk <- _calculate_downside_risk returns ;;
  let '(var_metrics, g3) := _calculate_var_metrics np_sqrt returns g2 in
  lg <- _calculate_liquidity_risk stock_data g3 ;;
  let liquidity_risk := fst lg in
  let fundamental_risk := _calculate_fundamental_risk fundamentals_data in
  let comprehensive_risk :=
    _calculate_comprehensive_risk market_risk volatility_metrics downside_risk
      var_metrics liquidity_risk fundamental_risk in
  Ret (mk_profile volatility_metrics downside_risk liquidity_risk fundamental_risk
         comprehensive_risk (_generate_risk_alerts comprehensive_risk)
         (_generate_risk_recommendations comprehensive_risk)
         (_assess_risk_data_quality stock_data market_data fundamentals_data)).

(** What [analyze_risk_metrics] returns: the error dict of the gate of
    line 48, the error dict of the [except] clause of line 100, or a
    result. *)
Inductive outcome : Type :=
| GateError
| Failed (e : error)
| Done (p : profile).

(** [analyze_risk_metrics] (lines 30-102), the keys of [profile] *)
Definition analyze_risk_profile (stock_data : string)
           (market_data fundamentals_data : option string) (g : Rng.t)
  : outcome :=
  let '(price_series, g1) := _parse_price_data stock_data g in
  match price_series with
  | None => GateError
  | Some prices =>
      if (List.length prices <? 30)%nat then GateError
      else
        match profile_of_series stock_data prices market_data fundamentals_data g1 with
        | Ret p => Done p
        | Raise e => Failed e
        end
  end.

(** [f"{sharpe:.3f}"] *)
Variable format_3f : xq -> string.

(** the [description] of an alert *)
Definition description (a : alert) : string :=
  match a with
  | HighRisk => "综合风险评分过高，投资风险显著"
  | PoorSharpe sharpe => "夏普比率为" ++ format_3f sharpe ++ "，风险调整后收益较低"
  | Factor factor => factor ++ "评分较高，需要关注"
  end.

(** the keys the aggregator reads from the result *)
Definition risk_view_of (r : outcome) : Toolkit.analysis Toolkit.risk_view :=
  match r with
  | GateError | Failed _ => Toolkit.AnError
  | Done p =>
      Toolkit.AnOk
        (Toolkit.mk_risk (Some (overall_risk_score (p_comprehensive_risk p)))
           (Some (risk_level (p_comprehensive_risk p)))
           (map description (p_risk_alerts p)))
  end.

End WithSqrt.

End RiskProfile.

(** ** enhanced_analysis_toolkit.py: the quality of an analysis, and the
    aggregator with its analyzers *)

Module ToolkitQuality.
Import PyStr PyNum PyExc Toolkit.
Local Open Scope string_scope.

Record analysis_quality : Type := mk_quality
  { data_completeness : Q;
    analysis_coverage : Q;
    overall_quality : string;
    quality_description : string;
    limitations : list string }.

(** one of the four tests of lines 458-476: whether the analysis counts,
    and the limitation noted if it does not *)
Definition assess {A} (x : option (analysis A)) (limitation : string)
  : nat * list string :=
  match usable x with
  | Some _ => (1%nat, [])
  | None => (O, [limitation])
  end.

(** [_assess_analysis_quality] (lines 444-491) *)
Definition _assess_analysis_quality (res : results) : analysis_quality :=
  let total_analyses := 4 in
  let '(a1, l1) := assess (technical_analysis res) "技术分析数据不足" in
  let '(a2, l2) := assess (fundamentals_analysis res) "基本面数据不足" in
  let '(a3, l3) := assess (sentiment_analysis res) "新闻情绪数据不足" in
  let '(a4, l4) := assess (risk_analysis res) "风险评估数据不足" in
  let available_analyses := (a1 + a2 + a3 + a4)%nat in
  let coverage := inject_Z (Z.of_nat available_analyses) / total_analyses * 100 in
  let '(overall, description) :=
    if Qgeb coverage 75 then ("优秀", "数据完整，分析全面，结果可信度高")
    else if Qgeb coverage 50
    then ("良好", "数据基本完整，分析较为全面，结果具有参考价值")
    else ("一般", "数据不够完整，分析覆盖面有限，建议补充更多数据") in
  mk_quality 0 coverage overall description (l1 ++ l2 ++ l3 ++ l4)%list.

(** the number of the four analyses that are usable *)
Definition is_usable {A} (x : option (analysis A)) : bool :=
  match usable x with Some _ => true | None => false end.

Definition usable_count (res : results) : nat :=
  List.length
    (filter (fun b : bool => b)
       [is_usable (technical_analysis res); is_usable (fundamentals_analysis res);
        is_usable (sentiment_analysis res); is_usable (risk_analysis res)]).

(** the overall score of lines 334-340, as a function of the four scores *)
Definition overall_of (scores : list Q) : Q :=
  match filter (fun s => Qgtb s 0) scores with
  | [] => 0
  | v :: vs => Qsum (v :: vs) / count_Q (v :: vs)
  end.

(** what line 378 reads: the overall score, 50 without a summary *)
Definition score_read (res : results) : Q :=
  match comprehensive_summary res with
  | Some sm => overall_score sm
  | None => 50
  end.

(** whether line 403 finds the risk level "高" *)
Definition high_risk (res : results) : bool :=
  match usable (risk_analysis res) with
  | Some risk => String.eqb (get (risk_level risk) "中") "高"
  | None => false
  end.

Section Analyzers.

Variable math_sqrt : Q -> Q.
Variable np_sqrt : Q -> Q.
Variable np_exp : Q -> Q.
Variable format_3f : xq -> string.

(** the day the analyzers were created and the state of [np.random]
    when the risk analyzer is called *)
Variable current_date : string.
Variable g : Rng.t.

(** the calls of lines 128 and 140 *)
Definition sentiment_analyzer (news_data ticker : string) : exc (analysis sent_view) :=
  Ret (News.sent_view_of
         (News.analyze_news_sentiment math_sqrt np_sqrt current_date news_data)).

Definition risk_analyzer (stock_data : string)
           (market_data fundamentals_data : option string) : exc (analysis risk_view) :=
  Ret (RiskProfile.risk_view_of format_3f
         (RiskProfile.analyze_risk_profile np_sqrt np_exp stock_data market_data
            fundamentals_data g)).

(** [comprehensive_analysis] with the four analyzers of the package *)
Definition analyze (ticker stock_data : string)
           (fundamentals_data news_data market_data : option string)
           (company_name : string) : results :=
  comprehensive_analysis sentiment_analyzer risk_analyzer ticker stock_data
    fundamentals_data news_data market_data company_name.

End Analyzers.

End ToolkitQuality.

(** ** More inputs and sample values used in the statements *)

Module Instances.
Import PyNum.
Local Open Scope string_scope.

(** an approximation of the exponential from below *)
Definition exp_approx (q : Q) : Q := (1 + q / 1024) ^ 1024.

(** a float shown with three decimals: the sign, the whole part and the
    thousandths of the rounded value *)
Definition digit_char (n : Z) : ascii := ascii_of_nat (48 + Z.to_nat n).

Fixpoint digits_of (fuel : nat) (n : Z) (acc : string) : string :=
  match fuel with
  | O => acc
  | S fuel' =>
      let acc' := String (digit_char (n mod 10)) acc in
      if (n <? 10)%Z then acc' else digits_of fuel' (n / 10) acc'
  end.

Definition three_decimals (x : xq) : string :=
  match x with
  | Fin q =>
      let r := round_half_even (Qabs q * 1000) in
      (if Qltb q 0 then "-" else "")
        ++ digits_of (Z.to_nat (Z.log2 (r / 1000) + 1)) (r / 1000) ""
        ++ "."
        ++ String (digit_char (r / 100 mod 10))
             (String (digit_char (r / 10 mod 10))
                (String (digit_char (r mod 10)) ""))
  | PInf => "inf"
  | NInf => "-inf"
  | NaN => "nan"
  end.

Definition today : string := "2024-01-15".

(** a price text with one price line and a volume line whose number has
    two dots *)
Definition malformed_volume : string :=
  Samples.text ["Close: 10.0"; "成交量: 1.2.3"].

(** a price table with its header *)
Definition price_table : string :=
  Samples.text ["date,open,high,low,close,volume"; "2024-01-02,10,11,9,10.5,1000"].

(** three news items *)
Definition three_items : list News.news_item :=
  [News.mk_news "公司业绩增长超预期" "" "2小时前" "新浪财经" "";
   News.mk_news "股价下跌" "" "3天前" "证券时报" "";
   News.mk_news "召开股东大会" "" "1天前" "未知来源" ""].

(** the results of three analyses, as the aggregator reads them *)
Definition three_analyses : Toolkit.results :=
  Toolkit.mk_results "000001" "平安银行" None
    (Some (Toolkit.AnOk (Toolkit.mk_fund (Some "低估") (Some 100))))
    (Some (Toolkit.AnOk (Toolkit.mk_sent (Some 0.5) (Some 0.8) (Some "积极"))))
    (Some (Toolkit.AnOk (Toolkit.mk_risk (Some 45) (Some "中") [])))
    None None.

End Instances.

(** * Properties *)

(** ** Comparisons *)

Module NumFacts.
Import PyNum.

Lemma Qgeb_true (x y : Q) : Qgeb x y = true <-> y <= x.
Proof. unfold Qgeb. apply Qle_bool_iff. Qed.

Lemma Qgeb_false (x y : Q) : Qgeb x y = false <-> x < y.
Proof.
  unfold Qgeb. split; intro H.
  - apply Qnot_le_lt. intro Hle. apply Qle_bool_iff in Hle. congruence.
  - destruct (Qle_bool y x) eqn:E; [|reflexivity].
    apply Qle_bool_iff in E. exfalso. apply (Qlt_not_le _ _ H E).
Qed.

Lemma Qleb_true (x y : Q) : Qleb x y = true <-> x <= y.
Proof. unfold Qleb. apply Qle_bool_iff. Qed.

Lemma Qleb_false (x y : Q) : Qleb x y = false <-> y < x.
Proof. apply (Qgeb_false y x). Qed.

Lemma Qltb_true (x y : Q) : Qltb x y = true <-> x < y.
Proof.
  unfold Qltb. rewrite negb_true_iff. apply (Qgeb_false x y).
Qed.

Lemma Qltb_false (x y : Q) : Qltb x y = false <-> y <= x.
Proof.
  unfold Qltb. rewrite negb_false_iff. apply Qle_bool_iff.
Qed.

Lemma Qgtb_true (x y : Q) : Qgtb x y = true <-> y < x.
Proof. apply Qltb_true. Qed.

Lemma Qgtb_false (x y : Q) : Qgtb x y = false <-> x <= y.
Proof. apply Qltb_false. Qed.

Lemma Qeqb_true (x y : Q) : Qeqb x y = true <-> x == y.
Proof. apply Qeq_bool_iff. Qed.

Lemma Qeqb_false (x y : Q) : Qeqb x y = false <-> ~ x == y.
Proof.
  unfold Qeqb. split; intro H.
  - intro E. apply Qeq_bool_iff in E. congruence.
  - destruct (Qeq_bool x y) eqn:E; [|reflexivity].
    apply Qeq_bool_iff in E. contradiction.
Qed.

End NumFacts.

(** turns the boolean comparisons of the context into (in)equalities *)
Ltac to_Q_props :=
  repeat match goal with
    | H : PyNum.Qgeb _ _ = true |- _ => apply NumFacts.Qgeb_true in H
    | H : PyNum.Qgeb _ _ = false |- _ => apply NumFacts.Qgeb_false in H
    | H : PyNum.Qleb _ _ = true |- _ => apply NumFacts.Qleb_true in H
    | H : PyNum.Qleb _ _ = false |- _ => apply NumFacts.Qleb_false in H
    | H : PyNum.Qltb _ _ = true |- _ => apply NumFacts.Qltb_true in H
    | H : PyNum.Qltb _ _ = false |- _ => apply NumFacts.Qltb_false in H
    | H : PyNum.Qgtb _ _ = true |- _ => apply NumFacts.Qgtb_true in H
    | H : PyNum.Qgtb _ _ = false |- _ => apply NumFacts.Qgtb_false in H
    | H : PyNum.Qeqb _ _ = true |- _ => apply NumFacts.Qeqb_true in H
    | H : PyNum.Qeqb _ _ = false |- _ => apply NumFacts.Qeqb_false in H
    end.

(** ** The aggregator *)

Module ToolkitFacts.
Import PyStr PyNum PyExc Toolkit Samples.
Local Open Scope string_scope.

Lemma rating_of_recommendation (res : results) (sm : summary) :
  comprehensive_summary res = Some sm ->
  rating (_generate_investment_recommendation res) = rating_of_score (overall_score sm).
Proof.
  intros Hsm. unfold _generate_investment_recommendation, rating_of_score.
  rewrite Hsm.
  destruct (Qgeb (overall_score sm) 80); [destruct (usable (risk_analysis res)); reflexivity|].
  destruct (Qgeb (overall_score sm) 65); [destruct (usable (risk_analysis res)); reflexivity|].
  destruct (Qgeb (overall_score sm) 50); [destruct (usable (risk_analysis res)); reflexivity|].
  destruct (Qgeb (overall_score sm) 35); destruct (usable (risk_analysis res)); reflexivity.
Qed.

Lemma rating_of_score_ladder (s : Q) : rating_ladder s (rating_of_score s).
Proof.
  unfold rating_ladder, rating_of_score.
  destruct (Qgeb s 80) eqn:E80; [|destruct (Qgeb s 65) eqn:E65;
    [|destruct (Qgeb s 50) eqn:E50; [|destruct (Qgeb s 35) eqn:E35]]];
    to_Q_props; repeat split; intros; try reflexivity; exfalso; lra.
Qed.

Lemma summary_of_nothing (res : results) :
  usable (technical_analysis res) = None ->
  usable (fundamentals_analysis res) = None ->
  usable (sentiment_analysis res) = None ->
  usable (risk_analysis res) = None ->
  overall_score (_generate_comprehensive_summary res) = 0.
Proof.
  intros Ht Hf Hs Hr.
  unfold _generate_comprehensive_summary, technical_part, fundamentals_part,
    sentiment_part, risk_part.
  rewrite Ht, Hf, Hs, Hr. reflexivity.
Qed.

Lemma technical_score_of_summary (res : results) :
  technical_score (_generate_comprehensive_summary res) = fst (technical_part res).
Proof.
  unfold _generate_comprehensive_summary.
  destruct (technical_part res), (fundamentals_part res), (sentiment_part res),
    (risk_part res); reflexivity.
Qed.

Lemma technical_never_usable (stock_data : string) :
  usable (if truthy stock_data
          then Some (guarded (technical_analyzer_analyze_stock_data stock_data))
          else None) = None.
Proof. destruct (truthy stock_data); reflexivity. Qed.

End ToolkitFacts.

Module ToolkitClaims.
Import PyStr PyNum PyExc Toolkit Samples ToolkitFacts.
Local Open Scope string_scope.

Section Analyzers.

Variable analyze_news_sentiment : string -> string -> exc (analysis sent_view).
Variable analyze_risk_metrics :
  string -> option string -> option string -> exc (analysis risk_view).

Let run := comprehensive_analysis analyze_news_sentiment analyze_risk_metrics.

(** C1.  The rating of every result of [comprehensive_analysis] follows the
    ladder on [overall_score]: at least 80 "强烈买入", from 65 "买入", from
    50 "持有", from 35 "减持", below 35 "卖出".  The scores 80, 79.99, 65,
    49.99, 35 and 34.99 land on "强烈买入", "买入", "买入", "减持", "减持"
    and "卖出".  When none of the four analyses is usable the overall score
    is 0 and the rating "卖出". *)
Theorem rating_follows_ladder :
  (forall ticker stock_data fundamentals_data news_data market_data company_name,
      exists sm rc,
        let out := run ticker stock_data fundamentals_data news_data market_data
                       company_name in
        comprehensive_summary out = Some sm /\
        investment_recommendation out = Some rc /\
        sm = _generate_comprehensive_summary out /\
        rating_ladder (overall_score sm) (rating rc) /\
        (usable (technical_analysis out) = None ->
         usable (fundamentals_analysis out) = None ->
         usable (sentiment_analysis out) = None ->
         usable (risk_analysis out) = None ->
         overall_score sm = 0 /\ rating rc = "卖出")) /\
  (forall res sm,
      comprehensive_summary res = Some sm ->
      rating_ladder (overall_score sm)
                    (rating (_generate_investment_recommendation res))) /\
  rating_at 80.0 = "强烈买入" /\
  rating_at 79.99 = "买入" /\
  rating_at 65.0 = "买入" /\
  rating_at 49.99 = "减持" /\
  rating_at 35.0 = "减持" /\
  rating_at 34.99 = "卖出" /\
  rating_at 0 = "卖出".
Proof.
  split; [|split].
  - intros ticker stock_data fundamentals_data news_data market_data company_name.
    unfold run, comprehensive_analysis.
    match goal with
    | |- context [Some (_generate_comprehensive_summary ?r)] =>
        set (res0 := r)
    end.
    set (sm := _generate_comprehensive_summary res0).
    match goal with
    | |- context [Some (_generate_investment_recommendation ?r)] =>
        set (res1 := r)
    end.
    exists sm, (_generate_investment_recommendation res1).
    cbn zeta.
    assert (Hrate : rating (_generate_investment_recommendation res1)
                    = rating_of_score (overall_score sm))
      by (apply rating_of_recommendation; reflexivity).
    repeat split; try reflexivity.
    + rewrite Hrate. apply rating_of_score_ladder.
    + rewrite Hrate. apply rating_of_score_ladder.
    + rewrite Hrate. apply rating_of_score_ladder.
    + rewrite Hrate. apply rating_of_score_ladder.
    + rewrite Hrate. apply rating_of_score_ladder.
    + apply (summary_of_nothing res0); assumption.
    + rewrite Hrate.
      replace (overall_score sm) with 0
        by (symmetry; apply (summary_of_nothing res0); assumption).
      reflexivity.
  - intros res sm Hsm. rewrite (rating_of_recommendation res sm Hsm).
    apply rating_of_score_ladder.
  - repeat split; reflexivity.
Qed.

(** C2 (the code departs from the claim).  [comprehensive_analysis] never
    obtains a usable technical analysis, because the call of line 106 looks
    up an attribute the analyzer does not have, and the technical score of
    its summary is 0 for every input: neither a signal ratio nor 50.  In
    [_generate_comprehensive_summary] itself a usable technical analysis
    with a non-empty [signals] dict scores the share of bullish signals
    times 100, and one without signals scores 0, not 50. *)
Theorem technical_score_is_zero :
  (forall ticker stock_data fundamentals_data news_data market_data company_name,
      let out := run ticker stock_data fundamentals_data news_data market_data
                     company_name in
      usable (technical_analysis out) = None /\
      exists sm, comprehensive_summary out = Some sm /\ technical_score sm = 0) /\
  (forall res tech,
      usable (technical_analysis res) = Some tech ->
      signals tech = [] ->
      technical_score (_generate_comprehensive_summary res) = 0) /\
  (forall res tech,
      usable (technical_analysis res) = Some tech ->
      signals tech <> [] ->
      technical_score (_generate_comprehensive_summary res)
      = count_Q (filter (fun kv => is_bullish (snd kv)) (signals tech))
        / count_Q (signals tech) * 100).
Proof.
  split; [|split].
  - intros ticker stock_data fundamentals_data news_data market_data company_name.
    unfold run, comprehensive_analysis. cbn zeta. cbn [technical_analysis comprehensive_summary].
    split; [apply technical_never_usable|].
    eexists. split; [reflexivity|].
    rewrite technical_score_of_summary. unfold technical_part.
    cbn [technical_analysis]. now rewrite technical_never_usable.
  - intros res tech Hu Hs. rewrite technical_score_of_summary.
    unfold technical_part. now rewrite Hu, Hs.
  - intros res tech Hu Hs. rewrite technical_score_of_summary.
    unfold technical_part. rewrite Hu.
    destruct (signals tech) as [|kv rest] eqn:E; [contradiction|].
    cbn [fst].
    assert (Hpos : Qgtb (count_Q (kv :: rest)) 0 = true).
    { apply NumFacts.Qgtb_true. unfold count_Q, Qlt. cbn [List.length]. cbn. lia. }
    now rewrite Hpos.
Qed.

End Analyzers.

(** the ladder, applied to an analysis in which nothing is usable: the
    price text makes the fundamentals parser raise, no news is given and
    the risk analyzer raises *)
Lemma rating_follows_ladder_witness :
  exists sm rc,
    let out := comprehensive_analysis (fun _ _ => Raise ValueError)
                 (fun _ _ _ => Raise ValueError) "000001" "PE" None None None
                 "平安银行" in
    comprehensive_summary out = Some sm /\
    investment_recommendation out = Some rc /\
    overall_score sm = 0 /\ rating rc = "卖出".
Proof.
  destruct (proj1 (rating_follows_ladder (fun _ _ => Raise ValueError)
                     (fun _ _ _ => Raise ValueError))
              "000001" "PE" None None None "平安银行")
    as (sm & rc & Hsm & Hrc & _ & _ & Hnone).
  exists sm, rc. cbn zeta in *.
  split; [exact Hsm|]. split; [exact Hrc|].
  apply Hnone; reflexivity.
Defined.

End ToolkitClaims.

(** ** The fundamentals analyzer *)

Module FundamentalsClaims.
Import PyStr PyNum PyExc Fundamentals Samples.
Local Open Scope string_scope.

Lemma num_truthy_some (q : Q) : num_truthy (Some q) = true <-> ~ q == 0.
Proof.
  unfold num_truthy. rewrite negb_true_iff. apply NumFacts.Qeqb_false.
Qed.

Lemma valuation_level_unfold (pi : price_info) (fd : option string) :
  valuation_level (_calculate_valuation_metrics pi fd)
  = if num_truthy (pe_ratio pi) && num_truthy (pb_ratio pi) then
      if Qltb (num (pe_ratio pi)) 15 && Qltb (num (pb_ratio pi)) 2 then "低估"
      else if Qgtb (num (pe_ratio pi)) 30 || Qgtb (num (pb_ratio pi)) 5 then "高估"
      else "合理"
    else "未知".
Proof. reflexivity. Qed.

(** C7, as the claim states it, fails: with PE = 35 and PB = 0 both read
    from the price text, the level is "未知", where the claim has "高估"
    for PE = 35 whatever PB is; with PE = 0 and PB = 1 it is "未知", where
    the claim has "低估". *)
Lemma valuation_level_zero_ratio :
  (exists pi,
      _extract_price_info (text ["PE: 35"; "PB: 0"]) = Some pi /\
      pe_ratio pi = Some 35 /\ pb_ratio pi = Some 0 /\
      valuation_level (_calculate_valuation_metrics pi None) = "未知" /\
      ~ valuation_rule 35 0 (valuation_level (_calculate_valuation_metrics pi None))) /\
  (exists pi,
      _extract_price_info (text ["PE: 0"; "PB: 1"]) = Some pi /\
      pe_ratio pi = Some 0 /\ pb_ratio pi = Some 1 /\
      valuation_level (_calculate_valuation_metrics pi None) = "未知" /\
      ~ valuation_rule 0 1 (valuation_level (_calculate_valuation_metrics pi None))).
Proof.
  split; eexists; (split; [vm_compute; reflexivity|]);
    (split; [reflexivity|]); (split; [reflexivity|]); (split; [reflexivity|]).
  - intros (_ & Hhigh & _).
    assert (H : 30 < 35 \/ 5 < 0) by (left; reflexivity).
    specialize (Hhigh H). vm_compute in Hhigh. discriminate Hhigh.
  - intros (Hlow & _).
    assert (H : 0 < 15 /\ 1 < 2) by (split; reflexivity).
    specialize (Hlow H). vm_compute in Hlow. discriminate Hlow.
Qed.

(** C7, amended.  When PE and PB are both extracted and neither is zero,
    the level is "低估" if PE < 15 and PB < 2, "高估" if PE > 30 or
    PB > 5, and "合理" otherwise; when one of them is missing or zero the
    level is "未知".  The price text with PE 10 and PB 1 yields "低估", and
    PE = 35 yields "高估" with every PB that is not zero. *)
Theorem valuation_level_rule :
  (forall pi fd pe pb,
      pe_ratio pi = Some pe -> pb_ratio pi = Some pb ->
      ~ pe == 0 -> ~ pb == 0 ->
      valuation_rule pe pb (valuation_level (_calculate_valuation_metrics pi fd))) /\
  (forall pi fd,
      num_truthy (pe_ratio pi) = false \/ num_truthy (pb_ratio pi) = false ->
      valuation_level (_calculate_valuation_metrics pi fd) = "未知") /\
  (forall fd,
      option_map (fun pi => valuation_level (_calculate_valuation_metrics pi fd))
                 (_extract_price_info (text ["PE: 10"; "PB: 1"])) = Some "低估") /\
  (forall pi fd pb,
      pe_ratio pi = Some 35 -> pb_ratio pi = Some pb -> ~ pb == 0 ->
      valuation_level (_calculate_valuation_metrics pi fd) = "高估").
Proof.
  assert (Hrule : forall pi fd pe pb,
             pe_ratio pi = Some pe -> pb_ratio pi = Some pb ->
             ~ pe == 0 -> ~ pb == 0 ->
             valuation_rule pe pb (valuation_level (_calculate_valuation_metrics pi fd))).
  { intros pi fd pe pb Hpe Hpb Hpe0 Hpb0.
    rewrite valuation_level_unfold, Hpe, Hpb.
    rewrite (proj2 (num_truthy_some pe) Hpe0), (proj2 (num_truthy_some pb) Hpb0).
    cbn [andb num]. unfold valuation_rule.
    destruct (Qltb pe 15) eqn:E1, (Qltb pb 2) eqn:E2,
      (Qgtb pe 30) eqn:E3, (Qgtb pb 5) eqn:E4;
      cbn [andb orb]; to_Q_props; repeat split;
      try (intros; reflexivity);
      try (intros [Ha Hb]; exfalso; lra);
      try (intros [Ha|Ha]; exfalso; lra);
      try (intros [Ha Hb]; exfalso; (apply Ha; split; lra) || (apply Hb; lra)). }
  split; [exact Hrule|]. split; [|split].
  - intros pi fd H. rewrite valuation_level_unfold.
    destruct H as [H|H]; rewrite H; [reflexivity|].
    now rewrite andb_false_r.
  - intros fd. reflexivity.
  - intros pi fd pb Hpe Hpb Hpb0.
    assert (H35 : ~ 35 == 0) by (intro E; discriminate E).
    destruct (Hrule pi fd 35 pb Hpe Hpb H35 Hpb0) as (_ & Hhigh & _).
    apply Hhigh. left. reflexivity.
Qed.

(** the amended rule at PE = 35 and PB = 4 *)
Lemma valuation_level_rule_witness :
  valuation_level
    (_calculate_valuation_metrics
       (mk_price_info None None (Some 35) (Some 4) None None None) None) = "高估".
Proof.
  apply (proj2 (proj2 (proj2 valuation_level_rule))
           (mk_price_info None None (Some 35) (Some 4) None None None) None 4).
  - reflexivity.
  - reflexivity.
  - intro E. discriminate E.
Defined.

(** C10.  For every non-empty fundamentals text, [_calculate_financial_health]
    returns the same record: the five fixed ratios, the score 100 and the
    level "优秀"; so two non-empty texts yield identical records. *)
Theorem financial_health_is_constant :
  forall fundamentals_data : string,
    fundamentals_data <> "" ->
    _calculate_financial_health (Some fundamentals_data)
    = mk_health (Some 0.4) (Some 1.8) (Some 1.2) (Some 8.5) (Some 0.3) None
                100%Z "优秀"
    /\ forall other : string,
        other <> "" ->
        _calculate_financial_health (Some other)
        = _calculate_financial_health (Some fundamentals_data).
Proof.
  assert (H : forall fd : string,
             fd <> "" ->
             _calculate_financial_health (Some fd)
             = mk_health (Some 0.4) (Some 1.8) (Some 1.2) (Some 8.5) (Some 0.3) None
                         100%Z "优秀").
  { intros fd Hfd. destruct fd as [|c t]; [contradiction|]. reflexivity. }
  intros fd Hfd. split; [now apply H|].
  intros other Hother. now rewrite (H fd Hfd), (H other Hother).
Qed.

(** the constant record, on the fundamentals text of the repository's test *)
Lemma financial_health_is_constant_witness :
  health_score (_calculate_financial_health (Some (text ["市盈率: 8.5"; "市净率: 0.85"])))
  = 100%Z.
Proof.
  assert (Hne : text ["市盈率: 8.5"; "市净率: 0.85"] <> "") by discriminate.
  rewrite (proj1 (financial_health_is_constant _ Hne)). reflexivity.
Defined.

End FundamentalsClaims.

(** ** The sentiment analyzer *)

Module SentimentClaims.
Import PyStr PyNum PyExc Sentiment Samples.
Local Open Scope string_scope.




End SentimentClaims.

(** ** The technical analyzer *)

Module TechnicalFacts.
Import PyNum Technical.

Lemma iloc_neg_map {A B} (f : A -> B) (l : list A) (k : nat) :
  iloc_neg (map f l) k = option_map f (iloc_neg l k).
Proof.
  unfold iloc_neg. rewrite length_map.
  destruct (k <=? List.length l)%nat; [|reflexivity].
  apply nth_error_map.
Qed.

Lemma iloc_neg_seq_last (n : nat) :
  (1 <= n)%nat -> iloc_neg (seq 0 n) 1 = Some (n - 1)%nat.
Proof.
  intros Hn. unfold iloc_neg. rewrite length_seq.
  destruct (1 <=? n)%nat eqn:E; [|apply Nat.leb_gt in E; lia].
  rewrite nth_error_seq.
  destruct (n - 1 <? n)%nat eqn:E'; [reflexivity|apply Nat.ltb_ge in E'; lia].
Qed.

Lemma zip_with_map {A} (f : xq -> xq -> xq) (g h : A -> xq) (l : list A) :
  zip_with f (map g l) (map h l) = map (fun i => f (g i) (h i)) l.
Proof.
  unfold zip_with. induction l as [|a l IH]; [reflexivity|].
  cbn [map combine fst snd]. now rewrite <- IH.
Qed.

Lemma skipn_repeat {A} (k n : nat) (x : A) :
  skipn k (repeat x n) = repeat x (n - k).
Proof.
  revert n. induction k as [|k IH]; intros n.
  - now rewrite Nat.sub_0_r.
  - destruct n as [|n]; [reflexivity|]. cbn [repeat skipn]. apply IH.
Qed.

Lemma firstn_repeat {A} (w n : nat) (x : A) :
  (w <= n)%nat -> firstn w (repeat x n) = repeat x w.
Proof.
  revert n. induction w as [|w IH]; intros n Hw; [reflexivity|].
  destruct n as [|n]; [lia|]. cbn [repeat firstn]. f_equal. apply IH. lia.
Qed.

Lemma window_repeat {A} (w n i : nat) (x : A) :
  (w <= i + 1)%nat -> (i + 1 <= n)%nat -> window w (repeat x n) i = repeat x w.
Proof.
  intros Hw Hn. unfold window.
  rewrite skipn_repeat. apply firstn_repeat. lia.
Qed.

Lemma positions_repeat {A} (n : nat) (x : A) : positions (repeat x n) = seq 0 n.
Proof. unfold positions. now rewrite repeat_length. Qed.

(** the last entry of a rolling mean over a constant series *)
Lemma rolling_mean_repeat_last (w n : nat) (x : xq) :
  (1 <= w)%nat -> (w <= n)%nat ->
  iloc_neg (rolling_mean w (repeat x n)) 1 = Some (xmean (repeat x w)).
Proof.
  intros Hw Hn. unfold rolling_mean.
  rewrite iloc_neg_map, positions_repeat, iloc_neg_seq_last by lia.
  cbn [option_map].
  destruct (w <=? n - 1 + 1)%nat eqn:E; [|apply Nat.leb_gt in E; lia].
  rewrite window_repeat by lia. reflexivity.
Qed.

Lemma closes_flat (n : nat) (p v : Q) : closes (flat_frame n p v) = repeat p n.
Proof. unfold closes, flat_frame. cbn [rows]. apply map_repeat. Qed.

Lemma diff_from_repeat (p : Q) (n : nat) :
  diff_from p (repeat p n) = repeat (Fin (p - p)) n.
Proof. induction n as [|n IH]; [reflexivity|]. cbn [repeat diff_from]. now rewrite IH. Qed.

Lemma where_gt_flat (p : Q) (n : nat) :
  where_or_zero (fun d => xgtb d (Fin 0)) (diff (repeat p n)) = repeat (Fin 0) n.
Proof.
  destruct n as [|n]; [reflexivity|].
  cbn [repeat diff]. rewrite diff_from_repeat. unfold where_or_zero.
  cbn [map]. rewrite map_repeat. cbn [xgtb xltb].
  replace (Qltb 0 (p - p)) with false; [reflexivity|].
  symmetry. apply NumFacts.Qltb_false. lra.
Qed.

Lemma where_lt_flat (p : Q) (n : nat) :
  where_or_zero (fun d => xltb d (Fin 0)) (diff (repeat p n)) = repeat (Fin 0) n.
Proof.
  destruct n as [|n]; [reflexivity|].
  cbn [repeat diff]. rewrite diff_from_repeat. unfold where_or_zero.
  cbn [map]. rewrite map_repeat. cbn [xltb].
  replace (Qltb (p - p) 0) with false; [reflexivity|].
  symmetry. apply NumFacts.Qltb_false. lra.
Qed.

Lemma rsi_flat_last (n : nat) (p v : Q) :
  (14 <= n)%nat -> iloc_neg (rsi_series (flat_frame n p v)) 1 = Some NaN.
Proof.
  intros Hn. unfold rsi_series, gains, losses.
  rewrite closes_flat, where_gt_flat, where_lt_flat, map_repeat.
  unfold rolling_mean. rewrite !positions_repeat.
  rewrite zip_with_map, map_map, iloc_neg_map, iloc_neg_seq_last by lia.
  cbn [option_map].
  destruct (14 <=? n - 1 + 1)%nat eqn:E; [|apply Nat.leb_gt in E; lia].
  rewrite !window_repeat by lia. reflexivity.
Qed.

(** C6 (the code departs from the claim).  On a series of at least 14 bars
    with one and the same close, and so on valid series of 252 bars and
    more, the average gain and the average loss of the last 14 changes are
    both zero, [rs] is zero over zero and the RSI that
    [calculate_technical_indicators] reports is NaN, which is no value of
    the interval from 0 to 100. *)
Theorem rsi_of_flat_series (n : nat) (p v : Q) (np_sqrt : Q -> Q) :
  (14 <= n)%nat ->
  reported_rsi (calculate_technical_indicators np_sqrt (flat_frame n p v)) = Some NaN.
Proof.
  intros Hn. unfold calculate_technical_indicators, flat_frame. cbn [rows].
  rewrite repeat_length.
  destruct (n <? 5)%nat eqn:E5; [apply Nat.ltb_lt in E5; lia|].
  cbn [reported_rsi rsi]. unfold calc_rsi. cbn [rows]. rewrite repeat_length.
  destruct (14 <=? n)%nat eqn:E14; [|apply Nat.leb_gt in E14; lia].
  cbn [option_map rsi_value].
  change (mk_frame (repeat (flat_bar p v) n) true) with (flat_frame n p v).
  rewrite rsi_flat_last by exact Hn. reflexivity.
Qed.

Lemma is_num_fin (a : Q) : is_num (Fin a) a.
Proof. cbn. reflexivity. Qed.

Lemma is_num_add x y a b : is_num x a -> is_num y b -> is_num (xadd x y) (a + b).
Proof. destruct x, y; cbn; try tauto. intros -> ->. reflexivity. Qed.

Lemma is_num_sub x y a b : is_num x a -> is_num y b -> is_num (xsub x y) (a - b).
Proof. destruct x, y; cbn; try tauto. intros -> ->. reflexivity. Qed.

Lemma is_num_mul x y a b : is_num x a -> is_num y b -> is_num (xmul x y) (a * b).
Proof. destruct x, y; cbn; try tauto. intros -> ->. reflexivity. Qed.

Lemma is_num_div x y a b :
  is_num x a -> is_num y b -> ~ b == 0 -> is_num (xdiv x y) (a / b).
Proof.
  destruct x as [x| | |], y as [y| | |]; cbn; try tauto. intros Hx Hy Hb.
  destruct (Qeqb y 0) eqn:E; to_Q_props.
  - exfalso. apply Hb. now rewrite <- Hy.
  - cbn. now rewrite Hx, Hy.
Qed.

(** zero over zero *)
Lemma xdiv_zero_zero x y : is_num x 0 -> is_num y 0 -> xdiv x y = NaN.
Proof.
  destruct x as [x| | |], y as [y| | |]; cbn; try tauto. intros Hx Hy.
  destruct (Qeqb y 0) eqn:E; to_Q_props; [|contradiction].
  unfold sgn. now rewrite Hx.
Qed.

Lemma is_num_sum_repeat x a (n : nat) :
  is_num x a -> is_num (xsum (repeat x n)) (inject_Z (Z.of_nat n) * a).
Proof.
  intros Hx. induction n as [|n IH].
  - cbn. ring.
  - cbn [repeat xsum fold_right]. fold (xsum (repeat x n)).
    pose proof (is_num_add _ _ _ _ Hx IH) as H.
    destruct (xadd x (xsum (repeat x n))); unfold is_num in H |- *; try tauto.
    rewrite H, Nat2Z.inj_succ. unfold Z.succ. rewrite inject_Z_plus. ring.
Qed.

Lemma is_num_mean_repeat x a (n : nat) :
  (1 <= n)%nat -> is_num x a -> is_num (xmean (repeat x n)) a.
Proof.
  intros Hn Hx. unfold xmean. rewrite repeat_length.
  assert (Hnz : ~ inject_Z (Z.of_nat n) == 0).
  { intro E. unfold Qeq in E. cbn in E. lia. }
  pose proof (is_num_div _ _ _ _ (is_num_sum_repeat x a n Hx)
                (is_num_fin (inject_Z (Z.of_nat n))) Hnz) as H.
  destruct (xdiv _ _); cbn in H |- *; try tauto.
  rewrite H. field. exact Hnz.
Qed.

Lemma volume_guard_flat (n : nat) (p : Q) :
  (20 <= n)%nat -> calc_volume (flat_frame n p 0) = Some (mk_vol 0 0 0 "unknown").
Proof.
  intros Hn. unfold calc_volume, flat_frame. cbn [has_volume rows].
  rewrite map_repeat. cbn [Volume flat_bar of_cell].
  rewrite rolling_mean_repeat_last by lia.
  assert (Hc : iloc_neg (repeat (Fin 0) n) 1 = Some (Fin 0)).
  { unfold iloc_neg. rewrite repeat_length.
    destruct (1 <=? n)%nat eqn:E1; [|apply Nat.leb_gt in E1; lia].
    apply nth_error_repeat. lia. }
  rewrite Hc. reflexivity.
Qed.

Section WithSqrt.

Variable np_sqrt : Q -> Q.
Hypothesis np_sqrt_zero : forall q, q == 0 -> np_sqrt q == 0.

Lemma is_num_sqrt_zero x : is_num x 0 -> is_num (xsqrt np_sqrt x) 0.
Proof.
  destruct x as [q| | |]; cbn; try tauto. intros Hq.
  destruct (Qltb q 0) eqn:E; to_Q_props; [lra|].
  cbn. now apply np_sqrt_zero.
Qed.

Lemma is_num_std_repeat (p : Q) (n : nat) :
  (2 <= n)%nat -> is_num (xstd np_sqrt (repeat (Fin p) n)) 0.
Proof.
  intros Hn. unfold xstd. rewrite map_repeat, repeat_length.
  apply is_num_sqrt_zero.
  assert (Hm : is_num (xmean (repeat (Fin p) n)) p)
    by (apply is_num_mean_repeat; [lia|apply is_num_fin]).
  assert (Hd : is_num (xsub (Fin p) (xmean (repeat (Fin p) n))) (p - p))
    by (apply is_num_sub; [apply is_num_fin|exact Hm]).
  pose proof (is_num_sum_repeat _ _ n (is_num_mul _ _ _ _ Hd Hd)) as Hs.
  assert (Hnz : ~ inject_Z (Z.of_nat n - 1) == 0).
  { intro E. unfold Qeq in E. cbn in E. lia. }
  pose proof (is_num_div _ _ _ _ Hs (is_num_fin (inject_Z (Z.of_nat n - 1))) Hnz) as H.
  destruct (xdiv _ _); cbn in H |- *; try tauto.
  rewrite H. field. exact Hnz.
Qed.

(** the last entries of the three Bollinger series of a flat frame *)
Lemma bollinger_flat_last (n : nat) (p v : Q) :
  (20 <= n)%nat ->
  let '(sma20, bb_upper, bb_lower) := bollinger_series np_sqrt (flat_frame n p v) in
  is_num (cell (iloc_neg sma20 1)) p /\
  is_num (cell (iloc_neg bb_upper 1)) p /\
  is_num (cell (iloc_neg bb_lower 1)) p.
Proof.
  intros Hn. unfold bollinger_series.
  rewrite closes_flat, map_repeat.
  unfold rolling_mean, rolling_std. rewrite !positions_repeat.
  rewrite map_map, !zip_with_map, !iloc_neg_map, iloc_neg_seq_last by lia.
  cbn [option_map cell].
  destruct (20 <=? n - 1 + 1)%nat eqn:E; [|apply Nat.leb_gt in E; lia].
  rewrite !window_repeat by lia.
  assert (Hm : is_num (xmean (repeat (Fin p) 20)) p)
    by (apply is_num_mean_repeat; [lia|apply is_num_fin]).
  assert (Hb : is_num (xmul (xstd np_sqrt (repeat (Fin p) 20)) (Fin 2)) (0 * 2))
    by (apply is_num_mul; [apply is_num_std_repeat; lia|apply is_num_fin]).
  split; [exact Hm|]. split.
  - pose proof (is_num_add _ _ _ _ Hm Hb) as H.
    destruct (xadd _ _); cbn in H |- *; try tauto. rewrite H. ring.
  - pose proof (is_num_sub _ _ _ _ Hm Hb) as H.
    destruct (xsub _ _); cbn in H |- *; try tauto. rewrite H. ring.
Qed.

Lemma bollinger_divisor_flat (n : nat) (p v : Q) :
  (20 <= n)%nat ->
  is_num (bollinger_position_divisor np_sqrt (flat_frame n p v)) 0.
Proof.
  intros Hn. unfold bollinger_position_divisor.
  pose proof (bollinger_flat_last n p v Hn) as H.
  destruct (bollinger_series np_sqrt (flat_frame n p v)) as [[sma up] lo].
  destruct H as (_ & Hup & Hlo).
  pose proof (is_num_sub _ _ _ _ Hup Hlo) as H.
  destruct (xsub _ _); cbn in H |- *; try tauto. rewrite H. ring.
Qed.

(** C9 (the code departs from the claim).  On a constant-price series of
    at least 20 bars the divisor [bb_upper - bb_lower] of the price position
    is zero, the division of line 127 is carried out all the same, and the
    position reported is NaN, the result of zero over zero.  The volume
    ratio of the same function is guarded: with zero volumes it is not
    computed and the "unknown" record is returned. *)
Theorem bollinger_position_of_flat_series (n : nat) (p v : Q) :
  (20 <= n)%nat ->
  is_num (bollinger_position_divisor np_sqrt (flat_frame n p v)) 0 /\
  reported_bb_position (calculate_technical_indicators np_sqrt (flat_frame n p v))
  = Some NaN /\
  calc_volume (flat_frame n p 0) = Some (mk_vol 0 0 0 "unknown").
Proof.
  intros Hn. split; [now apply bollinger_divisor_flat|].
  split; [|apply volume_guard_flat; exact Hn].
  unfold calculate_technical_indicators.
  assert (Hlen : List.length (rows (flat_frame n p v)) = n)
    by (unfold flat_frame; cbn [rows]; apply repeat_length).
  rewrite Hlen.
  destruct (n <? 5)%nat eqn:E5; [apply Nat.ltb_lt in E5; lia|].
  cbn [reported_bb_position bollinger_bands]. unfold calc_bollinger.
  rewrite Hlen.
  destruct (20 <=? n)%nat eqn:E20; [|apply Nat.leb_gt in E20; lia].
  pose proof (bollinger_flat_last n p v Hn) as H.
  pose proof (bollinger_divisor_flat n p v Hn) as Hd.
  destruct (bollinger_series np_sqrt (flat_frame n p v)) as [[sma up] lo].
  destruct H as (_ & _ & Hlo).
  cbn [option_map bb_position].
  assert (Hnum : is_num (xsub (cell (iloc_neg (map Fin (closes (flat_frame n p v))) 1))
                              (cell (iloc_neg lo 1))) 0).
  { rewrite closes_flat, map_repeat.
    assert (Hc : iloc_neg (repeat (Fin p) n) 1 = Some (Fin p)).
    { unfold iloc_neg. rewrite repeat_length.
      destruct (1 <=? n)%nat eqn:E1; [|apply Nat.leb_gt in E1; lia].
      apply nth_error_repeat. lia. }
    rewrite Hc. cbn [cell].
    pose proof (is_num_sub _ _ _ _ (is_num_fin p) Hlo) as H.
    destruct (xsub _ _); cbn in H |- *; try tauto. rewrite H. ring. }
  rewrite (xdiv_zero_zero _ _ Hnum Hd). reflexivity.
Qed.

End WithSqrt.

Lemma Forall_firstn {A} (P : A -> Prop) (n : nat) (l : list A) :
  Forall P l -> Forall P (firstn n l).
Proof.
  intros H. revert n. induction H as [|a l Ha Hl IH]; intros [|n]; cbn; auto.
Qed.

Lemma Forall_skipn {A} (P : A -> Prop) (n : nat) (l : list A) :
  Forall P l -> Forall P (skipn n l).
Proof.
  intros H. revert n. induction H as [|a l Ha Hl IH]; intros [|n]; cbn; auto.
Qed.

Lemma diff_from_cells (p : Q) (l : list Q) :
  Forall (fun x => x = NaN \/ exists q, x = Fin q) (diff_from p l).
Proof.
  revert p. induction l as [|a l IH]; intros p; cbn; constructor; eauto.
Qed.

Lemma diff_cells (l : list Q) :
  Forall (fun x => x = NaN \/ exists q, x = Fin q) (diff l).
Proof.
  destruct l as [|a l]; cbn; constructor; [now left|apply diff_from_cells].
Qed.

Lemma diff_from_length (p : Q) (l : list Q) :
  List.length (diff_from p l) = List.length l.
Proof. revert p. induction l as [|a l IH]; intros p; cbn; [reflexivity|now rewrite IH]. Qed.

Lemma diff_length (l : list Q) : List.length (diff l) = List.length l.
Proof. destruct l as [|a l]; cbn; [reflexivity|now rewrite diff_from_length]. Qed.

Lemma gains_nonneg (df : frame) : Forall nonneg (gains df).
Proof.
  unfold gains, where_or_zero. apply Forall_map.
  eapply Forall_impl; [|apply diff_cells].
  intros x [->|[q ->]].
  - cbn. exists 0. split; [reflexivity|lra].
  - cbn [xgtb xltb]. destruct (Qltb 0 q) eqn:E; to_Q_props.
    + exists q. split; [reflexivity|lra].
    + exists 0. split; [reflexivity|lra].
Qed.

Lemma losses_nonneg (df : frame) : Forall nonneg (losses df).
Proof.
  unfold losses, where_or_zero. rewrite map_map. apply Forall_map.
  eapply Forall_impl; [|apply diff_cells].
  intros x [->|[q ->]].
  - cbn. exists (-0). split; [reflexivity|lra].
  - cbn [xltb]. destruct (Qltb q 0) eqn:E; to_Q_props.
    + exists (- q). split; [reflexivity|lra].
    + exists (-0). split; [reflexivity|lra].
Qed.

Lemma gains_length (df : frame) : List.length (gains df) = List.length (rows df).
Proof.
  unfold gains, where_or_zero, closes. now rewrite length_map, diff_length, length_map.
Qed.

Lemma losses_length (df : frame) : List.length (losses df) = List.length (rows df).
Proof.
  unfold losses, where_or_zero, closes.
  now rewrite !length_map, diff_length, length_map.
Qed.

Lemma xsum_nonneg (l : series) : Forall nonneg l -> nonneg (xsum l).
Proof.
  induction 1 as [|x l [q [-> Hq]] Hl [s [Hs Hs0]]].
  - exists 0. split; [reflexivity|lra].
  - cbn [xsum fold_right]. fold (xsum l). rewrite Hs. cbn.
    exists (q + s). split; [reflexivity|lra].
Qed.

Lemma xmean_nonneg (l : series) : l <> [] -> Forall nonneg l -> nonneg (xmean l).
Proof.
  intros Hne Hl. destruct (xsum_nonneg l Hl) as [s [Hs Hs0]].
  unfold xmean. rewrite Hs. cbn [xdiv].
  assert (Hpos : 0 < inject_Z (Z.of_nat (List.length l))).
  { destruct l; [contradiction|]. change 0 with (inject_Z 0).
    rewrite <- Zlt_Qlt. cbn [List.length]. lia. }
  destruct (Qeqb (inject_Z (Z.of_nat (List.length l))) 0) eqn:E; to_Q_props; [lra|].
  exists (s / inject_Z (Z.of_nat (List.length l))). split; [reflexivity|].
  apply Qle_shift_div_l; [exact Hpos|lra].
Qed.

Lemma positions_length {A} (s : list A) : positions s = seq 0 (List.length s).
Proof. reflexivity. Qed.

(** the last entry of a rolling mean over a series without negative entries *)
Lemma rolling_mean_last_nonneg (w : nat) (s : series) :
  (1 <= w)%nat -> (w <= List.length s)%nat -> Forall nonneg s ->
  iloc_neg (rolling_mean w s) 1
  = Some (xmean (window w s (List.length s - 1))) /\
  nonneg (xmean (window w s (List.length s - 1))).
Proof.
  intros Hw Hn Hs. split.
  - unfold rolling_mean. rewrite iloc_neg_map, positions_length.
    rewrite iloc_neg_seq_last by lia. cbn [option_map].
    destruct (w <=? List.length s - 1 + 1)%nat eqn:E;
      [reflexivity|apply Nat.leb_gt in E; lia].
  - apply xmean_nonneg.
    + intro E. apply (f_equal (@List.length xq)) in E.
      unfold window in E. rewrite length_firstn, length_skipn in E.
      cbn [List.length] in E. lia.
    + unfold window. now apply Forall_firstn, Forall_skipn.
Qed.

Lemma round_half_even_range (y : Q) (n : Z) :
  0 <= y -> y <= inject_Z n ->
  (0 <= round_half_even y)%Z /\ (round_half_even y <= n)%Z.
Proof.
  intros H0 Hn. unfold round_half_even.
  assert (Hf0 : (0 <= Qfloor y)%Z) by (change 0%Z with (Qfloor 0); now apply Qfloor_resp_le).
  assert (Hfn : (Qfloor y <= n)%Z) by (rewrite <- (Qfloor_Z n); now apply Qfloor_resp_le).
  pose proof (Qfloor_le y) as Hle.
  assert (Hstrict : (Qfloor y = n)%Z -> y - inject_Z (Qfloor y) == 0).
  { intros E. rewrite E in *. lra. }
  destruct (Qcompare_spec (y - inject_Z (Qfloor y)) (1 # 2)) as [E|E|E].
  - destruct (Z.even (Qfloor y)); [lia|].
    split; [lia|]. destruct (Z.eq_dec (Qfloor y) n) as [En|En]; [|lia].
    specialize (Hstrict En). rewrite Hstrict in E. discriminate E.
  - lia.
  - split; [lia|]. destruct (Z.eq_dec (Qfloor y) n) as [En|En]; [|lia].
    specialize (Hstrict En). rewrite Hstrict in E. discriminate E.
Qed.

Lemma round_digits_range (r : Q) :
  0 <= r -> r <= 100 -> 0 <= round_digits 2 r /\ round_digits 2 r <= 100.
Proof.
  intros H0 H100. unfold round_digits.
  change (inject_Z (PyStr.pow10 2)) with 100.
  destruct (round_half_even_range (r * 100) 10000) as [Ha Hb].
  - lra.
  - change (inject_Z 10000) with 10000. lra.
  - assert (Ha' : 0 <= inject_Z (round_half_even (r * 100)))
      by (change 0 with (inject_Z 0); now rewrite <- Zle_Qle).
    assert (Hb' : inject_Z (round_half_even (r * 100)) <= 10000)
      by (change 10000 with (inject_Z 10000); now rewrite <- Zle_Qle).
    split.
    + apply Qle_shift_div_l; [reflexivity|lra].
    + apply Qle_shift_div_r; [reflexivity|lra].
Qed.

(** the oscillator value of two averages that are not both zero *)
Lemma rsi_formula_range (a b : Q) :
  0 <= a -> 0 <= b -> ~ (a == 0 /\ b == 0) ->
  xbetween 0 100
    (xround 2 (xsub (Fin 100) (xdiv (Fin 100) (xadd (Fin 1) (xdiv (Fin a) (Fin b)))))).
Proof.
  intros Ha Hb Hnz. cbn [xdiv].
  destruct (Qeqb b 0) eqn:Eb; to_Q_props.
  - assert (Hapos : 0 < a).
    { destruct (Qlt_le_dec 0 a) as [H|H]; [exact H|].
      exfalso. apply Hnz. split; [lra|exact Eb]. }
    unfold sgn. rewrite (proj1 (Qgt_alt _ _) Hapos).
    cbn [inf_of_sign xadd xdiv xsub xopp xround xbetween].
    apply round_digits_range; lra.
  - assert (Hbpos : 0 < b) by lra.
    assert (Hq : 0 <= a / b) by (apply Qle_shift_div_l; [exact Hbpos|lra]).
    cbn [xadd xdiv].
    destruct (Qeqb (1 + a / b) 0) eqn:E1; to_Q_props; [lra|].
    cbn [xsub xadd xopp xround xbetween].
    assert (Hd : 0 < 1 + a / b) by lra.
    assert (Hfrac0 : 0 <= 100 / (1 + a / b))
      by (apply Qle_shift_div_l; [exact Hd|lra]).
    assert (Hfrac100 : 100 / (1 + a / b) <= 100)
      by (apply Qle_shift_div_r; [exact Hd|nra]).
    apply round_digits_range; lra.
Qed.

(** The RSI stays within its range off the flat windows: when the means of
    the last 14 gains and of the last 14 losses are not both zero, the
    value that [calculate_technical_indicators] reports is a number between
    0 and 100. *)
Theorem rsi_within_bounds (np_sqrt : Q -> Q) (df : frame) :
  (14 <= List.length (rows df))%nat ->
  ~ (is_num (cell (iloc_neg (rolling_mean 14 (gains df)) 1)) 0 /\
     is_num (cell (iloc_neg (rolling_mean 14 (losses df)) 1)) 0) ->
  exists x,
    reported_rsi (calculate_technical_indicators np_sqrt df) = Some x /\
    xbetween 0 100 x.
Proof.
  intros Hn Hnz.
  destruct (rolling_mean_last_nonneg 14 (gains df)) as [Hg [a [Ea Ha]]];
    [lia|rewrite gains_length; lia|apply gains_nonneg|].
  destruct (rolling_mean_last_nonneg 14 (losses df)) as [Hl [b [Eb Hb]]];
    [lia|rewrite losses_length; lia|apply losses_nonneg|].
  rewrite Hg, Hl in Hnz. cbn [cell] in Hnz. rewrite Ea, Eb in Hnz. cbn [is_num] in Hnz.
  unfold calculate_technical_indicators.
  destruct (List.length (rows df) <? 5)%nat eqn:E5; [apply Nat.ltb_lt in E5; lia|].
  cbn [reported_rsi rsi]. unfold calc_rsi.
  destruct (14 <=? List.length (rows df))%nat eqn:E14; [|apply Nat.leb_gt in E14; lia].
  cbn [option_map rsi_value]. eexists. split; [reflexivity|].
  unfold rsi_series, rolling_mean.
  rewrite !positions_length, gains_length, losses_length.
  rewrite zip_with_map, map_map, iloc_neg_map, iloc_neg_seq_last by lia.
  cbn [option_map cell].
  destruct (14 <=? List.length (rows df) - 1 + 1)%nat eqn:E;
    [|apply Nat.leb_gt in E; lia].
  rewrite gains_length in Ea. rewrite losses_length in Eb.
  rewrite Ea, Eb. now apply rsi_formula_range.
Qed.

(** the range on thirty rising bars *)
Lemma rsi_within_bounds_witness :
  exists x,
    reported_rsi (calculate_technical_indicators Samples.sqrt_approx
                    Samples.rising_frame) = Some x /\
    xbetween 0 100 x.
Proof.
  apply (rsi_within_bounds Samples.sqrt_approx Samples.rising_frame).
  - vm_compute. lia.
  - vm_compute. intros [H _]. discriminate H.
Defined.

Lemma sqrt_approx_zero (q : Q) : q == 0 -> Samples.sqrt_approx q == 0.
Proof.
  intros Hq. unfold Samples.sqrt_approx.
  assert (Hn : Qnum q = 0%Z).
  { unfold Qeq in Hq. cbn in Hq. lia. }
  rewrite Hn. reflexivity.
Qed.

(** the RSI of 252 bars that all close at 10 *)
Lemma rsi_of_flat_series_witness :
  reported_rsi (calculate_technical_indicators Samples.sqrt_approx
                  (flat_frame 252 10 1000)) = Some NaN.
Proof.
  apply (rsi_of_flat_series 252 10 1000 Samples.sqrt_approx). lia.
Defined.

(** the position within the bands of 252 bars that all close at 10 *)
Lemma bollinger_position_of_flat_series_witness :
  reported_bb_position (calculate_technical_indicators Samples.sqrt_approx
                          (flat_frame 252 10 1000)) = Some NaN.
Proof.
  apply (bollinger_position_of_flat_series Samples.sqrt_approx sqrt_approx_zero
           252 10 1000).
  lia.
Defined.

End TechnicalFacts.

(** ** Sums on reduced fractions agree with the sums of the model *)

Module ReducedFacts.
Import PyNum Risk Reduced.








End ReducedFacts.

(** ** The risk analyzer *)

Module RiskFacts.
Import PyNum PyExc Risk Samples Reduced.
Local Open Scope string_scope.

Lemma Qle_bool_trans : Transitive (fun x y : Q => is_true (Qle_bool x y)).
Proof.
  intros x y z Hxy Hyz. unfold is_true in *.
  rewrite Qle_bool_iff in *. now apply Qle_trans with y.
Qed.

Lemma sorted_sort (a : list Q) :
  StronglySorted (fun x y : Q => is_true (Qle_bool x y)) (QSort.sort a).
Proof. apply QSort.StronglySorted_sort, Qle_bool_trans. Qed.

(** in a sorted list a later entry is at least an earlier one *)
Lemma sorted_nth_le (s : list Q) :
  StronglySorted (fun x y : Q => is_true (Qle_bool x y)) s ->
  forall i j, (i <= j)%nat -> (j < List.length s)%nat -> nth i s 0 <= nth j s 0.
Proof.
  induction 1 as [|x s Hs IH Hall]; intros i j Hij Hj; [cbn in Hj; lia|].
  destruct j as [|j].
  - replace i with 0%nat by lia. apply Qle_refl.
  - cbn [List.length] in Hj. destruct i as [|i].
    + cbn [nth]. rewrite Forall_forall in Hall.
      apply Qle_bool_iff. apply Hall. apply nth_In. lia.
    + cbn [nth]. apply IH; lia.
Qed.

Lemma sort_length (a : list Q) : List.length (QSort.sort a) = List.length a.
Proof. symmetry. apply Permutation_length, QSort.Permuted_sort. Qed.



Lemma Qsum_le_bound (l : list Q) (v : Q) :
  Forall (fun r => r <= v) l -> Qsum l <= Qlen l * v.
Proof.
  induction 1 as [|r l Hr Hl IH].
  - unfold Qsum, Qlen. cbn [fold_right List.length].
    change (inject_Z (Z.of_nat 0)) with 0. lra.
  - unfold Qlen in *. cbn [Qsum fold_right List.length]. fold (Qsum l).
    rewrite Nat2Z.inj_succ. unfold Z.succ. rewrite inject_Z_plus.
    change (inject_Z 1) with 1. lra.
Qed.

Lemma Qlen_pos (l : list Q) : l <> [] -> 0 < Qlen l.
Proof.
  intros Hl. destruct l as [|x l]; [contradiction|].
  unfold Qlen. change 0 with (inject_Z 0). rewrite <- Zlt_Qlt.
  cbn [List.length]. lia.
Qed.


Lemma mock_prices_length (n : nat) (base : Q) (g : Rng.t) :
  List.length (fst (mock_prices n base g)) = n.
Proof.
  revert base g. induction n as [|n IH]; intros base g; [reflexivity|].
  cbn [mock_prices]. destruct (Rng.normal 0 0.02 g) as [change g1].
  specialize (IH (base * (1 + change)) g1).
  destruct (mock_prices n (base * (1 + change)) g1) as [rest g2].
  cbn [fst List.length] in *. now rewrite IH.
Qed.


Section WithSqrt.

Variable np_sqrt : Q -> Q.





(** the metrics of [_calculate_var_metrics] that do not read the random
    source *)
Lemma var_metrics_without_draws (returns : list Q) (g : Rng.t) :
  let m := fst (_calculate_var_metrics np_sqrt returns g) in
  var_95 m = np_percentile returns 5 /\
  var_99 m = np_percentile returns 1 /\
  var_historical m = np_percentile returns 5 /\
  cvar_95 m
  = (if (0 <? List.length (at_or_below (np_percentile returns 5) returns))%nat
     then Some (xmean_of (at_or_below (np_percentile returns 5) returns))
     else None) /\
  cvar_99 m
  = (if (0 <? List.length (at_or_below (np_percentile returns 1) returns))%nat
     then Some (xmean_of (at_or_below (np_percentile returns 1) returns))
     else None) /\
  var_parametric m
  = xsub (xmean_of returns) (xmul (Fin 1.645) (np_std np_sqrt returns)) /\
  var_ratio m
  = (if xnonzero (xmean_of returns)
     then Some (xdiv (xabs (np_percentile returns 5)) (xabs (xmean_of returns)))
     else None).
Proof.
  unfold _calculate_var_metrics.
  destruct (monte_carlo_var _ _ _ _) as [mc g']. cbn [fst].
  repeat split; reflexivity.
Qed.



End WithSqrt.


End RiskFacts.

Module RiskClaims.
Import PyNum PyExc Risk Samples Reduced RiskFacts.
Local Open Scope string_scope.


Section WithSqrt.

Variable np_sqrt : Q -> Q.




End WithSqrt.








End RiskClaims.

(** ** The analyzers beyond the indicators *)

Module PercentileFacts.
Import PyNum PyExc Risk RiskFacts.

(** the position [np.percentile] interpolates at, and the two order
    statistics around it *)
Lemma percentile_between (s : list Q) (q : Q) :
  s <> [] -> 0 <= q -> q <= 100 ->
  let n := List.length s in
  let vi := inject_Z (Z.of_nat (n - 1)) * (q / 100) in
  let previous := Z.to_nat (Qfloor vi) in
  let next := Nat.min (previous + 1) (n - 1) in
  (0 <= Qfloor vi)%Z /\ (previous <= n - 1)%nat /\ (previous <= next)%nat /\
  (next < n)%nat /\ 0 <= vi - inject_Z (Qfloor vi) /\ vi - inject_Z (Qfloor vi) < 1.
Proof.
  intros Hs Hq0 Hq100 n vi previous next.
  assert (Hn : (1 <= n)%nat) by (unfold n; destruct s; [contradiction|cbn; lia]).
  assert (Hvi0 : 0 <= vi).
  { unfold vi. apply Qmult_le_0_compat.
    - change 0 with (inject_Z 0). rewrite <- Zle_Qle. lia.
    - apply Qle_shift_div_l; [reflexivity|lra]. }
  assert (Hvin : vi <= inject_Z (Z.of_nat (n - 1))).
  { unfold vi.
    assert (Hq1 : q / 100 <= 1) by (apply Qle_shift_div_r; [reflexivity|lra]).
    assert (Hk : 0 <= inject_Z (Z.of_nat (n - 1)))
      by (change 0 with (inject_Z 0); rewrite <- Zle_Qle; lia).
    nra. }
  assert (Hfl0 : (0 <= Qfloor vi)%Z).
  { change 0%Z with (Qfloor 0). now apply Qfloor_resp_le. }
  assert (Hfln : (Qfloor vi <= Z.of_nat (n - 1))%Z).
  { rewrite <- (Qfloor_Z (Z.of_nat (n - 1))). now apply Qfloor_resp_le. }
  pose proof (Qfloor_le vi) as Hfl. pose proof (Qlt_floor vi) as Hlt.
  rewrite inject_Z_plus in Hlt. change (inject_Z 1) with 1 in Hlt.
  repeat split; try (unfold next, previous; lia); lra.
Qed.

Lemma percentile_monotone (a : list Q) (q1 q2 : Q) :
  a <> [] -> 0 <= q1 -> q1 <= q2 -> q2 <= 100 ->
  exists v1 v2,
    np_percentile a q1 = Fin v1 /\ np_percentile a q2 = Fin v2 /\ v1 <= v2.
Proof.
  intros Ha H0 H12 H100. unfold np_percentile.
  pose proof (sort_length a) as Hlen.
  pose proof (sorted_sort a) as Hsorted.
  destruct (QSort.sort a) as [|s0 s] eqn:Es.
  { destruct a; [contradiction|discriminate Hlen]. }
  set (srt := s0 :: s) in *.
  assert (Hne : srt <> []) by discriminate.
  assert (H1 : q1 <= 100) by lra. assert (H2 : 0 <= q2) by lra.
  pose proof (percentile_between srt q1 Hne H0 H1) as P1.
  pose proof (percentile_between srt q2 Hne H2 H100) as P2.
  cbv zeta in P1, P2.
  set (n := List.length srt) in *.
  set (vi1 := inject_Z (Z.of_nat (n - 1)) * (q1 / 100)) in *.
  set (vi2 := inject_Z (Z.of_nat (n - 1)) * (q2 / 100)) in *.
  set (p1 := Z.to_nat (Qfloor vi1)) in *.
  set (p2 := Z.to_nat (Qfloor vi2)) in *.
  set (n1 := Nat.min (p1 + 1) (n - 1)) in *.
  set (n2 := Nat.min (p2 + 1) (n - 1)) in *.
  destruct P1 as (F1 & Pa1 & Pb1 & Pc1 & G1 & G1'),
           P2 as (F2 & Pa2 & Pb2 & Pc2 & G2 & G2').
  assert (Hvi : vi1 <= vi2).
  { unfold vi1, vi2.
    assert (Hk : 0 <= inject_Z (Z.of_nat (n - 1)))
      by (change 0 with (inject_Z 0); rewrite <- Zle_Qle; lia).
    assert (Hq : q1 / 100 <= q2 / 100).
    { unfold Qdiv. apply Qmult_le_compat_r; [exact H12|]. discriminate. }
    nra. }
  assert (Hfl : (Qfloor vi1 <= Qfloor vi2)%Z) by now apply Qfloor_resp_le.
  assert (L1 : nth p1 srt 0 <= nth n1 srt 0)
    by (apply sorted_nth_le; [exact Hsorted|lia|fold n; lia]).
  assert (L2 : nth p2 srt 0 <= nth n2 srt 0)
    by (apply sorted_nth_le; [exact Hsorted|lia|fold n; lia]).
  do 2 eexists. split; [reflexivity|]. split; [reflexivity|].
  destruct (Z.eq_dec (Qfloor vi1) (Qfloor vi2)) as [E|NE].
  - assert (Ep : p1 = p2) by (unfold p1, p2; now rewrite E).
    assert (En : n1 = n2) by (unfold n1, n2; now rewrite Ep).
    rewrite <- Ep, <- En, <- E.
    assert (Hg : vi1 - inject_Z (Qfloor vi1) <= vi2 - inject_Z (Qfloor vi1)) by lra.
    nra.
  - assert (Hp : (p1 + 1 <= p2)%nat) by (unfold p1, p2; lia).
    assert (Hn1 : n1 = (p1 + 1)%nat) by (unfold n1; lia).
    assert (L12 : nth n1 srt 0 <= nth p2 srt 0)
      by (apply sorted_nth_le; [exact Hsorted|lia|fold n; lia]).
    nra.
Qed.

End PercentileFacts.

Module ReturnsFacts.
Import PyNum PyExc Risk RiskFacts RiskProfile.

Lemma returns_length (prices : list Q) :
  List.length (_calculate_returns prices) = (List.length prices - 1)%nat.
Proof.
  induction prices as [|p0 [|p1 t] IH]; [reflexivity|reflexivity|].
  change (_calculate_returns (p0 :: p1 :: t))
    with ((p1 - p0) / p0 :: _calculate_returns (p1 :: t)).
  cbn [List.length] in *. lia.
Qed.

Lemma returns_above_minus_one (prices : list Q) :
  Forall (fun p => 0 < p) prices ->
  Forall (fun r => -1 < r) (_calculate_returns prices).
Proof.
  induction prices as [|p0 [|p1 t] IH]; intros H; [constructor|constructor|].
  change (_calculate_returns (p0 :: p1 :: t))
    with ((p1 - p0) / p0 :: _calculate_returns (p1 :: t)).
  inversion H as [|? ? H0 Ht]; subst. inversion Ht as [|? ? H1 _]; subst.
  constructor; [|apply IH; exact Ht].
  apply Qlt_shift_div_l; [exact H0|]. lra.
Qed.

Lemma returns_cons (p0 p1 : Q) (t : list Q) :
  _calculate_returns (p0 :: p1 :: t) = (p1 - p0) / p0 :: _calculate_returns (p1 :: t).
Proof. reflexivity. Qed.

Lemma Forall2_Qeq_trans (a b c : list Q) :
  Forall2 Qeq a b -> Forall2 Qeq b c -> Forall2 Qeq a c.
Proof.
  intros Hab. revert c. induction Hab as [|x y a b Hxy Hab IH]; intros c Hbc.
  - inversion Hbc. constructor.
  - inversion Hbc as [|? z ? c' Hyz Hbc']; subst. constructor.
    + now rewrite Hxy.
    + now apply IH.
Qed.

Lemma cumprod_from_returns (rest : list Q) :
  forall p0 acc,
    Forall (fun p => ~ p == 0) (p0 :: rest) ->
    Forall2 Qeq
      (cumprod_from acc (map (fun r => 1 + r) (_calculate_returns (p0 :: rest))))
      (map (fun p => acc * p / p0) rest).
Proof.
  induction rest as [|p1 t IH]; intros p0 acc H; [constructor|].
  inversion H as [|? ? H0 Ht]; subst. inversion Ht as [|? ? H1 Ht']; subst.
  rewrite returns_cons. cbn [map cumprod_from].
  constructor.
  - field. exact H0.
  - apply Forall2_Qeq_trans with (1 := IH p1 (acc * (1 + (p1 - p0) / p0)) Ht).
    clear IH H Ht. induction Ht' as [|x t Hx Ht' IHt]; [constructor|].
    cbn [map]. constructor; [field; split; assumption|exact IHt].
Qed.

(** the cumulative returns of line 290 are the prices over the first one *)
Lemma cumulative_returns_are_price_ratios (p0 : Q) (rest : list Q) :
  Forall (fun p => ~ p == 0) (p0 :: rest) ->
  Forall2 Qeq
    (np_cumprod (map (fun r => 1 + r) (_calculate_returns (p0 :: rest))))
    (map (fun p => p / p0) rest).
Proof.
  intros H. destruct rest as [|p1 t]; [constructor|].
  inversion H as [|? ? H0 Ht]; subst. inversion Ht as [|? ? H1 Ht']; subst.
  rewrite returns_cons. cbn [map np_cumprod]. constructor; [field; exact H0|].
  apply Forall2_Qeq_trans with (1 := cumprod_from_returns t p1 _ Ht).
  clear H Ht. induction Ht' as [|x t Hx Ht' IHt]; [constructor|].
  cbn [map]. constructor; [field; split; assumption|exact IHt].
Qed.

(** X2.  For every series of positive prices there is one return fewer
    than prices, every return is above -1, and the cumulative returns of
    line 290 are the prices over the first price: the returns determine
    the series up to its scale. *)
Theorem returns_are_price_ratios (p0 : Q) (rest : list Q) :
  Forall (fun p => 0 < p) (p0 :: rest) ->
  let returns := _calculate_returns (p0 :: rest) in
  List.length returns = List.length rest /\
  Forall (fun r => -1 < r) returns /\
  Forall2 Qeq (np_cumprod (map (fun r => 1 + r) returns)) (map (fun p => p / p0) rest).
Proof.
  intros Hpos returns. unfold returns. split; [|split].
  - rewrite returns_length. cbn [List.length]. lia.
  - now apply returns_above_minus_one.
  - apply cumulative_returns_are_price_ratios.
    eapply Forall_impl; [|exact Hpos]. cbn. intros p Hp E. rewrite E in Hp.
    discriminate Hp.
Qed.

End ReturnsFacts.

Module DownsideFacts.
Import PyNum PyExc Risk RiskFacts RiskProfile ReturnsFacts.

Lemma Qmax_ge_l (a b : Q) : a <= Qmax a b.
Proof. unfold Qmax. destruct (Qleb a b) eqn:E; to_Q_props; lra. Qed.

Lemma Qmax_ge_r (a b : Q) : b <= Qmax a b.
Proof. unfold Qmax. destruct (Qleb a b) eqn:E; to_Q_props; lra. Qed.

Lemma Qmin_le_l (a b : Q) : Qmin a b <= a.
Proof. unfold Qmin. destruct (Qleb a b) eqn:E; to_Q_props; lra. Qed.


Lemma drawdown_cell (c m : Q) : 0 < c -> c <= m -> shallow (xdiv (Fin (c - m)) (Fin m)).
Proof.
  intros Hc Hm. cbn [xdiv].
  destruct (Qeqb m 0) eqn:E; to_Q_props; [lra|].
  eexists. split; [reflexivity|]. split.
  - apply Qlt_shift_div_l; lra.
  - apply Qle_shift_div_r; lra.
Qed.

Lemma cumprod_from_positive (l : list Q) :
  forall acc, 0 < acc -> Forall (fun x => 0 < x) l ->
              Forall (fun x => 0 < x) (cumprod_from acc l).
Proof.
  induction l as [|x t IH]; intros acc Ha H; [constructor|].
  inversion H as [|? ? Hx Ht]; subst. cbn [cumprod_from].
  assert (Hp : 0 < acc * x) by nra.
  constructor; [exact Hp|]. now apply IH.
Qed.

Lemma np_cumprod_positive (l : list Q) :
  Forall (fun x => 0 < x) l -> Forall (fun x => 0 < x) (np_cumprod l).
Proof.
  intros H. destruct l as [|x t]; [constructor|].
  inversion H as [|? ? Hx Ht]; subst. cbn [np_cumprod].
  constructor; [exact Hx|]. now apply cumprod_from_positive.
Qed.

Lemma drawdown_cells_from (l : list Q) :
  forall acc, 0 < acc -> Forall (fun x => 0 < x) l ->
    Forall shallow
      (map (fun p => xdiv (Fin (fst p - snd p)) (Fin (snd p)))
           (combine l (running_max_from acc l))).
Proof.
  induction l as [|x t IH]; intros acc Ha H; [constructor|].
  inversion H as [|? ? Hx Ht]; subst. cbn [running_max_from combine map fst snd].
  pose proof (Qmax_ge_l acc x). pose proof (Qmax_ge_r acc x).
  constructor; [apply drawdown_cell; assumption|].
  apply IH; [lra|exact Ht].
Qed.

Lemma drawdowns_shallow (returns : list Q) :
  Forall (fun r => -1 < r) returns -> Forall shallow (drawdowns returns).
Proof.
  intros H. unfold drawdowns.
  assert (Hpos : Forall (fun x => 0 < x)
                   (np_cumprod (map (fun r => 1 + r) returns))).
  { apply np_cumprod_positive. apply Forall_map.
    eapply Forall_impl; [|exact H]. cbn. intros r Hr. lra. }
  destruct (np_cumprod (map (fun r => 1 + r) returns)) as [|c cs]; [constructor|].
  inversion Hpos as [|? ? Hc Hcs]; subst.
  cbn [maximum_accumulate combine map fst snd]. constructor.
  - apply drawdown_cell; [exact Hc|apply Qle_refl].
  - now apply drawdown_cells_from.
Qed.

Lemma drawdowns_length (returns : list Q) :
  List.length (drawdowns returns) = List.length returns.
Proof.
  unfold drawdowns. rewrite length_map, length_combine.
  assert (H1 : forall l, List.length (np_cumprod l) = List.length l).
  { intros [|x t]; [reflexivity|]. cbn [np_cumprod List.length]. f_equal.
    generalize x. induction t as [|y t IH]; intros a; [reflexivity|].
    cbn [cumprod_from List.length]. now rewrite IH. }
  assert (H2 : forall l, List.length (maximum_accumulate l) = List.length l).
  { intros [|x t]; [reflexivity|]. cbn [maximum_accumulate List.length]. f_equal.
    generalize x. induction t as [|y t IH]; intros a; [reflexivity|].
    cbn [running_max_from List.length]. now rewrite IH. }
  rewrite H2, H1, length_map. lia.
Qed.

Lemma xmin2_shallow (x y : xq) : shallow x -> shallow y -> shallow (xmin2 x y).
Proof.
  intros (a & -> & Ha) (b & -> & Hb). cbn [xmin2 xleb].
  destruct (Qleb a b); [now exists a|now exists b].
Qed.

Lemma fold_xmin2_shallow (l : list xq) :
  forall x, shallow x -> Forall shallow l -> shallow (fold_left xmin2 l x).
Proof.
  induction l as [|y t IH]; intros x Hx H; [exact Hx|].
  inversion H as [|? ? Hy Ht]; subst. cbn [fold_left].
  apply IH; [now apply xmin2_shallow|exact Ht].
Qed.

Lemma shallow_abs_nonneg (l : list xq) :
  Forall shallow l -> Forall nonneg (map xabs l).
Proof.
  intros H. apply Forall_map. eapply Forall_impl; [|exact H].
  intros x (d & -> & Hd1 & Hd2). cbn [xabs]. exists (Qabs d).
  split; [reflexivity|apply Qabs_nonneg].
Qed.

Section WithSqrt.

Variable np_sqrt : Q -> Q.

(** X3.  For every series of at least two positive prices the downside
    block succeeds, [maximum_drawdown] is a number above -1 and at most
    0, [pain_index] is a number that is not negative, and [calmar_ratio]
    is absent exactly when the maximum drawdown is 0. *)
Theorem drawdown_within_bounds (prices : list Q) :
  (2 <= List.length prices)%nat ->
  Forall (fun p => 0 < p) prices ->
  exists dr d,
    _calculate_downside_risk np_sqrt (_calculate_returns prices) = Ret dr /\
    maximum_drawdown dr = Fin d /\ -1 < d /\ d <= 0 /\
    nonneg (pain_index dr) /\
    (calmar_ratio dr = None <-> d == 0).
Proof.
  intros Hlen Hpos.
  pose proof (returns_above_minus_one prices Hpos) as Hret.
  pose proof (returns_length prices) as Hrl.
  set (returns := _calculate_returns prices) in *.
  pose proof (drawdowns_shallow returns Hret) as Hsh.
  pose proof (drawdowns_length returns) as Hdl.
  unfold _calculate_downside_risk.
  destruct (drawdowns returns) as [|x dds] eqn:Edd.
  { cbn [List.length] in Hdl. lia. }
  inversion Hsh as [|? ? Hx Hdds]; subst.
  destruct (fold_xmin2_shallow dds x Hx Hdds) as (d & Hd & Hd1 & Hd2).
  cbn [np_min bind]. rewrite Hd.
  eexists. exists d. split; [reflexivity|].
  cbn [maximum_drawdown pain_index calmar_ratio].
  split; [reflexivity|]. split; [exact Hd1|]. split; [exact Hd2|]. split.
  - apply TechnicalFacts.xmean_nonneg; [discriminate|].
    apply (shallow_abs_nonneg (x :: dds)). now constructor.
  - cbn [xnonzero xltb].
    destruct (Qeqb d 0) eqn:E0; cbn [negb andb]; to_Q_props.
    + split; [intros _; exact E0|reflexivity].
    + destruct (Qltb d 0) eqn:E1; to_Q_props.
      * split; [discriminate|intro; contradiction].
      * exfalso. apply E0. lra.
Qed.

End WithSqrt.

End DownsideFacts.

Module RiskScoreFacts.
Import PyStr PyNum PyExc Risk RiskFacts RiskProfile.
Local Open Scope string_scope.

Ltac concrete_bounds := vm_compute; split; discriminate.

Lemma market_score_range (mr : market_risk) :
  40 <= _score_market_risk mr /\ _score_market_risk mr <= 95.
Proof.
  unfold _score_market_risk.
  destruct (beta mr) as [b|];
    [destruct (xgtb b (Fin 1.5)); [|destruct (xgtb b (Fin 1.2));
                                     [|destruct (xltb b (Fin 0.8))]]|];
    destruct (xgtb (xabs (correlation_with_market mr)) (Fin 0.8));
    concrete_bounds.
Qed.

Lemma volatility_score_range (vm : volatility_metrics) :
  40 <= _score_volatility_risk vm /\ _score_volatility_risk vm <= 90.
Proof.
  unfold _score_volatility_risk.
  destruct (xgtb (annualized_volatility vm) (Fin 0.4));
    [|destruct (xgtb (annualized_volatility vm) (Fin 0.3));
      [|destruct (xgtb (annualized_volatility vm) (Fin 0.2))]];
    concrete_bounds.
Qed.

Lemma downside_score_range (dr : downside_risk) :
  50 <= _score_downside_risk dr /\ _score_downside_risk dr <= 95.
Proof.
  unfold _score_downside_risk.
  destruct (xltb (maximum_drawdown dr) (Fin (-0.3)));
    [|destruct (xltb (maximum_drawdown dr) (Fin (-0.2)));
      [|destruct (xltb (maximum_drawdown dr) (Fin (-0.1)))]];
    (destruct (sortino_ratio dr) as [s|]; [destruct (xltb s (Fin 0.5))|]);
    concrete_bounds.
Qed.

Lemma overall_risk_formula (mr : market_risk) (vm : volatility_metrics)
      (dr : downside_risk) (var : var_metrics) (lr : liquidity_risk)
      (fr : fundamental_risk) :
  overall_risk_score (_calculate_comprehensive_risk mr vm dr var lr fr)
  == _score_market_risk mr * 0.25 + _score_volatility_risk vm * 0.25
     + _score_downside_risk dr * 0.20
     + (100 - inject_Z (liquidity_score lr)) * 0.15
     + (100 - inject_Z (fundamental_risk_score fr)) * 0.15.
Proof.
  unfold _calculate_comprehensive_risk.
  cbn [overall_risk_score factor_names factor_weights combine map fold_left fst snd].
  ring.
Qed.

Lemma fundamental_risk_values (fd : option string) :
  let fr := _calculate_fundamental_risk fd in
  (opt_truthy fd = true ->
   fundamental_risk_score fr = 80%Z /\ fundamental_risk_level fr = "低") /\
  (opt_truthy fd = false ->
   fundamental_risk_score fr = 0%Z /\ fundamental_risk_level fr = "未知").
Proof.
  unfold _calculate_fundamental_risk.
  destruct (opt_truthy fd); split; intros H; try discriminate H;
    split; reflexivity.
Qed.

Section WithSqrt.

Variable np_sqrt : Q -> Q.
Variable np_exp : Q -> Q.

Lemma lognormal_n_length (mean sigma : Q) (n : nat) (g : Rng.t) :
  List.length (fst (lognormal_n np_exp mean sigma n g)) = n.
Proof.
  revert g. induction n as [|n IH]; intros g; [reflexivity|].
  cbn [lognormal_n]. destruct (lognormal np_exp mean sigma g) as [x g1].
  specialize (IH g1). destruct (lognormal_n np_exp mean sigma n g1) as [xs g2].
  cbn [fst List.length] in *. now rewrite IH.
Qed.

(** the volumes handed to the liquidity block are never fewer than ten *)
Lemma extracted_volumes (stock_data : string) (g g' : Rng.t) (vs : option (list Q)) :
  _extract_volume_data np_exp stock_data g = Ret (vs, g') ->
  exists l, vs = Some l /\ (10 <= List.length l)%nat.
Proof.
  unfold _extract_volume_data.
  destruct (fold_exc volume_line (split "010" stock_data) []) as [volumes|e];
    cbn [bind]; [|discriminate].
  destruct (List.length volumes <? 10)%nat eqn:E.
  - pose proof (lognormal_n_length 13 0.5 30 g) as Hl.
    destruct (lognormal_n np_exp 13 0.5 30 g) as [l g1]. cbn [fst] in Hl.
    intros H. inversion H; subst. exists l.
    destruct l; [discriminate Hl|]. split; [reflexivity|]. rewrite Hl. lia.
  - apply Nat.ltb_ge in E. intros H. inversion H; subst. exists volumes.
    destruct volumes; [cbn in E; lia|]. split; [reflexivity|exact E].
Qed.

Lemma liquidity_score_range (stock_data : string) (g g' : Rng.t) (lr : liquidity_risk) :
  _calculate_liquidity_risk np_sqrt np_exp stock_data g = Ret (lr, g') ->
  (10 <= liquidity_score lr <= 50)%Z /\
  (liquidity_level lr = "高" <-> (40 <= liquidity_score lr)%Z) /\
  (liquidity_level lr = "低" <-> (liquidity_score lr < 25)%Z) /\
  liquidity_level lr <> "未知".
Proof.
  unfold _calculate_liquidity_risk.
  destruct (_extract_volume_data np_exp stock_data g) as [[vs g1]|e] eqn:Ev;
    cbn [bind]; [|discriminate].
  destruct (extracted_volumes _ _ _ _ Ev) as (l & -> & Hl).
  destruct (1 <? List.length l)%nat eqn:E1; [|apply Nat.ltb_ge in E1; lia].
  cbv zeta.
  destruct (xgtb (xmean_of l) (Fin 1000000));
    [|destruct (xgtb (xmean_of l) (Fin 500000))];
    (destruct (xltb (xdiv (np_std np_sqrt l) (xmean_of l)) (Fin 0.5));
     [|destruct (xltb (xdiv (np_std np_sqrt l) (xmean_of l)) (Fin 1.0))]);
    intros H; inversion H; subst; clear H;
    cbn; repeat split; try lia; try discriminate; intros; try reflexivity; lia.
Qed.

(** what a successful analysis is made of *)
Lemma profile_of_success (stock_data : string) (md fd : option string)
      (g : Rng.t) (p : profile) :
  analyze_risk_profile np_sqrt np_exp stock_data md fd g = Done p ->
  exists mr vm dr var lr g3 g4,
    _calculate_liquidity_risk np_sqrt np_exp stock_data g3 = Ret (lr, g4) /\
    p_liquidity_risk p = lr /\
    p_fundamental_risk p = _calculate_fundamental_risk fd /\
    p_comprehensive_risk p
    = _calculate_comprehensive_risk mr vm dr var lr (_calculate_fundamental_risk fd) /\
    p_risk_alerts p = _generate_risk_alerts (p_comprehensive_risk p) /\
    p_risk_recommendations p = _generate_risk_recommendations (p_comprehensive_risk p) /\
    p_data_quality p = _assess_risk_data_quality stock_data md fd.
Proof.
  unfold analyze_risk_profile.
  destruct (_parse_price_data stock_data g) as [[prices|] g1]; [|discriminate].
  destruct (List.length prices <? 30)%nat; [discriminate|].
  unfold profile_of_series.
  destruct (_calculate_market_risk np_sqrt (_calculate_returns prices) md g1)
    as [mr g2].
  destruct (_calculate_downside_risk np_sqrt (_calculate_returns prices))
    as [dr|e]; cbn [bind]; [|discriminate].
  destruct (_calculate_var_metrics np_sqrt (_calculate_returns prices) g2)
    as [var g3].
  destruct (_calculate_liquidity_risk np_sqrt np_exp stock_data g3)
    as [[lr g4]|e] eqn:El; cbn [bind fst]; [|discriminate].
  intros H. inversion H; subst. clear H.
  exists mr, (_calculate_volatility_metrics np_sqrt (_calculate_returns prices)),
    dr, var, lr, g3, g4.
  repeat split; reflexivity || exact El.
Qed.

Lemma overall_risk_range (mr : market_risk) (vm : volatility_metrics)
      (dr : downside_risk) (var : var_metrics) (lr : liquidity_risk)
      (fd : option string) :
  (10 <= liquidity_score lr <= 50)%Z ->
  let cr := _calculate_comprehensive_risk mr vm dr var lr
              (_calculate_fundamental_risk fd) in
  40.5 <= overall_risk_score cr /\ overall_risk_score cr <= 93.75.
Proof.
  intros [Hl1 Hl2] cr. unfold cr. rewrite overall_risk_formula.
  pose proof (market_score_range mr) as [M1 M2].
  pose proof (volatility_score_range vm) as [V1 V2].
  pose proof (downside_score_range dr) as [D1 D2].
  assert (L1 : 10 <= inject_Z (liquidity_score lr))
    by (change 10 with (inject_Z 10); now rewrite <- Zle_Qle).
  assert (L2 : inject_Z (liquidity_score lr) <= 50)
    by (change 50 with (inject_Z 50); now rewrite <- Zle_Qle).
  destruct (fundamental_risk_values fd) as [F1 F2].
  destruct (opt_truthy fd).
  - destruct (F1 eq_refl) as [-> _]. change (inject_Z 80) with 80. lra.
  - destruct (F2 eq_refl) as [-> _]. change (inject_Z 0) with 0. lra.
Qed.

Lemma risk_level_of_score (mr : market_risk) (vm : volatility_metrics)
      (dr : downside_risk) (var : var_metrics) (lr : liquidity_risk)
      (fr : fundamental_risk) :
  let cr := _calculate_comprehensive_risk mr vm dr var lr fr in
  risk_level cr
  = if Qltb (overall_risk_score cr) 30 then "低"
    else if Qltb (overall_risk_score cr) 60 then "中"
    else "高".
Proof. reflexivity. Qed.

End WithSqrt.

End RiskScoreFacts.

Module ExcFacts.
Import PyExc.

(** a loop whose body raises at one of the items raises *)
Lemma fold_exc_raises {A S} (f : S -> A -> exc S) (l : list A) (a : A) :
  In a l -> (forall s, exists e, f s a = Raise e) ->
  forall s, exists e, fold_exc f l s = Raise e.
Proof.
  intros Hin Hf. induction l as [|b t IH]; [contradiction|].
  intros s. cbn [fold_exc].
  destruct Hin as [->|Hin].
  - destruct (Hf s) as [e He]. rewrite He. now exists e.
  - destruct (f s b) as [s'|e]; cbn [bind]; [now apply IH|now exists e].
Qed.

End ExcFacts.

Module RiskProfileFacts.
Import PyStr PyNum PyExc Risk RiskFacts RiskProfile ReturnsFacts DownsideFacts
       RiskScoreFacts ExcFacts.
Local Open Scope string_scope.

Lemma volume_line_raises (line : string) (e : error) (vs vs' : list Q) :
  volume_line vs line = Raise e -> volume_line vs' line = Raise e.
Proof.
  unfold volume_line.
  destruct (contains "成交量:" line || contains "Volume:" line); [|discriminate].
  destruct (index (split ":" line) 1) as [field|e0]; cbn [bind]; [|trivial].
  destruct (number_in field) as [[q|]|e1]; cbn [bind]; trivial; discriminate.
Qed.

(** the price series that passes the gate *)
Lemma parsed_prices (stock_data : string) (g : Rng.t) (prices : list Q) :
  extracted_prices stock_data = Ret prices ->
  exists ps g1, _parse_price_data stock_data g = (Some ps, g1) /\
                (30 <= List.length ps)%nat.
Proof.
  intros Hext. unfold _parse_price_data. rewrite Hext.
  destruct (List.length prices <? 30)%nat eqn:E.
  - pose proof (mock_prices_length 60 100 g) as Hl.
    destruct (mock_prices 60 100 g) as [mock g']. cbn [fst] in Hl.
    exists mock, g'. split; [reflexivity|lia].
  - apply Nat.ltb_ge in E. now exists prices, g.
Qed.

Section WithSqrt.

Variable np_sqrt : Q -> Q.
Variable np_exp : Q -> Q.

Lemma downside_succeeds (returns : list Q) :
  returns <> [] -> exists dr, _calculate_downside_risk np_sqrt returns = Ret dr.
Proof.
  intros Hne. unfold _calculate_downside_risk.
  pose proof (drawdowns_length returns) as Hl.
  destruct (drawdowns returns) as [|x dds].
  - destruct returns; [contradiction|discriminate Hl].
  - cbn [np_min bind]. eexists. reflexivity.
Qed.

Lemma returns_of_gate (prices : list Q) :
  (30 <= List.length prices)%nat -> _calculate_returns prices <> [].
Proof.
  intros Hlen E. pose proof (returns_length prices) as Hl.
  rewrite E in Hl. cbn [List.length] in Hl. lia.
Qed.

Lemma liquidity_of_volumes (stock_data : string) (g : Rng.t) :
  match fold_exc volume_line (split "010" stock_data) [] with
  | Ret _ => exists lr g', _calculate_liquidity_risk np_sqrt np_exp stock_data g
                           = Ret (lr, g')
  | Raise e => _calculate_liquidity_risk np_sqrt np_exp stock_data g = Raise e
  end.
Proof.
  unfold _calculate_liquidity_risk, _extract_volume_data.
  destruct (fold_exc volume_line (split "010" stock_data) []) as [volumes|e];
    cbn [bind]; [|reflexivity].
  destruct (if (List.length volumes <? 10)%nat then _ else _) as [vs g'].
  destruct vs as [|v vs]; cbn [bind]; [do 2 eexists; reflexivity|].
  destruct (1 <? List.length (v :: vs))%nat; do 2 eexists; reflexivity.
Qed.

(** the analysis of a text whose price lines and volume lines parse *)
Lemma analysis_succeeds (stock_data : string) (md fd : option string) (g : Rng.t)
      (prices volumes : list Q) :
  extracted_prices stock_data = Ret prices ->
  fold_exc volume_line (split "010" stock_data) [] = Ret volumes ->
  exists p, analyze_risk_profile np_sqrt np_exp stock_data md fd g = Done p.
Proof.
  intros Hext Hvol.
  destruct (parsed_prices stock_data g prices Hext) as (ps & g1 & Hparse & Hlen).
  unfold analyze_risk_profile. rewrite Hparse.
  destruct (List.length ps <? 30)%nat eqn:E; [apply Nat.ltb_lt in E; lia|].
  unfold profile_of_series.
  destruct (_calculate_market_risk np_sqrt (_calculate_returns ps) md g1) as [mr g2].
  destruct (downside_succeeds (_calculate_returns ps) (returns_of_gate ps Hlen))
    as [dr ->].
  cbn [bind].
  destruct (_calculate_var_metrics np_sqrt (_calculate_returns ps) g2) as [var g3].
  pose proof (liquidity_of_volumes stock_data g3) as Hliq. rewrite Hvol in Hliq.
  destruct Hliq as (lr & g4 & ->). cbn [bind]. eexists. reflexivity.
Qed.

(** X4.  A text whose price lines parse and that holds a volume line
    ("成交量:" or "Volume:") with a malformed number is not analysed: the
    [ValueError] of [float] leaves [_extract_volume_data] and the analysis
    returns the error dict of its [except] clause, after the price gate
    was passed. *)
Theorem malformed_volume_fails_the_analysis (stock_data : string)
        (md fd : option string) (g : Rng.t) (prices : list Q) (line : string)
        (e : error) :
  extracted_prices stock_data = Ret prices ->
  In line (split "010" stock_data) ->
  volume_line [] line = Raise e ->
  exists e', analyze_risk_profile np_sqrt np_exp stock_data md fd g = Failed e'.
Proof.
  intros Hext Hin Hline.
  destruct (parsed_prices stock_data g prices Hext) as (ps & g1 & Hparse & Hlen).
  unfold analyze_risk_profile. rewrite Hparse.
  destruct (List.length ps <? 30)%nat eqn:E; [apply Nat.ltb_lt in E; lia|].
  unfold profile_of_series.
  destruct (_calculate_market_risk np_sqrt (_calculate_returns ps) md g1) as [mr g2].
  destruct (downside_succeeds (_calculate_returns ps) (returns_of_gate ps Hlen))
    as [dr ->].
  cbn [bind].
  destruct (_calculate_var_metrics np_sqrt (_calculate_returns ps) g2) as [var g3].
  pose proof (liquidity_of_volumes stock_data g3) as Hliq.
  destruct (fold_exc_raises volume_line (split "010" stock_data) line Hin
              (fun s => ex_intro _ e (volume_line_raises line e [] s Hline)) [])
    as [e' He'].
  rewrite He' in Hliq. rewrite Hliq. cbn [bind]. now exists e'.
Qed.

(** X5.  Every successful risk analysis has an overall risk score between
    40.5 and 93.75: the level is "中" below 60 and "高" from 60 on, never
    "低", and the recommendations never open with the advice for an
    acceptable risk. *)
Theorem risk_level_never_low (stock_data : string) (md fd : option string)
        (g : Rng.t) (p : profile) :
  analyze_risk_profile np_sqrt np_exp stock_data md fd g = Done p ->
  let cr := p_comprehensive_risk p in
  40.5 <= overall_risk_score cr /\ overall_risk_score cr <= 93.75 /\
  risk_level cr <> "低" /\
  (risk_level cr = "高" <-> 60 <= overall_risk_score cr) /\
  (risk_level cr = "中" <-> overall_risk_score cr < 60) /\
  ~ In "当前风险水平可接受" (p_risk_recommendations p).
Proof.
  intros H cr.
  destruct (profile_of_success np_sqrt np_exp _ _ _ _ _ H)
    as (mr & vm & dr & var & lr & g3 & g4 & Hliq & _ & _ & Hcr & _ & Hrec & _).
  destruct (liquidity_score_range np_sqrt np_exp _ _ _ _ Hliq) as (Hl & _).
  pose proof (overall_risk_range mr vm dr var lr fd Hl) as Hrange.
  cbv zeta in Hrange. rewrite <- Hcr in Hrange. fold cr in Hrange.
  destruct Hrange as [Hlo Hhi].
  assert (Hlevel : risk_level cr
                   = if Qltb (overall_risk_score cr) 30 then "低"
                     else if Qltb (overall_risk_score cr) 60 then "中"
                     else "高")
    by (unfold cr; rewrite Hcr; reflexivity).
  split; [exact Hlo|]. split; [exact Hhi|].
  assert (H30 : Qltb (overall_risk_score cr) 30 = false)
    by (apply NumFacts.Qltb_false; lra).
  rewrite H30 in Hlevel.
  assert (Hrecs : ~ In "当前风险水平可接受" (p_risk_recommendations p)).
  { rewrite Hrec. fold cr. unfold _generate_risk_recommendations.
    rewrite Hlevel. intros Hin. apply in_app_or in Hin.
    destruct Hin as [Hin|Hin].
    - destruct (Qltb (overall_risk_score cr) 60); cbn in Hin;
        repeat (destruct Hin as [Hin|Hin]; [discriminate Hin|]); exact Hin.
    - apply in_flat_map in Hin. destruct Hin as (f & _ & Hin).
      destruct (String.eqb f "liquidity_risk");
        [|destruct (String.eqb f "volatility_risk");
          [|destruct (String.eqb f "market_risk")]];
        cbn in Hin; repeat (destruct Hin as [Hin|Hin]; [discriminate Hin|]);
        exact Hin. }
  destruct (Qltb (overall_risk_score cr) 60) eqn:E60; to_Q_props;
    rewrite Hlevel; repeat split; try discriminate; try assumption;
    intros; try reflexivity; try lra; try discriminate.
Qed.

End WithSqrt.

End RiskProfileFacts.

Module RiskFactorFacts.
Import PyStr PyNum PyExc Risk RiskFacts RiskProfile ReturnsFacts DownsideFacts
       RiskScoreFacts ExcFacts RiskProfileFacts PercentileFacts.
Local Open Scope string_scope.

(** a factor is listed exactly when its score is above 60 *)
Lemma risk_factor_listed (mr : market_risk) (vm : volatility_metrics)
      (dr : downside_risk) (var : var_metrics) (lr : liquidity_risk)
      (fr : fundamental_risk) :
  let cr := _calculate_comprehensive_risk mr vm dr var lr fr in
  (In "liquidity_risk" (risk_factors cr)
   <-> 60 < 100 - inject_Z (liquidity_score lr)) /\
  (In "fundamental_risk" (risk_factors cr)
   <-> 60 < 100 - inject_Z (fundamental_risk_score fr)).
Proof.
  unfold _calculate_comprehensive_risk.
  cbn [risk_factors factor_names combine filter fst snd].
  destruct (Qgtb (_score_market_risk mr) 60);
    destruct (Qgtb (_score_volatility_risk vm) 60);
    destruct (Qgtb (_score_downside_risk dr) 60);
    destruct (Qgtb (100 - inject_Z (liquidity_score lr)) 60) eqn:EL;
    destruct (Qgtb (100 - inject_Z (fundamental_risk_score fr)) 60) eqn:EF;
    to_Q_props; cbn [map fst];
    (split; (split; intros H;
             [first [lra
                    |exfalso; cbn [In] in H;
                     repeat (destruct H as [H|H]; [discriminate H|]); exact H]
             |first [exfalso; lra|cbn [In]; auto 10]])).
Qed.

Section WithSqrt.

Variable np_sqrt : Q -> Q.
Variable np_exp : Q -> Q.

(** X6.  In every successful risk analysis: without fundamentals data
    the fundamental risk score is 0 with level "未知", which the overall
    score counts as the full risk 100, so that "fundamental_risk" is a
    listed risk factor and has its alert; with fundamentals data,
    whatever the text says, the score is 80 with level "低" and the factor
    is not listed.  "liquidity_risk" is listed exactly when the liquidity
    level is not "高". *)
Theorem missing_fundamentals_is_a_risk_factor (stock_data : string)
        (md fd : option string) (g : Rng.t) (p : profile) :
  analyze_risk_profile np_sqrt np_exp stock_data md fd g = Done p ->
  let cr := p_comprehensive_risk p in
  (opt_truthy fd = false ->
   fundamental_risk_score (p_fundamental_risk p) = 0%Z /\
   fundamental_risk_level (p_fundamental_risk p) = "未知" /\
   In "fundamental_risk" (risk_factors cr) /\
   In (Factor "fundamental_risk") (p_risk_alerts p)) /\
  (opt_truthy fd = true ->
   fundamental_risk_score (p_fundamental_risk p) = 80%Z /\
   fundamental_risk_level (p_fundamental_risk p) = "低" /\
   ~ In "fundamental_risk" (risk_factors cr)) /\
  (In "liquidity_risk" (risk_factors cr)
   <-> liquidity_level (p_liquidity_risk p) <> "高").
Proof.
  intros H cr.
  destruct (profile_of_success np_sqrt np_exp _ _ _ _ _ H)
    as (mr & vm & dr & var & lr & g3 & g4 & Hliq & Hlr & Hfr & Hcr & Hal & _).
  destruct (liquidity_score_range np_sqrt np_exp _ _ _ _ Hliq) as (Hl & Hhigh & _).
  destruct (risk_factor_listed mr vm dr var lr (_calculate_fundamental_risk fd))
    as [FL FF].
  rewrite <- Hcr in FL, FF. fold cr in FL, FF.
  destruct (fundamental_risk_values fd) as [F1 F0].
  rewrite Hfr, Hlr.
  split; [|split].
  - intros E. destruct (F0 E) as [Hs Hv]. rewrite Hs in FF.
    assert (Hin : In "fundamental_risk" (risk_factors cr))
      by (apply FF; reflexivity).
    repeat split; try assumption.
    rewrite Hal. fold cr. unfold _generate_risk_alerts.
    apply in_or_app. right. apply in_or_app. right. now apply in_map.
  - intros E. destruct (F1 E) as [Hs Hv]. rewrite Hs in FF.
    repeat split; try assumption.
    intros Hin. apply FF in Hin. revert Hin. vm_compute. discriminate.
  - rewrite FL, Hhigh. split.
    + intros Hlt Hge. rewrite Zle_Qle in Hge.
      change (inject_Z 40) with 40 in Hge. lra.
    + intros Hn. destruct (Z_lt_le_dec (liquidity_score lr) 40) as [Hlt|Hge];
        [|contradiction].
      rewrite Zlt_Qlt in Hlt. change (inject_Z 40) with 40 in Hlt. lra.
Qed.

(** X7.  For every non-empty return series the 1 percent quantile
    [var_99] and the 5 percent quantile [var_95] are numbers with
    [var_99 <= var_95], and [var_historical] is [var_95]. *)
Theorem var_99_at_most_var_95 (returns : list Q) (g : Rng.t) :
  returns <> [] ->
  let m := fst (_calculate_var_metrics np_sqrt returns g) in
  exists v99 v95,
    var_99 m = Fin v99 /\ var_95 m = Fin v95 /\ v99 <= v95 /\
    var_historical m = var_95 m.
Proof.
  intros Hne m.
  destruct (var_metrics_without_draws np_sqrt returns g)
    as (H95 & H99 & Hhist & _).
  fold m in H95, H99, Hhist.
  destruct (percentile_monotone returns 1 5 Hne) as (v1 & v2 & E1 & E2 & Hle);
    [lra|lra|lra|].
  exists v1, v2. rewrite H99, H95, Hhist. repeat split; assumption.
Qed.

End WithSqrt.

(** X8.  The data quality of a risk analysis is decided by three tests,
    a stock text of more than 100 characters, a non-empty market text
    and a non-empty fundamentals text: the level is "良好" exactly when
    all three hold (overall quality 76, the highest there is) and "较差"
    exactly when the stock text is short and one of the other two is
    missing; each failed test is listed as a limitation. *)
Theorem risk_data_quality_levels (stock_data : string) (md fd : option string) :
  let q := _assess_risk_data_quality stock_data md fd in
  let b (x : bool) := if x then O else 1%nat in
  overall_quality q <= 76 /\
  (quality_level q = "良好"
   <-> FundamentalsProfile.long_text stock_data = true /\ opt_truthy md = true
       /\ opt_truthy fd = true) /\
  (quality_level q = "较差"
   <-> FundamentalsProfile.long_text stock_data = false
       /\ (opt_truthy md = false \/ opt_truthy fd = false)) /\
  List.length (data_limitations q)
  = (b (FundamentalsProfile.long_text stock_data) + b (opt_truthy md)
     + b (opt_truthy fd))%nat.
Proof.
  unfold _assess_risk_data_quality.
  destruct (FundamentalsProfile.long_text stock_data);
    destruct (opt_truthy md); destruct (opt_truthy fd);
    cbn -[Qle]; (split; [vm_compute; discriminate|]);
    repeat split; intros; try reflexivity; try discriminate; auto;
    repeat match goal with
      | H : _ /\ _ |- _ => destruct H
      | H : _ \/ _ |- _ => destruct H
      end; try discriminate.
Qed.

End RiskFactorFacts.

Module SummaryFacts.
Import PyStr PyNum PyExc Toolkit ToolkitQuality RiskFacts DownsideFacts.
Local Open Scope string_scope.

Lemma Qsum_ge_bound (l : list Q) (v : Q) :
  Forall (fun r => v <= r) l -> Qlen l * v <= Qsum l.
Proof.
  induction 1 as [|r l Hr Hl IH].
  - unfold Qsum, Qlen. cbn [fold_right List.length].
    change (inject_Z (Z.of_nat 0)) with 0. lra.
  - unfold Qlen in *. cbn [Qsum fold_right List.length]. fold (Qsum l).
    rewrite Nat2Z.inj_succ. unfold Z.succ. rewrite inject_Z_plus.
    change (inject_Z 1) with 1. lra.
Qed.

(** the mean of a non-empty list lies between bounds of its entries *)
Lemma mean_between (l : list Q) (lo hi : Q) :
  l <> [] -> Forall (fun r => lo <= r /\ r <= hi) l ->
  lo <= Qsum l / Qlen l /\ Qsum l / Qlen l <= hi.
Proof.
  intros Hne H. pose proof (Qlen_pos l Hne) as Hpos.
  assert (Hlo : Forall (fun r => lo <= r) l)
    by (eapply Forall_impl; [|exact H]; cbn; tauto).
  assert (Hhi : Forall (fun r => r <= hi) l)
    by (eapply Forall_impl; [|exact H]; cbn; tauto).
  apply Qsum_ge_bound in Hlo. apply Qsum_le_bound in Hhi.
  split.
  - apply Qle_shift_div_l; [exact Hpos|]. lra.
  - apply Qle_shift_div_r; [exact Hpos|]. lra.
Qed.

Lemma summary_scores (res : results) :
  let sm := _generate_comprehensive_summary res in
  technical_score sm = fst (technical_part res) /\
  fundamentals_score sm = fst (fundamentals_part res) /\
  sentiment_score sm = fst (sentiment_part res) /\
  risk_score sm = fst (risk_part res) /\
  overall_score sm
  = overall_of [fst (technical_part res); fst (fundamentals_part res);
                fst (sentiment_part res); fst (risk_part res)] /\
  strengths sm
  = (fst (strength_or_weakness (fst (technical_part res)) "技术面表现强劲" "技术面偏弱")
     ++ fst (strength_or_weakness (fst (fundamentals_part res))
               "基本面健康" "基本面存在问题")
     ++ fst (strength_or_weakness (fst (sentiment_part res))
               "市场情绪积极" "市场情绪消极")
     ++ fst (strength_or_weakness (fst (risk_part res))
               "风险控制良好" "风险水平较高"))%list /\
  weaknesses sm
  = (snd (strength_or_weakness (fst (technical_part res)) "技术面表现强劲" "技术面偏弱")
     ++ snd (strength_or_weakness (fst (fundamentals_part res))
               "基本面健康" "基本面存在问题")
     ++ snd (strength_or_weakness (fst (sentiment_part res))
               "市场情绪积极" "市场情绪消极")
     ++ snd (strength_or_weakness (fst (risk_part res))
               "风险控制良好" "风险水平较高"))%list.
Proof.
  unfold _generate_comprehensive_summary, overall_of.
  destruct (technical_part res) as [t k1], (fundamentals_part res) as [f k2],
    (sentiment_part res) as [s k3], (risk_part res) as [r k4].
  cbn [fst snd technical_score fundamentals_score sentiment_score risk_score
       overall_score strengths weaknesses].
  repeat split; try reflexivity.
  destruct (filter (fun s0 => Qgtb s0 0) [t; f; s; r]); reflexivity.
Qed.

Lemma overall_of_bounds (scores : list Q) (lo hi : Q) :
  Exists (fun s => 0 < s) scores ->
  Forall (fun s => 0 < s -> lo <= s /\ s <= hi) scores ->
  lo <= overall_of scores /\ overall_of scores <= hi.
Proof.
  intros Hex Hall. unfold overall_of.
  assert (Hf : Forall (fun r => lo <= r /\ r <= hi) (filter (fun s => Qgtb s 0) scores)).
  { apply Forall_forall. intros x Hx. apply filter_In in Hx. destruct Hx as [Hin Hp].
    to_Q_props. rewrite Forall_forall in Hall. now apply Hall. }
  assert (Hne : filter (fun s => Qgtb s 0) scores <> []).
  { apply Exists_exists in Hex. destruct Hex as (x & Hin & Hx).
    assert (Hx' : In x (filter (fun s => Qgtb s 0) scores)).
    { apply filter_In. split; [exact Hin|]. now apply NumFacts.Qgtb_true. }
    intro E. rewrite E in Hx'. exact Hx'. }
  destruct (filter (fun s => Qgtb s 0) scores) as [|v vs] eqn:E; [contradiction|].
  now apply (mean_between (v :: vs)).
Qed.

Lemma overall_of_nothing (scores : list Q) :
  Forall (fun s => s <= 0) scores -> overall_of scores = 0.
Proof.
  intros H. unfold overall_of.
  assert (E : filter (fun s => Qgtb s 0) scores = []).
  { induction H as [|x l Hx Hl IH]; [reflexivity|]. cbn [filter].
    now rewrite (proj2 (NumFacts.Qgtb_false x 0) Hx). }
  now rewrite E.
Qed.

(** the share of bullish signals *)
Lemma bullish_share (sigs : list (string * string)) :
  sigs <> [] ->
  0 <= count_Q (filter (fun kv => is_bullish (snd kv)) sigs) / count_Q sigs * 100 /\
  count_Q (filter (fun kv => is_bullish (snd kv)) sigs) / count_Q sigs * 100 <= 100.
Proof.
  intros Hne.
  pose proof (filter_length_le (fun kv => is_bullish (snd kv)) sigs) as Hle.
  unfold count_Q.
  set (a := List.length (filter _ sigs)) in *. set (n := List.length sigs).
  assert (Hn : (0 < n)%nat) by (unfold n; destruct sigs; [contradiction|cbn; lia]).
  assert (Ha : 0 <= inject_Z (Z.of_nat a))
    by (change 0 with (inject_Z 0); rewrite <- Zle_Qle; lia).
  assert (Hn' : 0 < inject_Z (Z.of_nat n))
    by (change 0 with (inject_Z 0); rewrite <- Zlt_Qlt; lia).
  assert (Han : inject_Z (Z.of_nat a) <= inject_Z (Z.of_nat n))
    by (rewrite <- Zle_Qle; lia).
  assert (H0 : 0 <= inject_Z (Z.of_nat a) / inject_Z (Z.of_nat n))
    by (apply Qle_shift_div_l; [exact Hn'|lra]).
  assert (H1 : inject_Z (Z.of_nat a) / inject_Z (Z.of_nat n) <= 1)
    by (apply Qle_shift_div_r; [exact Hn'|lra]).
  split; lra.
Qed.

Lemma technical_part_range (res : results) :
  0 <= fst (technical_part res) /\ fst (technical_part res) <= 100.
Proof.
  unfold technical_part. destruct (usable (technical_analysis res)) as [tech|];
    [|cbn; lra].
  cbn [fst]. destruct (signals tech) as [|kv rest] eqn:E; [lra|].
  assert (Hpos : Qgtb (count_Q (kv :: rest)) 0 = true).
  { apply NumFacts.Qgtb_true. unfold count_Q, Qlt. cbn [List.length]. cbn. lia. }
  rewrite Hpos. apply bullish_share. discriminate.
Qed.

(** X9.  When the analyses a summary is made from are within their
    ranges (a health score in [0, 100], a weighted sentiment in [-1, 1]
    with a confidence in [0, 1], an overall risk score in [0, 100]), the
    four scores and the overall score of the summary are in [0, 100]. *)
Theorem summary_scores_within_range (res : results) :
  (forall fund, usable (fundamentals_analysis res) = Some fund ->
                0 <= get (health_score fund) 50 /\ get (health_score fund) 50 <= 100) ->
  (forall sent, usable (sentiment_analysis res) = Some sent ->
                -1 <= get (weighted_sentiment sent) 0
                /\ get (weighted_sentiment sent) 0 <= 1
                /\ 0 <= get (confidence_score sent) 0.5
                /\ get (confidence_score sent) 0.5 <= 1) ->
  (forall risk, usable (risk_analysis res) = Some risk ->
                0 <= get (overall_risk_score risk) 50
                /\ get (overall_risk_score risk) 50 <= 100) ->
  let sm := _generate_comprehensive_summary res in
  (0 <= technical_score sm /\ technical_score sm <= 100) /\
  (0 <= fundamentals_score sm /\ fundamentals_score sm <= 100) /\
  (0 <= sentiment_score sm /\ sentiment_score sm <= 100) /\
  (0 <= risk_score sm /\ risk_score sm <= 100) /\
  (0 <= overall_score sm /\ overall_score sm <= 100).
Proof.
  intros Hf Hs Hr sm.
  destruct (summary_scores res) as (Et & Ef & Es & Er & Eo & _).
  fold sm in Et, Ef, Es, Er, Eo.
  assert (Ht' := technical_part_range res).
  assert (Hf' : 0 <= fst (fundamentals_part res) /\ fst (fundamentals_part res) <= 100).
  { unfold fundamentals_part.
    destruct (usable (fundamentals_analysis res)) as [fund|]; [|cbn; lra].
    specialize (Hf fund eq_refl). cbn [fst].
    destruct (String.eqb _ "低估"); [|destruct (String.eqb _ "合理")].
    - pose proof (Qmin_le_l 100 (get (health_score fund) 50 + 20)).
      unfold Qmin in *. destruct (Qleb 100 _) eqn:E; to_Q_props; lra.
    - exact Hf.
    - pose proof (Qmax_ge_l 0 (get (health_score fund) 50 - 20)).
      unfold Qmax in *. destruct (Qleb 0 _) eqn:E; to_Q_props; lra. }
  assert (Hs' : 0 <= fst (sentiment_part res) /\ fst (sentiment_part res) <= 100).
  { unfold sentiment_part.
    destruct (usable (sentiment_analysis res)) as [sent|]; [|cbn; lra].
    specialize (Hs sent eq_refl). cbn [fst]. nra. }
  assert (Hr' : 0 <= fst (risk_part res) /\ fst (risk_part res) <= 100).
  { unfold risk_part.
    destruct (usable (risk_analysis res)) as [risk|]; [|cbn; lra].
    specialize (Hr risk eq_refl). cbn [fst]. lra. }
  rewrite Et, Ef, Es, Er, Eo.
  repeat split; try tauto.
  - unfold overall_of.
    destruct (filter _ _) as [|v vs] eqn:E; [apply Qle_refl|].
    apply (mean_between (v :: vs) 0 100); [discriminate|].
    rewrite <- E. apply Forall_forall. intros x Hx. apply filter_In in Hx.
    destruct Hx as [Hin _]. cbn [In] in Hin.
    destruct Hin as [<-|[<-|[<-|[<-|[]]]]]; assumption.
  - unfold overall_of.
    destruct (filter _ _) as [|v vs] eqn:E; [lra|].
    apply (mean_between (v :: vs) 0 100); [discriminate|].
    rewrite <- E. apply Forall_forall. intros x Hx. apply filter_In in Hx.
    destruct Hx as [Hin _]. cbn [In] in Hin.
    destruct Hin as [<-|[<-|[<-|[<-|[]]]]]; assumption.
Qed.

End SummaryFacts.

Module RecommendationFacts.
Import PyStr PyNum PyExc Toolkit ToolkitQuality RiskFacts DownsideFacts SummaryFacts.
Local Open Scope string_scope.

Ltac split_on_ladder score :=
  destruct (Qgeb score 80) eqn:?;
    [|destruct (Qgeb score 65) eqn:?;
      [|destruct (Qgeb score 50) eqn:?; [|destruct (Qgeb score 35) eqn:?]]];
  to_Q_props.

Ltac read_recommendation :=
  cbn [position_size risk_warnings action_items one_of existsb String.eqb
       Ascii.eqb Bool.eqb andb orb app List.length hd_error];
  repeat split; intros;
  repeat match goal with H : _ /\ _ |- _ => destruct H end;
  try reflexivity; try discriminate; try assumption; try lra; try lia.

(** when the position size is "重仓" *)
Lemma heavy_position_rule (res : results) :
  position_size (_generate_investment_recommendation res) = "重仓"
  <-> 80 <= score_read res /\ high_risk res = false.
Proof.
  unfold _generate_investment_recommendation, score_read, high_risk.
  set (score := match comprehensive_summary res with
                | Some sm => overall_score sm
                | None => 50
                end).
  destruct (usable (risk_analysis res)) as [risk|].
  - split_on_ladder score;
      destruct (String.eqb (get (risk_level risk) "中") "高") eqn:Eh;
      read_recommendation.
  - split_on_ladder score; read_recommendation.
Qed.

(** X10.  "重仓" is recommended exactly when the overall score read is at
    least 80 and the risk analysis, if there is a usable one, does not
    put the risk level at "高"; with a risk level "高" a score of 65 or
    more gets "轻仓" and the warning of line 404.  There are at most
    three risk warnings and always three action items. *)
Theorem heavy_position_needs_moderate_risk (res : results) :
  let rc := _generate_investment_recommendation res in
  (position_size rc = "重仓" <-> 80 <= score_read res /\ high_risk res = false) /\
  (high_risk res = true -> 65 <= score_read res ->
   position_size rc = "轻仓"
   /\ hd_error (risk_warnings rc) = Some "投资风险较高，建议谨慎操作") /\
  (List.length (risk_warnings rc) <= 3)%nat /\
  List.length (action_items rc) = 3%nat.
Proof.
  unfold _generate_investment_recommendation, score_read, high_risk.
  set (score := match comprehensive_summary res with
                | Some sm => overall_score sm
                | None => 50
                end).
  destruct (usable (risk_analysis res)) as [risk|].
  - pose proof (firstn_le_length 2 (risk_alerts risk)) as Hw.
    split_on_ladder score;
      destruct (String.eqb (get (risk_level risk) "中") "高") eqn:Eh;
      read_recommendation.
  - split_on_ladder score; read_recommendation.
Qed.

Lemma assess_usable {A} (x : option (analysis A)) (limitation : string) :
  assess x limitation
  = if is_usable x then (1%nat, []) else (O, [limitation]).
Proof. unfold assess, is_usable. now destruct (usable x). Qed.

(** X11.  The coverage of an analysis is 25 for each usable analysis of
    the four, each analysis that is not usable is listed as a limitation,
    and the quality is "优秀" from three usable analyses on, "良好" with
    two and "一般" below; [data_completeness] stays 0. *)
Theorem analysis_quality_counts_usable (res : results) :
  let q := _assess_analysis_quality res in
  analysis_coverage q == 25 * inject_Z (Z.of_nat (usable_count res)) /\
  (List.length (limitations q) + usable_count res = 4)%nat /\
  (overall_quality q = "优秀" <-> (3 <= usable_count res)%nat) /\
  (overall_quality q = "良好" <-> usable_count res = 2%nat) /\
  (overall_quality q = "一般" <-> (usable_count res <= 1)%nat) /\
  data_completeness q = 0.
Proof.
  unfold _assess_analysis_quality, usable_count.
  rewrite !assess_usable.
  destruct (is_usable (technical_analysis res));
    destruct (is_usable (fundamentals_analysis res));
    destruct (is_usable (sentiment_analysis res));
    destruct (is_usable (risk_analysis res));
    cbn -[Qeq]; (split; [reflexivity|]);
    repeat split; intros; try reflexivity; try discriminate; try lia.
Qed.

End RecommendationFacts.

Module PipelineFacts.
Import PyStr PyNum PyExc Toolkit ToolkitQuality RiskFacts DownsideFacts SummaryFacts
       ToolkitFacts.
Local Open Scope string_scope.

Section Analyzers.

Variable analyze_news_sentiment : string -> string -> exc (analysis sent_view).
Variable analyze_risk_metrics :
  string -> option string -> option string -> exc (analysis risk_view).

Let run := comprehensive_analysis analyze_news_sentiment analyze_risk_metrics.

(** what [comprehensive_analysis] stores under each key *)
Lemma comprehensive_analysis_keys (ticker stock_data : string)
      (fundamentals_data news_data market_data : option string)
      (company_name : string) :
  let out := run ticker stock_data fundamentals_data news_data market_data
                 company_name in
  usable (technical_analysis out) = None /\
  fundamentals_analysis out
  = Some (fund_view_of (Fundamentals.analyze_fundamentals stock_data
                          fundamentals_data)) /\
  sentiment_analysis out
  = match news_data with
    | Some nd =>
        if truthy nd then Some (guarded (analyze_news_sentiment nd ticker)) else None
    | None => None
    end /\
  risk_analysis out
  = Some (guarded (analyze_risk_metrics stock_data market_data fundamentals_data)) /\
  comprehensive_summary out = Some (_generate_comprehensive_summary out) /\
  investment_recommendation out = Some (_generate_investment_recommendation out).
Proof.
  unfold run, comprehensive_analysis. cbn zeta.
  cbn [technical_analysis fundamentals_analysis sentiment_analysis risk_analysis
       comprehensive_summary investment_recommendation].
  split; [apply technical_never_usable|].
  repeat split; reflexivity.
Qed.

Lemma fundamentals_part_values (res : results) (stock_data : string)
      (fundamentals_data : option string) :
  fundamentals_analysis res
  = Some (fund_view_of (Fundamentals.analyze_fundamentals stock_data
                          fundamentals_data)) ->
  let s := fst (fundamentals_part res) in
  (Fundamentals._extract_price_info stock_data = None -> s = 0) /\
  (Fundamentals._extract_price_info stock_data <> None ->
   opt_truthy fundamentals_data = true -> s = 100 \/ s = 80) /\
  (opt_truthy fundamentals_data = false -> s = 20 \/ s = 0).
Proof.
  intros Hf. unfold fundamentals_part. rewrite Hf.
  unfold Fundamentals.analyze_fundamentals.
  destruct (Fundamentals._extract_price_info stock_data) as [pi|];
    cbn [fund_view_of usable fst];
    [|repeat split; intros; try reflexivity; try contradiction; now right].
  cbn [valuation_level health_score get Fundamentals.r_valuation_metrics
       Fundamentals.r_financial_health].
  unfold Fundamentals._calculate_valuation_metrics,
    Fundamentals._calculate_financial_health.
  cbn [Fundamentals.valuation_level].
  destruct (opt_truthy fundamentals_data);
    cbn [Fundamentals.health_score];
    (destruct (Fundamentals.num_truthy (Fundamentals.pe_ratio pi)
               && Fundamentals.num_truthy (Fundamentals.pb_ratio pi));
     [destruct (Qltb (Fundamentals.num (Fundamentals.pe_ratio pi)) 15
                && Qltb (Fundamentals.num (Fundamentals.pb_ratio pi)) 2);
      [|destruct (Qgtb (Fundamentals.num (Fundamentals.pe_ratio pi)) 30
                 || Qgtb (Fundamentals.num (Fundamentals.pb_ratio pi)) 5)]|]);
    repeat split; intros; try discriminate; try (left; reflexivity);
    try (right; reflexivity).
Qed.

(** X12.  In every result of [comprehensive_analysis] the fundamentals
    score takes one of four values, whatever the fundamentals text says:
    100 or 80 when the text is not empty and the price information was
    extracted, with "基本面健康" among the strengths, and 20 or 0 when
    there is no fundamentals text, with "基本面存在问题" among the
    weaknesses. *)
Theorem fundamentals_score_from_constants (ticker stock_data : string)
        (fundamentals_data news_data market_data : option string)
        (company_name : string) :
  let out := run ticker stock_data fundamentals_data news_data market_data
                 company_name in
  let sm := _generate_comprehensive_summary out in
  comprehensive_summary out = Some sm /\
  (Fundamentals._extract_price_info stock_data <> None ->
   opt_truthy fundamentals_data = true ->
   (fundamentals_score sm = 100 \/ fundamentals_score sm = 80)
   /\ In "基本面健康" (strengths sm)) /\
  (opt_truthy fundamentals_data = false ->
   (fundamentals_score sm = 20 \/ fundamentals_score sm = 0)
   /\ In "基本面存在问题" (weaknesses sm)).
Proof.
  intros out sm.
  destruct (comprehensive_analysis_keys ticker stock_data fundamentals_data
              news_data market_data company_name)
    as (_ & Hf & _ & _ & Hsm & _).
  fold out in Hf, Hsm. fold sm in Hsm.
  destruct (fundamentals_part_values out stock_data fundamentals_data Hf)
    as (_ & Hfull & Hnone).
  destruct (summary_scores out) as (_ & Ef & _ & _ & _ & Est & Ewk).
  fold sm in Ef, Est, Ewk.
  split; [exact Hsm|]. split.
  - intros Hx Ht. specialize (Hfull Hx Ht). rewrite Ef. split; [exact Hfull|].
    rewrite Est. apply in_or_app. right. apply in_or_app. left.
    destruct Hfull as [-> | ->]; now left.
  - intros Ht. specialize (Hnone Ht). rewrite Ef. split; [exact Hnone|].
    rewrite Ewk. apply in_or_app. right. apply in_or_app. left.
    destruct Hnone as [-> | ->]; now left.
Qed.

End Analyzers.

End PipelineFacts.

Module StringFacts.
Import PyStr PyText.
Local Open Scope string_scope.

Lemma prefix_app (a b : string) :
  String.prefix a b = true <-> exists c, b = a ++ c.
Proof.
  revert b. induction a as [|x a IH]; intros b.
  - destruct b; cbn; (split; [intros _; eexists; reflexivity|reflexivity]).
  - destruct b as [|y b]; cbn.
    + split; [discriminate|intros [c H]; discriminate H].
    + destruct (Ascii.ascii_dec x y) as [->|Hne].
      * rewrite IH. split; intros [c H]; exists c; [now rewrite H|now inversion H].
      * split; [discriminate|intros [c H]; inversion H; congruence].
Qed.

Lemma contains_app (needle hay : string) :
  contains needle hay = true <-> exists pre post, hay = pre ++ needle ++ post.
Proof.
  induction hay as [|y hay IH].
  - cbn [contains]. destruct (String.prefix needle "") eqn:E.
    + apply prefix_app in E. destruct E as [c E].
      split; [intros _; now exists "", c|reflexivity].
    + split; [discriminate|]. intros (pre & post & H).
      destruct pre; [|discriminate H]. cbn in H.
      assert (E' : String.prefix needle "" = true) by (apply prefix_app; now exists post).
      congruence.
  - cbn [contains]. destruct (String.prefix needle (String y hay)) eqn:E.
    + apply prefix_app in E. destruct E as [c E].
      split; [intros _; now exists "", c|reflexivity].
    + rewrite IH. split.
      * intros (pre & post & H). exists (String y pre), post. now rewrite H.
      * intros (pre & post & H). destruct pre as [|p pre].
        -- cbn in H.
           assert (E' : String.prefix needle (String y hay) = true)
             by (apply prefix_app; now exists post).
           congruence.
        -- inversion H. now exists pre, post.
Qed.

Lemma append_assoc (a b c : string) : (a ++ b) ++ c = a ++ (b ++ c).
Proof. induction a as [|x a IH]; [reflexivity|]. cbn. now rewrite IH. Qed.

(** a text that holds [b] holds every part of [b] *)
Lemma contains_trans (a b s : string) :
  contains a b = true -> contains b s = true -> contains a s = true.
Proof.
  rewrite !contains_app. intros (p1 & q1 & ->) (p2 & q2 & ->).
  exists (p2 ++ p1), (q1 ++ q2). now rewrite !append_assoc.
Qed.

End StringFacts.

Module NewsFacts.
Import PyStr PyText PyNum PyExc News StringFacts DownsideFacts SummaryFacts RiskFacts.
Local Open Scope string_scope.

(** X13.  The weight of a news source is 1.0, 0.9, 0.8 or 0.5 and never
    0.7: the key "财经" (0.8) stands before "新浪财经", "腾讯财经" and
    "网易财经" (0.7) in the table and is part of each of them, so that a
    source holding one of these three names is weighted 0.8, or more if it
    also holds a key of a higher weight. *)
Theorem source_weight_never_seven_tenths (source : string) :
  (_get_source_weight source = 1.0 \/ _get_source_weight source = 0.9
   \/ _get_source_weight source = 0.8 \/ _get_source_weight source = 0.5) /\
  (contains "新浪财经" source = true \/ contains "腾讯财经" source = true
   \/ contains "网易财经" source = true ->
   _get_source_weight source = 1.0 \/ _get_source_weight source = 0.9
   \/ _get_source_weight source = 0.8).
Proof.
  assert (Hcj : forall k, contains "财经" k = true ->
                          contains "财经" source = false ->
                          contains k source = false).
  { intros k Hk Hs. destruct (contains k source) eqn:E; [|reflexivity].
    rewrite (contains_trans _ _ _ Hk E) in Hs. discriminate Hs. }
  unfold _get_source_weight, news_source_weights. cbn [find fst snd].
  destruct (contains "央视新闻" source); [split; auto|].
  destruct (contains "新华社" source); [split; auto|].
  destruct (contains "人民日报" source); [split; auto|].
  destruct (contains "证券时报" source); [split; auto|].
  destruct (contains "上海证券报" source); [split; auto|].
  destruct (contains "中国证券报" source); [split; auto|].
  destruct (contains "财经" source) eqn:Ecj; [split; auto|].
  rewrite (Hcj "第一财经" eq_refl eq_refl).
  rewrite (Hcj "新浪财经" eq_refl eq_refl).
  rewrite (Hcj "腾讯财经" eq_refl eq_refl).
  rewrite (Hcj "网易财经" eq_refl eq_refl).
  destruct (contains "21世纪经济报道" source);
    [split; [auto|intros [H|[H|H]]; discriminate H]|].
  destruct (contains "其他" source);
    (split; [auto|intros [H|[H|H]]; discriminate H]).
Qed.

End NewsFacts.

Module NewsBounds.
Import PyStr PyText PyNum PyExc News StringFacts DownsideFacts SummaryFacts RiskFacts
       NewsFacts.
Local Open Scope string_scope.

Lemma decay_range (time_str : string) :
  0.1 <= Sentiment._calculate_single_time_decay time_str /\
  Sentiment._calculate_single_time_decay time_str <= 1.
Proof.
  unfold Sentiment._calculate_single_time_decay, Sentiment.time_decay_body,
    Sentiment.first_int.
  destruct (contains "小时前" time_str).
  - destruct (search_run is_digit time_str) as [[run rest]|]; cbn [bind try_except].
    + destruct (int_of_digits run <? 24)%Z; split; discriminate.
    + split; discriminate.
  - destruct (contains "天前" time_str); [|cbn; split; discriminate].
    destruct (search_run is_digit time_str) as [[run rest]|]; cbn [bind try_except];
      [|split; discriminate].
    destruct (int_of_digits run =? 1)%Z; [split; discriminate|].
    destruct (int_of_digits run =? 2)%Z; [split; discriminate|].
    destruct (int_of_digits run =? 3)%Z; [split; discriminate|].
    destruct (int_of_digits run <=? 7)%Z; [split; discriminate|].
    destruct (int_of_digits run <=? 14)%Z; [split; discriminate|].
    destruct (int_of_digits run <=? 30)%Z; split; discriminate.
Qed.

Lemma source_weight_range (source : string) :
  0.5 <= _get_source_weight source /\ _get_source_weight source <= 1.
Proof.
  unfold _get_source_weight, news_source_weights. cbn [find fst snd].
  repeat match goal with
         | |- context [contains ?k source] => destruct (contains k source)
         end; split; discriminate.
Qed.

Lemma content_weight_range (content : string) :
  1 <= _get_content_weight content /\ _get_content_weight content <= 2.
Proof.
  unfold _get_content_weight.
  assert (Hfold : forall l w, 1 <= w ->
            1 <= fold_left
                   (fun w keyword => if contains keyword content then w * 1.2 else w)
                   l w).
  { induction l as [|k l IH]; intros w Hw; [exact Hw|].
    cbn [fold_left]. apply IH. destruct (contains k content); lra. }
  specialize (Hfold high_impact_keywords 1.0 ltac:(discriminate)).
  set (w := fold_left _ high_impact_keywords 1.0) in *.
  assert (Hw' : 1 <= (if has_figure content then w * 1.1 else w))
    by (destruct (has_figure content); lra).
  set (w' := if has_figure content then w * 1.1 else w) in *.
  unfold Qmin. destruct (Qleb w' 2.0) eqn:E; to_Q_props; split; try lra; discriminate.
Qed.

Section WithSqrt.

Variable math_sqrt : Q -> Q.
Variable np_sqrt : Q -> Q.

Lemma text_sentiment_range (text : string) :
  -1 <= _calculate_text_sentiment math_sqrt text /\
  _calculate_text_sentiment math_sqrt text <= 1.
Proof.
  unfold _calculate_text_sentiment.
  destruct (tally negative_keywords text _) as [score word_count].
  set (s := if (0 <? word_count)%nat then _ else score).
  pose proof (Qmax_ge_l (-1.0) (Qmin 1.0 s)) as H1.
  pose proof (Qmin_le_l 1.0 s) as H2.
  split; [lra|].
  unfold Qmax in *. destruct (Qleb (-1.0) (Qmin 1.0 s)); lra.
Qed.

Lemma final_weight_range (item : news_item) :
  0.5 <= final_weight (weigh_item item) /\ final_weight (weigh_item item) <= 2.
Proof.
  unfold weigh_item. cbn [final_weight].
  pose proof (source_weight_range (source item)).
  pose proof (content_weight_range (title item ++ " " ++ content item)).
  nra.
Qed.

(** the two sums of the weighted sentiment *)
Lemma weighted_totals_bound (scores weights decays : list Q) :
  Forall (fun s => -1 <= s /\ s <= 1) scores ->
  Forall (fun w => 0 <= w) weights ->
  Forall (fun d => 0 <= d) decays ->
  let t := weighted_totals scores weights decays in
  - snd t <= fst t /\ fst t <= snd t.
Proof.
  intros Hs. revert weights decays.
  induction Hs as [|s scores Hs1 Hs IH]; intros weights decays Hw Hd;
    [cbn; split; discriminate|].
  destruct Hw as [|w weights Hw1 Hw]; [cbn; split; discriminate|].
  destruct Hd as [|d decays Hd1 Hd]; [cbn; split; discriminate|].
  cbn [weighted_totals]. specialize (IH weights decays Hw Hd). cbv zeta in IH.
  destruct (weighted_totals scores weights decays) as [tws tw].
  cbn [fst snd] in *.
  assert (Hwd : 0 <= w * d) by nra.
  nra.
Qed.

Lemma mean_or_zero_range (l : list Q) (n : nat) (lo hi : Q) :
  lo <= hi -> Forall (fun r => lo <= r /\ r <= hi) l ->
  List.length l = n ->
  let m := if (0 <? n)%nat then Qsum l / Qlen l else 0.0 in
  (l <> [] -> lo <= m /\ m <= hi) /\ (0 <= lo -> 0 <= m /\ (0 <= hi -> m <= hi)).
Proof.
  intros Hlh H Hn m. unfold m.
  destruct l as [|x l].
  - subst n. cbn. split; [intros C; contradiction|].
    intros Hlo. split; [discriminate|intros Hhi; lra].
  - assert (E : (0 <? n)%nat = true) by (subst n; reflexivity).
    rewrite E. pose proof (mean_between (x :: l) lo hi ltac:(discriminate) H) as Hm.
    split; [intros _; exact Hm|]. intros Hlo. split; [lra|intros _; tauto].
Qed.

Lemma comprehensive_sentiment_values (ss : sentiment_scores) (iw : impact_weights)
      (td : time_decay_factors) :
  let cs := _calculate_comprehensive_sentiment ss iw td in
  let t := weighted_totals (map score (individual_scores ss))
                           (map final_weight (individual_weights iw))
                           (map decay_factor (individual_factors td)) in
  (individual_scores ss = [] ->
   weighted_sentiment cs = 0.0 /\ confidence_score cs = 0.0) /\
  (individual_scores ss <> [] ->
   weighted_sentiment cs = (if Qgtb (snd t) 0 then fst t / snd t else 0.0) /\
   confidence_score cs
   = Qmin 1.0 (inject_Z (Z.of_nat (List.length (individual_scores ss))) / 10
               * average_weight iw * average_decay td)).
Proof.
  unfold _calculate_comprehensive_sentiment.
  destruct (individual_scores ss) as [|s0 sl].
  - split; [intros _; split; reflexivity|intros C; contradiction].
  - split; [discriminate|intros _].
    destruct (weighted_totals _ _ _) as [tws tw]. split; reflexivity.
Qed.

(** the bounds of the sentiment indicators of any list of news items *)
Lemma sentiment_bounds (news_items : list news_item) :
  let ss := _calculate_sentiment_scores math_sqrt news_items in
  let iw := _calculate_impact_weights news_items in
  let td := _calculate_time_decay news_items in
  let cs := _calculate_comprehensive_sentiment ss iw td in
  (-1 <= weighted_sentiment cs /\ weighted_sentiment cs <= 1) /\
  (0 <= confidence_score cs /\ confidence_score cs <= 1) /\
  (-1 <= average_score ss /\ average_score ss <= 1) /\
  (news_items <> [] -> 0.5 <= average_weight iw /\ average_weight iw <= 2) /\
  (news_items <> [] -> 0.1 <= average_decay td /\ average_decay td <= 1).
Proof.
  intros ss iw td cs.
  assert (Hscores : Forall (fun s => -1 <= s /\ s <= 1)
                      (map score (individual_scores ss))).
  { unfold ss, _calculate_sentiment_scores. cbn [individual_scores].
    rewrite map_map. apply Forall_map. apply Forall_forall. intros i _.
    unfold score_item. cbn [score]. apply text_sentiment_range. }
  assert (Hweights : Forall (fun w => 0.5 <= w /\ w <= 2)
                       (map final_weight (individual_weights iw))).
  { unfold iw, _calculate_impact_weights. cbn [individual_weights].
    rewrite map_map. apply Forall_map. apply Forall_forall. intros i _.
    apply final_weight_range. }
  assert (Hdecays : Forall (fun d => 0.1 <= d /\ d <= 1)
                      (map decay_factor (individual_factors td))).
  { unfold td, _calculate_time_decay. cbn [individual_factors].
    rewrite map_map. apply Forall_map. apply Forall_forall. intros i _.
    unfold decay_item. cbn [decay_factor]. apply decay_range. }
  assert (Lw : List.length (map final_weight (individual_weights iw))
               = List.length news_items)
    by (unfold iw, _calculate_impact_weights; cbn [individual_weights];
        now rewrite !length_map).
  assert (Ld : List.length (map decay_factor (individual_factors td))
               = List.length news_items)
    by (unfold td, _calculate_time_decay; cbn [individual_factors];
        now rewrite !length_map).
  assert (Ls : List.length (map score (individual_scores ss))
               = List.length news_items)
    by (unfold ss, _calculate_sentiment_scores; cbn [individual_scores];
        now rewrite !length_map).
  assert (Havg_w : (news_items <> [] -> 0.5 <= average_weight iw /\ average_weight iw <= 2)
                   /\ 0 <= average_weight iw).
  { pose proof (mean_or_zero_range _ _ 0.5 2 ltac:(discriminate) Hweights Lw) as [A B].
    unfold iw, _calculate_impact_weights in *. cbn [average_weight individual_weights] in *.
    split; [|apply B; discriminate].
    intros Hne. apply A. destruct news_items; [contradiction|discriminate]. }
  assert (Havg_d : (news_items <> [] -> 0.1 <= average_decay td /\ average_decay td <= 1)
                   /\ 0 <= average_decay td /\ average_decay td <= 1).
  { pose proof (mean_or_zero_range _ _ 0.1 1 ltac:(discriminate) Hdecays Ld) as [A B].
    unfold td, _calculate_time_decay in *. cbn [average_decay individual_factors] in *.
    split; [|split; [apply B; discriminate|apply B; discriminate]].
    intros Hne. apply A. destruct news_items; [contradiction|discriminate]. }
  assert (Havg_s : -1 <= average_score ss /\ average_score ss <= 1).
  { unfold ss, _calculate_sentiment_scores in *.
    cbn [average_score individual_scores] in *.
    destruct news_items as [|i l]; [cbn; split; discriminate|].
    cbn [List.length Nat.ltb Nat.leb].
    apply mean_between; [discriminate|exact Hscores]. }
  destruct (comprehensive_sentiment_values ss iw td) as [Hempty Hfull].
  fold cs in Hempty, Hfull.
  split; [|split; [|split; [exact Havg_s|split; tauto]]].
  - destruct (individual_scores ss) as [|s0 sl] eqn:Es.
    + destruct (Hempty eq_refl) as [-> _]. split; discriminate.
    + destruct (Hfull ltac:(discriminate)) as [-> _]. rewrite <- Es in *.
      assert (Hw0 : Forall (fun w => 0 <= w) (map final_weight (individual_weights iw)))
        by (eapply Forall_impl; [|exact Hweights]; cbn; intros; lra).
      assert (Hd0 : Forall (fun d => 0 <= d) (map decay_factor (individual_factors td)))
        by (eapply Forall_impl; [|exact Hdecays]; cbn; intros; lra).
      pose proof (weighted_totals_bound _ _ _ Hscores Hw0 Hd0) as Hb. cbv zeta in Hb.
      destruct (weighted_totals _ _ _) as [tws tw]. cbn [fst snd] in *.
      destruct (Qgtb tw 0) eqn:Et; to_Q_props; [|split; discriminate].
      split.
      * apply Qle_shift_div_l; [exact Et|]. lra.
      * apply Qle_shift_div_r; [exact Et|]. lra.
  - destruct (individual_scores ss) as [|s0 sl] eqn:Es.
    + destruct (Hempty eq_refl) as [_ ->]. split; discriminate.
    + destruct (Hfull ltac:(discriminate)) as [_ ->]. rewrite <- Es in *.
      set (n := inject_Z (Z.of_nat (List.length (individual_scores ss)))).
      assert (Hn : 0 <= n)
        by (unfold n; change 0 with (inject_Z 0); rewrite <- Zle_Qle; lia).
      destruct Havg_w as [_ Hw0]. destruct Havg_d as [_ [Hd0 _]].
      assert (Hprod : 0 <= n / 10 * average_weight iw * average_decay td).
      { assert (0 <= n / 10) by (apply Qle_shift_div_l; [reflexivity|lra]).
        assert (0 <= n / 10 * average_weight iw) by nra. nra. }
      unfold Qmin. destruct (Qleb 1.0 _) eqn:E; to_Q_props; split; try lra; discriminate.
Qed.

End WithSqrt.

End NewsBounds.

Module NewsTheorems.
Import PyStr PyText PyNum PyExc News StringFacts DownsideFacts SummaryFacts RiskFacts
       NewsFacts NewsBounds.
Local Open Scope string_scope.

Lemma count_if_partition {A} (p q : A -> bool) (l : list A) :
  (count_if p l + count_if (fun x => negb (p x) && q x) l
   + count_if (fun x => negb (p x) && negb (q x)) l)%nat = List.length l.
Proof.
  unfold count_if. induction l as [|x l IH]; [reflexivity|].
  cbn [filter List.length]. destruct (p x), (q x); cbn [negb andb List.length]; lia.
Qed.

Section WithSqrt.

Variable math_sqrt : Q -> Q.
Variable np_sqrt : Q -> Q.

(** X14.  For every list of news items the weighted sentiment lies in
    [-1, 1], the confidence score in [0, 1] and the average score in
    [-1, 1]; every item has a sentiment score in [-1, 1], a final weight
    in [0.5, 2] and a decay factor in [0.1, 1], and so have the averages
    of a list that is not empty. *)
Theorem sentiment_indicators_within_bounds (news_items : list news_item) :
  let r := result_of_items math_sqrt np_sqrt news_items in
  let cs := r_comprehensive_sentiment r in
  (-1 <= weighted_sentiment cs /\ weighted_sentiment cs <= 1) /\
  (0 <= confidence_score cs /\ confidence_score cs <= 1) /\
  (-1 <= average_score (r_sentiment_scores r)
   /\ average_score (r_sentiment_scores r) <= 1) /\
  Forall (fun s => -1 <= score s /\ score s <= 1)
         (individual_scores (r_sentiment_scores r)) /\
  Forall (fun w => 0.5 <= final_weight w /\ final_weight w <= 2)
         (individual_weights (r_impact_weights r)) /\
  Forall (fun d => 0.1 <= decay_factor d /\ decay_factor d <= 1)
         (individual_factors (r_time_decay_factors r)) /\
  (news_items <> [] ->
   (0.5 <= average_weight (r_impact_weights r)
    /\ average_weight (r_impact_weights r) <= 2)
   /\ 0.1 <= average_decay (r_time_decay_factors r)
   /\ average_decay (r_time_decay_factors r) <= 1).
Proof.
  intros r cs.
  destruct (sentiment_bounds math_sqrt np_sqrt news_items) as (Hw & Hc & Ha & Hiw & Htd).
  unfold cs, r, result_of_items.
  cbn [r_comprehensive_sentiment r_sentiment_scores r_impact_weights
       r_time_decay_factors].
  split; [exact Hw|]. split; [exact Hc|]. split; [exact Ha|].
  split; [|split; [|split]].
  - unfold _calculate_sentiment_scores. cbn [individual_scores].
    apply Forall_map. apply Forall_forall. intros i _.
    apply text_sentiment_range.
  - unfold _calculate_impact_weights. cbn [individual_weights].
    apply Forall_map. apply Forall_forall. intros i _. apply final_weight_range.
  - unfold _calculate_time_decay. cbn [individual_factors].
    apply Forall_map. apply Forall_forall. intros i _. apply decay_range.
  - intros Hne. split; [now apply Hiw|now apply Htd].
Qed.

(** X15.  The three counts of [_calculate_sentiment_scores] split the news
    items: every item is counted once, as positive, negative or neutral,
    and there is one individual score for each item. *)
Theorem sentiment_counts_split_the_items (news_items : list news_item) :
  let ss := _calculate_sentiment_scores math_sqrt news_items in
  (positive_count ss + negative_count ss + neutral_count ss)%nat
  = List.length news_items /\
  List.length (individual_scores ss) = List.length news_items /\
  (news_items <> [] ->
   exists pr nr ur,
     sentiment_distribution ss = Some (pr, nr, ur) /\ pr + nr + ur == 1).
Proof.
  intros ss. unfold ss, _calculate_sentiment_scores.
  cbn [positive_count negative_count neutral_count individual_scores
       sentiment_distribution].
  set (scores := map score (map (score_item math_sqrt) news_items)).
  assert (Hlen : List.length scores = List.length news_items)
    by (unfold scores; now rewrite !length_map).
  pose proof (count_if_partition (fun s => Qgtb s 0.1) (fun s => Qltb s (-0.1)) scores)
    as Hp.
  rewrite Hlen in Hp.
  split; [exact Hp|]. split; [now rewrite length_map|].
  intros Hne.
  assert (Hn : (0 < List.length news_items)%nat)
    by (destruct news_items; [contradiction|cbn; lia]).
  destruct (0 <? List.length news_items)%nat eqn:E; [|apply Nat.ltb_ge in E; lia].
  do 3 eexists. split; [reflexivity|].
  unfold ratio.
  set (a := count_if (fun s => Qgtb s 0.1) scores) in *.
  set (b := count_if (fun s => negb (Qgtb s 0.1) && Qltb s (-0.1)) scores) in *.
  set (c := count_if (fun s => negb (Qgtb s 0.1) && negb (Qltb s (-0.1))) scores) in *.
  set (qn := inject_Z (Z.of_nat (List.length news_items))).
  assert (H0 : 0 < qn).
  { unfold qn. change 0 with (inject_Z 0). rewrite <- Zlt_Qlt. lia. }
  assert (Hq : qn == inject_Z (Z.of_nat a) + inject_Z (Z.of_nat b)
                     + inject_Z (Z.of_nat c)).
  { unfold qn. rewrite <- Hp. now rewrite !Nat2Z.inj_add, !inject_Z_plus. }
  setoid_replace (inject_Z (Z.of_nat a) / qn + inject_Z (Z.of_nat b) / qn
                  + inject_Z (Z.of_nat c) / qn)
    with ((inject_Z (Z.of_nat a) + inject_Z (Z.of_nat b) + inject_Z (Z.of_nat c)) / qn)
    by (field; lra).
  rewrite <- Hq. field. lra.
Qed.

End WithSqrt.

End NewsTheorems.

Module NewsTrend.
Import PyStr PyText PyNum PyExc News StringFacts DownsideFacts SummaryFacts RiskFacts
       NewsFacts NewsBounds.
Local Open Scope string_scope.

Lemma comprehensive_sentiment_labels (ss : sentiment_scores) (iw : impact_weights)
      (td : time_decay_factors) :
  let cs := _calculate_comprehensive_sentiment ss iw td in
  sentiment_strength cs
  = (if Qgtb (Qabs (weighted_sentiment cs)) 0.6 then "强"
     else if Qgtb (Qabs (weighted_sentiment cs)) 0.3 then "中"
     else "弱") /\
  market_impact_level cs
  = (if Qgtb (Qabs (weighted_sentiment cs) * confidence_score cs) 0.7 then "高"
     else if Qgtb (Qabs (weighted_sentiment cs) * confidence_score cs) 0.4 then "中"
     else "低") /\
  overall_sentiment cs
  = (if Qgtb (weighted_sentiment cs) 0.2 then "积极"
     else if Qltb (weighted_sentiment cs) (-0.2) then "消极"
     else "中性").
Proof.
  unfold _calculate_comprehensive_sentiment.
  destruct (individual_scores ss) as [|s0 sl]; [repeat split; reflexivity|].
  destruct (weighted_totals _ _ _) as [tws tw]. repeat split; reflexivity.
Qed.

Section WithSqrt.

Variable math_sqrt : Q -> Q.
Variable np_sqrt : Q -> Q.

(** X16.  The labels of the comprehensive sentiment agree with each other
    and with the alerts: the alert for extreme negative sentiment is
    raised exactly when the weighted sentiment is below -0.6, and then the
    overall sentiment is "消极" and its strength "强"; a market impact
    "高" comes with the strength "强", and an impact "中" with a strength
    that is not "弱". *)
Theorem sentiment_labels_agree (news_items : list news_item) :
  let r := result_of_items math_sqrt np_sqrt news_items in
  let cs := r_comprehensive_sentiment r in
  (In ExtremeNegative (r_risk_alerts r) <-> weighted_sentiment cs < -0.6) /\
  (In ExtremeNegative (r_risk_alerts r) ->
   overall_sentiment cs = "消极" /\ sentiment_strength cs = "强") /\
  (market_impact_level cs = "高" -> sentiment_strength cs = "强") /\
  (market_impact_level cs = "中" -> sentiment_strength cs <> "弱") /\
  (overall_sentiment cs = "积极" <-> 0.2 < weighted_sentiment cs) /\
  (overall_sentiment cs = "消极" <-> weighted_sentiment cs < -0.2).
Proof.
  intros r cs.
  destruct (sentiment_bounds math_sqrt np_sqrt news_items) as (Hw & Hc & _).
  pose proof (comprehensive_sentiment_labels
                (_calculate_sentiment_scores math_sqrt news_items)
                (_calculate_impact_weights news_items)
                (_calculate_time_decay news_items)) as (Hs & Hm & Ho).
  cbv zeta in Hw, Hc.
  change (_calculate_comprehensive_sentiment _ _ _) with cs in Hw, Hc, Hs, Hm, Ho.
  assert (Halert : In ExtremeNegative (r_risk_alerts r)
                   <-> weighted_sentiment cs < -0.6).
  { unfold r, result_of_items. cbn [r_risk_alerts]. unfold _generate_risk_alerts.
    change (_calculate_comprehensive_sentiment _ _ _) with cs.
    destruct (Qltb (weighted_sentiment cs) (-0.6)) eqn:E; to_Q_props.
    - split; [intros _; exact E|intros _; now left].
    - split; [|intros C; lra]. intros Hin. exfalso.
      cbn [app] in Hin. apply in_app_or in Hin.
      destruct Hin as [Hin|Hin].
      + destruct (_ && _); cbn in Hin; [destruct Hin as [Hin|[]]; discriminate Hin|
                                        exact Hin].
      + destruct (xgtb _ _); cbn in Hin; [destruct Hin as [Hin|[]]; discriminate Hin|
                                          exact Hin]. }
  set (w := weighted_sentiment cs) in *. set (c := confidence_score cs) in *.
  assert (Habs : 0 <= Qabs w) by apply Qabs_nonneg.
  assert (Hneg : w < 0 -> Qabs w == - w) by (intros; apply Qabs_neg; lra).
  split; [exact Halert|].
  rewrite Hs, Hm, Ho. split; [|split; [|split; [|split]]].
  - intros Hin. apply Halert in Hin. specialize (Hneg ltac:(lra)).
    assert (G1 : Qgtb w 0.2 = false) by (apply NumFacts.Qgtb_false; lra).
    assert (G2 : Qltb w (-0.2) = true) by (apply NumFacts.Qltb_true; lra).
    assert (G3 : Qgtb (Qabs w) 0.6 = true) by (apply NumFacts.Qgtb_true; lra).
    now rewrite G1, G2, G3.
  - destruct (Qgtb (Qabs w * c) 0.7) eqn:E7; to_Q_props.
    + intros _.
      assert (G : Qgtb (Qabs w) 0.6 = true) by (apply NumFacts.Qgtb_true; nra).
      now rewrite G.
    + destruct (Qgtb (Qabs w * c) 0.4); discriminate.
  - destruct (Qgtb (Qabs w * c) 0.7) eqn:E7; [discriminate|].
    destruct (Qgtb (Qabs w * c) 0.4) eqn:E4; to_Q_props; [|discriminate].
    intros _.
    destruct (Qgtb (Qabs w) 0.6); [discriminate|].
    assert (G : Qgtb (Qabs w) 0.3 = true) by (apply NumFacts.Qgtb_true; nra).
    rewrite G. discriminate.
  - destruct (Qgtb w 0.2) eqn:E; to_Q_props.
    + split; [intros _; exact E|reflexivity].
    + split; [|intros C; lra]. destruct (Qltb w (-0.2)); discriminate.
  - destruct (Qgtb w 0.2) eqn:E; to_Q_props.
    + split; [discriminate|intros C; lra].
    + destruct (Qltb w (-0.2)) eqn:E2; to_Q_props.
      * split; [intros _; exact E2|reflexivity].
      * split; [discriminate|intros C; lra].
Qed.

(** X17.  With at most three news items the sentiment trend is always
    "稳定" with a change of 0: below three items the defaults are
    returned, and with exactly three the recent scores and the earlier
    scores are the same three scores.  No "情绪急剧恶化" alert can then be
    raised. *)
Theorem trend_needs_four_items (news_items : list news_item) :
  (List.length news_items <= 3)%nat ->
  let ss := _calculate_sentiment_scores math_sqrt news_items in
  let tr := _analyze_sentiment_trend np_sqrt news_items ss in
  trend_direction tr = "稳定" /\ recent_change tr == 0 /\ trend_strength tr == 0 /\
  forall cs, ~ In SharpDeterioration (_generate_risk_alerts cs tr).
Proof.
  intros Hlen ss tr.
  assert (Hcore : trend_direction tr = "稳定" /\ recent_change tr == 0
                  /\ trend_strength tr == 0).
  { unfold tr, _analyze_sentiment_trend, ss, _calculate_sentiment_scores.
    cbn [individual_scores]. rewrite !length_map.
    destruct news_items as [|i1 [|i2 [|i3 [|i4 rest]]]];
      try (cbn [List.length] in Hlen; lia);
      cbn [List.length Nat.ltb Nat.leb];
      try (cbn [trend_direction recent_change trend_strength];
           repeat split; reflexivity).
    cbn [map List.length Nat.ltb Nat.leb last_n but_last_n skipn firstn Nat.sub].
    set (m := Qsum _ / Qlen _).
    assert (H0 : m - m == 0) by ring.
    assert (G1 : Qgtb (m - m) 0.1 = false) by (apply NumFacts.Qgtb_false; lra).
    assert (G2 : Qltb (m - m) (-0.1) = false) by (apply NumFacts.Qltb_false; lra).
    cbn [trend_direction recent_change trend_strength].
    rewrite G1, G2. repeat split; [exact H0|]. now rewrite H0. }
  destruct Hcore as (Hd & Hc & Hs). repeat split; try assumption.
  intros cs Hin. unfold _generate_risk_alerts in Hin. rewrite Hd in Hin.
  cbn [String.eqb Ascii.eqb Bool.eqb andb] in Hin.
  apply in_app_or in Hin. destruct Hin as [Hin|Hin].
  - destruct (Qltb _ _); cbn in Hin; [destruct Hin as [Hin|[]]; discriminate Hin|
                                      exact Hin].
  - cbn [app] in Hin.
    destruct (xgtb _ _); cbn in Hin; [destruct Hin as [Hin|[]]; discriminate Hin|
                                      exact Hin].
Qed.

End WithSqrt.

End NewsTrend.

Module NewsParsing.
Import PyStr PyText PyNum PyExc News StringFacts.
Local Open Scope string_scope.









Section Dated.

Variable math_sqrt : Q -> Q.
Variable np_sqrt : Q -> Q.
Variable current_date : string.


End Dated.

End NewsParsing.

Module LevelFacts.
Import PyNum Technical TechnicalLevels TechnicalFacts DownsideFacts.
Local Open Scope string_scope.

(** the last entry of a series computed row by row *)
Lemma iloc_last_of_rows {A} (f : nat -> xq) (s : list A) :
  (1 <= List.length s)%nat ->
  cell (iloc_neg (map f (positions s)) 1) = f (List.length s - 1)%nat.
Proof.
  intros Hn. rewrite iloc_neg_map, positions_length, iloc_neg_seq_last by exact Hn.
  reflexivity.
Qed.

Lemma iloc_short {A} (s : list A) (k : nat) :
  (List.length s < k)%nat -> iloc_neg s k = None.
Proof.
  intros H. unfold iloc_neg.
  destruct (k <=? List.length s)%nat eqn:E; [apply Nat.leb_le in E; lia|reflexivity].
Qed.

Lemma window_length {A} (w : nat) (s : list A) :
  (w <= List.length s)%nat ->
  List.length (window w s (List.length s - 1)) = w.
Proof.
  intros H. unfold window. rewrite length_firstn, length_skipn. lia.
Qed.

Lemma window_In {A} (w : nat) (s : list A) (i : nat) (x : A) :
  In x (window w s i) -> In x s.
Proof.
  intros H.
  assert (Hall : Forall (fun y => In y s) (window w s i)).
  { unfold window. apply Forall_firstn, Forall_skipn.
    apply Forall_forall. intros y Hy. exact Hy. }
  rewrite Forall_forall in Hall. now apply Hall.
Qed.

Lemma window_map {A B} (f : A -> B) (w : nat) (s : list A) (i : nat) :
  window w (map f s) i = map f (window w s i).
Proof. unfold window. now rewrite skipn_map, firstn_map. Qed.







End LevelFacts.

Module RoundFacts.
Import PyNum.

Lemma round_half_even_mono (a b : Q) :
  a <= b -> (round_half_even a <= round_half_even b)%Z.
Proof.
  intros Hab. unfold round_half_even.
  pose proof (Qfloor_resp_le a b Hab) as Hf.
  pose proof (Qfloor_le a) as Ha. pose proof (Qlt_floor a) as Ha'.
  pose proof (Qfloor_le b) as Hb. pose proof (Qlt_floor b) as Hb'.
  rewrite inject_Z_plus in Ha', Hb'. change (inject_Z 1) with 1 in Ha', Hb'.
  destruct (Z.eq_dec (Qfloor a) (Qfloor b)) as [E|NE].
  - rewrite <- E in *.
    destruct (Qcompare_spec (a - inject_Z (Qfloor a)) (1 # 2)) as [Ea|Ea|Ea];
      destruct (Qcompare_spec (b - inject_Z (Qfloor a)) (1 # 2)) as [Eb|Eb|Eb];
      try lia; try (destruct (Z.even (Qfloor a)); lia); exfalso; lra.
  - assert (Hlt : (Qfloor a + 1 <= Qfloor b)%Z) by lia.
    destruct (Qcompare (a - inject_Z (Qfloor a)) (1 # 2));
      destruct (Qcompare (b - inject_Z (Qfloor b)) (1 # 2));
      try (destruct (Z.even (Qfloor a))); try (destruct (Z.even (Qfloor b))); lia.
Qed.

Lemma round_digits_mono (d : nat) (a b : Q) :
  a <= b -> round_digits d a <= round_digits d b.
Proof.
  intros Hab. unfold round_digits.
  assert (Hk : 0 < inject_Z (PyStr.pow10 d)).
  { unfold PyStr.pow10. change 0 with (inject_Z 0). rewrite <- Zlt_Qlt.
    apply Z.pow_pos_nonneg; lia. }
  set (k := inject_Z (PyStr.pow10 d)) in *.
  assert (Hm : a * k <= b * k) by nra.
  apply round_half_even_mono in Hm. rewrite Zle_Qle in Hm.
  apply Qle_shift_div_l; [exact Hk|].
  unfold Qdiv. rewrite <- Qmult_assoc, (Qmult_comm (/ k)), Qmult_inv_r by lra.
  lra.
Qed.


End RoundFacts.

Module BandFacts.
Import PyNum Technical TechnicalLevels TechnicalFacts DownsideFacts LevelFacts RoundFacts.
Local Open Scope string_scope.

Lemma xsum_fin (l : list Q) : xsum (map Fin l) = Fin (Qsum l).
Proof.
  induction l as [|x l IH]; [reflexivity|].
  cbn [map xsum fold_right]. fold (xsum (map Fin l)). rewrite IH. reflexivity.
Qed.

Lemma xmean_fin (l : list Q) :
  l <> [] -> xmean (map Fin l) = Fin (Qsum l / Qlen l).
Proof.
  intros Hne. unfold xmean. rewrite xsum_fin, length_map. cbn [xdiv].
  pose proof (RiskFacts.Qlen_pos l Hne) as Hpos. unfold Qlen in Hpos.
  destruct (Qeqb (inject_Z (Z.of_nat (List.length l))) 0) eqn:E; to_Q_props; [lra|].
  reflexivity.
Qed.

Lemma Qsum_squares_nonneg {A} (f : A -> Q) (l : list A) :
  0 <= Qsum (map (fun x => f x * f x) l).
Proof.
  induction l as [|x l IH]; [discriminate|].
  cbn [map Qsum fold_right]. fold (Qsum (map (fun x => f x * f x) l)). nra.
Qed.

Section WithSqrt.

Variable np_sqrt : Q -> Q.
Hypothesis np_sqrt_nonneg : forall q, 0 <= q -> 0 <= np_sqrt q.

(** the sample standard deviation of two numbers or more *)
Lemma xstd_fin (l : list Q) :
  (2 <= List.length l)%nat ->
  exists s, xstd np_sqrt (map Fin l) = Fin s /\ 0 <= s.
Proof.
  intros Hn. unfold xstd.
  assert (Hne : l <> []) by (destruct l; [cbn in Hn; lia|discriminate]).
  rewrite (xmean_fin l Hne). rewrite map_map.
  set (m := Qsum l / Qlen l).
  assert (Hsq : map (fun x => xmul (xsub (Fin x) (Fin m)) (xsub (Fin x) (Fin m))) l
                = map Fin (map (fun x => (x + - m) * (x + - m)) l)).
  { rewrite map_map. apply map_ext. intros x. reflexivity. }
  rewrite Hsq, xsum_fin, length_map. cbn [xdiv].
  assert (Hd : 0 < inject_Z (Z.of_nat (List.length l) - 1)).
  { change 0 with (inject_Z 0). rewrite <- Zlt_Qlt. lia. }
  destruct (Qeqb (inject_Z (Z.of_nat (List.length l) - 1)) 0) eqn:E; to_Q_props;
    [lra|].
  pose proof (Qsum_squares_nonneg (fun x => x + - m) l) as Hs.
  set (S := Qsum (map (fun x => (x + - m) * (x + - m)) l)) in *.
  assert (Hq : 0 <= S / inject_Z (Z.of_nat (List.length l) - 1))
    by (apply Qle_shift_div_l; [exact Hd|lra]).
  cbn [xsqrt]. rewrite (proj2 (NumFacts.Qltb_false _ _) Hq).
  eexists. split; [reflexivity|]. now apply np_sqrt_nonneg.
Qed.

(** the last entries of the three Bollinger series *)
Lemma bollinger_last (df : frame) :
  (20 <= List.length (rows df))%nat ->
  let w := window 20 (map Fin (closes df)) (List.length (rows df) - 1) in
  let '(sma20, bb_upper, bb_lower) := bollinger_series np_sqrt df in
  cell (iloc_neg sma20 1) = xmean w /\
  cell (iloc_neg bb_upper 1) = xadd (xmean w) (xmul (xstd np_sqrt w) (Fin 2)) /\
  cell (iloc_neg bb_lower 1) = xsub (xmean w) (xmul (xstd np_sqrt w) (Fin 2)).
Proof.
  intros Hn. unfold bollinger_series, rolling_mean, rolling_std.
  assert (Hl : List.length (map Fin (closes df)) = List.length (rows df))
    by (unfold closes; now rewrite !length_map).
  rewrite !positions_length, Hl.
  rewrite map_map, !zip_with_map, !iloc_neg_map, iloc_neg_seq_last by lia.
  cbn [option_map cell].
  destruct (20 <=? List.length (rows df) - 1 + 1)%nat eqn:E;
    [|apply Nat.leb_gt in E; lia].
  repeat split; reflexivity.
Qed.

(** X19.  For every series of at least 20 bars, the three Bollinger values
    reported are numbers with lower <= middle <= upper, provided [np.sqrt]
    returns no negative number. *)
Theorem bollinger_bands_are_ordered (df : frame) :
  (20 <= List.length (rows df))%nat ->
  exists bb up mid lo,
    calc_bollinger np_sqrt df = Some bb /\
    bb_upper_value bb = Fin up /\ bb_middle bb = Fin mid /\
    bb_lower_value bb = Fin lo /\ lo <= mid /\ mid <= up.
Proof.
  intros Hn. unfold calc_bollinger.
  destruct (20 <=? List.length (rows df))%nat eqn:E20; [|apply Nat.leb_gt in E20; lia].
  pose proof (bollinger_last df Hn) as H. cbv zeta in H.
  destruct (bollinger_series np_sqrt df) as [[sma up] lo].
  destruct H as (Hs & Hu & Hl).
  rewrite window_map in Hs, Hu, Hl.
  set (w := window 20 (closes df) (List.length (rows df) - 1)) in *.
  assert (Hwl : List.length w = 20%nat).
  { unfold w.
    replace (List.length (rows df)) with (List.length (closes df))
      by (unfold closes; apply length_map).
    apply window_length. unfold closes. rewrite length_map. exact Hn. }
  assert (Hne : w <> []) by (intro C; rewrite C in Hwl; discriminate Hwl).
  rewrite (xmean_fin w Hne) in Hs, Hu, Hl.
  destruct (xstd_fin w ltac:(lia)) as (s & Es & Hs0).
  rewrite Es in Hu, Hl. cbn [xmul xadd xsub xopp] in Hu, Hl.
  eexists. cbn [bb_upper_value bb_middle bb_lower_value].
  rewrite Hs, Hu, Hl. cbn [xround].
  do 3 eexists. split; [reflexivity|]. repeat split; try reflexivity.
  - apply round_digits_mono. lra.
  - apply round_digits_mono. lra.
Qed.

End WithSqrt.



End BandFacts.

Module AverageFacts.
Import PyNum Technical TechnicalLevels TechnicalFacts DownsideFacts LevelFacts RoundFacts
       BandFacts SummaryFacts.
Local Open Scope string_scope.

Lemma ewm_from_between (alpha lo hi : Q) (l : list Q) :
  0 <= 1 - alpha ->
  Forall (fun x => lo <= x /\ x <= hi) l ->
  forall num den,
    0 <= den -> lo * den <= num -> num <= hi * den ->
    Forall (fun e => lo <= e /\ e <= hi) (ewm_from alpha num den l).
Proof.
  intros Ha H. induction H as [|x l [Hx1 Hx2] Hl IH]; intros num den Hd Hlo Hhi;
    [constructor|].
  cbn [ewm_from].
  assert (Hd' : 0 < 1 + (1 - alpha) * den) by nra.
  assert (Hlo' : lo * (1 + (1 - alpha) * den) <= x + (1 - alpha) * num) by nra.
  assert (Hhi' : x + (1 - alpha) * num <= hi * (1 + (1 - alpha) * den)) by nra.
  constructor.
  - split.
    + apply Qle_shift_div_l; [exact Hd'|exact Hlo'].
    + apply Qle_shift_div_r; [exact Hd'|exact Hhi'].
  - apply IH; [lra|exact Hlo'|exact Hhi'].
Qed.

(** an exponential average stays between bounds of the series *)
Lemma ewm_mean_between (span : nat) (lo hi : Q) (l : list Q) :
  (1 <= span)%nat ->
  Forall (fun x => lo <= x /\ x <= hi) l ->
  Forall (fun e => lo <= e /\ e <= hi) (ewm_mean span l).
Proof.
  intros Hs H. unfold ewm_mean.
  apply ewm_from_between; [|exact H|apply Qle_refl|lra|lra].
  assert (Hk : 2 <= inject_Z (Z.of_nat span) + 1).
  { assert (1 <= inject_Z (Z.of_nat span))
      by (change 1 with (inject_Z 1); rewrite <- Zle_Qle; lia).
    lra. }
  assert (Hq : 2 / (inject_Z (Z.of_nat span) + 1) <= 1)
    by (apply Qle_shift_div_r; lra).
  lra.
Qed.

Lemma ewm_from_length (alpha : Q) (l : list Q) :
  forall num den, List.length (ewm_from alpha num den l) = List.length l.
Proof.
  induction l as [|x l IH]; intros num den; [reflexivity|].
  cbn [ewm_from List.length]. now rewrite IH.
Qed.

Lemma cell_last_between (l : list Q) (lo hi : Q) :
  l <> [] -> Forall (fun e => lo <= e /\ e <= hi) l ->
  exists v, cell (iloc_neg (map Fin l) 1) = Fin v /\ lo <= v /\ v <= hi.
Proof.
  intros Hne H. rewrite iloc_neg_map. unfold iloc_neg.
  assert (Hn : (1 <= List.length l)%nat) by (destruct l; [contradiction|cbn; lia]).
  destruct (1 <=? List.length l)%nat eqn:E; [|apply Nat.leb_gt in E; lia].
  destruct (nth_error l (List.length l - 1)) as [v|] eqn:Ev;
    [|apply nth_error_None in Ev; lia].
  exists v. split; [reflexivity|].
  rewrite Forall_forall in H. apply H. eapply nth_error_In. exact Ev.
Qed.

(** X21.  The averages of the closing prices stay within the prices: when
    every close lies between [lo] and [hi], every moving average and
    every exponential average reported is a number between [lo] and [hi]
    rounded to two decimals. *)
Theorem averages_within_price_range (df : frame) (lo hi : Q) :
  Forall (fun c => lo <= c /\ c <= hi) (closes df) ->
  (forall period info,
      In (period, info) (moving_averages df) ->
      exists v, ma_value info = Fin v
                /\ round_digits 2 lo <= v /\ v <= round_digits 2 hi) /\
  (forall period info,
      In (period, info) (ema df) ->
      exists v, ema_value info = Fin v
                /\ round_digits 2 lo <= v /\ v <= round_digits 2 hi).
Proof.
  intros H.
  assert (Hl : List.length (closes df) = List.length (rows df))
    by (unfold closes; apply length_map).
  assert (Hma : forall period info,
             (1 <= period)%nat -> calc_ma df period = Some info ->
             exists v, ma_value info = Fin v
                       /\ round_digits 2 lo <= v /\ v <= round_digits 2 hi).
  { intros period info Hp. unfold calc_ma.
    destruct (period <=? List.length (rows df))%nat eqn:E; [|discriminate].
    apply Nat.leb_le in E. intros Hi. inversion Hi; subst. clear Hi.
    cbn [ma_value]. unfold rolling_mean.
    rewrite iloc_last_of_rows by (rewrite length_map, Hl; lia).
    rewrite length_map, Hl.
    destruct (period <=? List.length (rows df) - 1 + 1)%nat eqn:E';
      [|apply Nat.leb_gt in E'; lia].
    rewrite window_map.
    set (w := window period (closes df) (List.length (rows df) - 1)).
    assert (Hwl : List.length w = period)
      by (unfold w; rewrite <- Hl; apply window_length; lia).
    assert (Hne : w <> []) by (intro C; rewrite C in Hwl; cbn in Hwl; lia).
    rewrite (xmean_fin w Hne). cbn [xround]. eexists. split; [reflexivity|].
    assert (Hw : Forall (fun c => lo <= c /\ c <= hi) w)
      by (unfold w, window; now apply Forall_firstn, Forall_skipn).
    destruct (mean_between w lo hi Hne Hw) as [M1 M2].
    split; now apply round_digits_mono. }
  assert (Hema : forall period info,
             (1 <= period)%nat -> calc_ema df period = Some info ->
             exists v, ema_value info = Fin v
                       /\ round_digits 2 lo <= v /\ v <= round_digits 2 hi).
  { intros period info Hp. unfold calc_ema.
    destruct (period <=? List.length (rows df))%nat eqn:E; [|discriminate].
    apply Nat.leb_le in E. intros Hi. inversion Hi; subst. clear Hi.
    cbn [ema_value].
    assert (Hne : ewm_mean period (closes df) <> []).
    { intro C. apply (f_equal (@List.length Q)) in C. unfold ewm_mean in C.
      rewrite ewm_from_length, Hl in C. cbn in C. lia. }
    destruct (cell_last_between _ lo hi Hne (ewm_mean_between period lo hi _ Hp H))
      as (v & -> & V1 & V2).
    cbn [xround]. eexists. split; [reflexivity|].
    split; now apply round_digits_mono. }
  split.
  - intros period info Hin. unfold moving_averages in Hin.
    apply in_flat_map in Hin. destruct Hin as (p & Hp & Hin).
    unfold present in Hin. destruct (calc_ma df p) as [i|] eqn:Ei; [|contradiction].
    destruct Hin as [Hin|[]]. inversion Hin; subst.
    apply (Hma period info); [|exact Ei].
    cbn [In] in Hp. lia.
  - intros period info Hin. unfold ema in Hin.
    apply in_flat_map in Hin. destruct Hin as (p & Hp & Hin).
    unfold present in Hin. destruct (calc_ema df p) as [i|] eqn:Ei; [|contradiction].
    destruct Hin as [Hin|[]]. inversion Hin; subst.
    apply (Hema period info); [|exact Ei].
    cbn [In] in Hp. lia.
Qed.

Section WithSqrt.

Variable np_sqrt : Q -> Q.


End WithSqrt.

End AverageFacts.

Module PackageFacts.
Import PyStr PyNum PyExc Toolkit ToolkitQuality RiskFacts DownsideFacts SummaryFacts
       ToolkitFacts RecommendationFacts PipelineFacts RiskProfile RiskScoreFacts
       RiskProfileFacts NewsBounds.
Local Open Scope string_scope.

Section Analyzers.

Variable math_sqrt : Q -> Q.
Variable np_sqrt : Q -> Q.
Variable np_exp : Q -> Q.
Variable format_3f : xq -> string.
Variable current_date : string.
Variable g : Rng.t.

Let run := analyze math_sqrt np_sqrt np_exp format_3f current_date g.

(** what the analysis of the package stores under each key *)
Lemma analyze_keys (ticker stock_data : string)
      (fundamentals_data news_data market_data : option string)
      (company_name : string) :
  let out := run ticker stock_data fundamentals_data news_data market_data
                 company_name in
  usable (technical_analysis out) = None /\
  fundamentals_analysis out
  = Some (fund_view_of (Fundamentals.analyze_fundamentals stock_data
                          fundamentals_data)) /\
  sentiment_analysis out
  = match news_data with
    | Some nd =>
        if truthy nd
        then Some (News.sent_view_of
                     (News.analyze_news_sentiment math_sqrt np_sqrt current_date nd))
        else None
    | None => None
    end /\
  risk_analysis out
  = Some (risk_view_of format_3f
            (analyze_risk_profile np_sqrt np_exp stock_data market_data
               fundamentals_data g)) /\
  comprehensive_summary out = Some (_generate_comprehensive_summary out) /\
  investment_recommendation out = Some (_generate_investment_recommendation out).
Proof.
  intros out.
  destruct (comprehensive_analysis_keys
              (sentiment_analyzer math_sqrt np_sqrt current_date)
              (risk_analyzer np_sqrt np_exp format_3f g)
              ticker stock_data fundamentals_data news_data market_data company_name)
    as (Ht & Hf & Hs & Hr & Hsm & Hrc).
  repeat split; assumption.
Qed.

(** the risk part of the summary, by the outcome of the risk analysis *)
Lemma risk_part_of_outcome (res : results) (o : outcome) :
  risk_analysis res = Some (risk_view_of format_3f o) ->
  match o with
  | Done p =>
      fst (risk_part res) = 100 - overall_risk_score (p_comprehensive_risk p) /\
      high_risk res = String.eqb (risk_level (p_comprehensive_risk p)) "高"
  | _ => fst (risk_part res) = 0 /\ high_risk res = false
  end.
Proof.
  intros H. unfold risk_part, high_risk. rewrite H.
  destruct o; cbn; split; reflexivity.
Qed.

Lemma sentiment_part_range (res : results) (news_data : option string) :
  sentiment_analysis res
  = match news_data with
    | Some nd =>
        if truthy nd
        then Some (News.sent_view_of
                     (News.analyze_news_sentiment math_sqrt np_sqrt current_date nd))
        else None
    | None => None
    end ->
  (0 <= fst (sentiment_part res) /\ fst (sentiment_part res) <= 100) /\
  (news_data = None \/ news_data = Some "" -> fst (sentiment_part res) = 0).
Proof.
  intros H. unfold sentiment_part. rewrite H. split.
  - destruct news_data as [nd|]; [|cbn; split; discriminate].
    destruct (truthy nd); [|cbn; split; discriminate].
    unfold News.analyze_news_sentiment.
    destruct (News._parse_news_data current_date nd) as [|i l];
      [cbn; split; discriminate|].
    cbn [News.sent_view_of usable weighted_sentiment confidence_score get fst].
    unfold News.result_of_items. cbn [News.r_comprehensive_sentiment].
    destruct (sentiment_bounds math_sqrt np_sqrt (i :: l)) as (Hw & Hc & _).
    cbv zeta in Hw, Hc. nra.
  - intros [-> | ->]; reflexivity.
Qed.

(** the scores of the package's analysis *)
Lemma package_scores (ticker stock_data : string)
      (fundamentals_data news_data market_data : option string)
      (company_name : string) :
  let out := run ticker stock_data fundamentals_data news_data market_data
                 company_name in
  let sm := _generate_comprehensive_summary out in
  let o := analyze_risk_profile np_sqrt np_exp stock_data market_data
             fundamentals_data g in
  technical_score sm = 0 /\
  (fundamentals_score sm = 100 \/ fundamentals_score sm = 80
   \/ fundamentals_score sm = 20 \/ fundamentals_score sm = 0) /\
  (Fundamentals._extract_price_info stock_data <> None ->
   opt_truthy fundamentals_data = true ->
   fundamentals_score sm = 100 \/ fundamentals_score sm = 80) /\
  (0 <= sentiment_score sm /\ sentiment_score sm <= 100) /\
  (news_data = None \/ news_data = Some "" -> sentiment_score sm = 0) /\
  match o with
  | Done p =>
      risk_score sm = 100 - overall_risk_score (p_comprehensive_risk p) /\
      6.25 <= risk_score sm /\ risk_score sm <= 59.5 /\
      high_risk out = String.eqb (risk_level (p_comprehensive_risk p)) "高"
  | _ => risk_score sm = 0 /\ high_risk out = false
  end /\
  overall_score sm
  = overall_of [technical_score sm; fundamentals_score sm; sentiment_score sm;
                risk_score sm].
Proof.
  intros out sm o.
  destruct (analyze_keys ticker stock_data fundamentals_data news_data market_data
              company_name) as (Ht & Hf & Hs & Hr & _ & _).
  fold out in Ht, Hf, Hs, Hr.
  destruct (summary_scores out) as (Et & Ef & Es & Er & Eo & _).
  fold sm in Et, Ef, Es, Er, Eo.
  destruct (fundamentals_part_values out stock_data fundamentals_data Hf)
    as (F0 & F1 & F2).
  destruct (sentiment_part_range out news_data Hs) as (S1 & S2).
  pose proof (risk_part_of_outcome out o Hr) as R.
  rewrite Et, Ef, Es, Er, Eo.
  split; [unfold technical_part; now rewrite Ht|].
  split.
  { destruct (Fundamentals._extract_price_info stock_data) eqn:Ex.
    - destruct (opt_truthy fundamentals_data).
      + destruct (F1 ltac:(discriminate) eq_refl); auto.
      + destruct (F2 eq_refl); auto.
    - rewrite (F0 eq_refl). auto. }
  split; [exact F1|]. split; [exact S1|]. split; [exact S2|].
  split; [|reflexivity].
  destruct o as [| e | p] eqn:Eo'; try exact R.
  destruct R as [R1 R2]. split; [exact R1|]. rewrite R1.
  destruct (profile_of_success np_sqrt np_exp _ _ _ _ _ Eo')
    as (mr & vm & dr & var & lr & g3 & g4 & Hliq & _ & _ & Hcr & _).
  destruct (liquidity_score_range np_sqrt np_exp _ _ _ _ Hliq) as (Hl & _).
  pose proof (overall_risk_range mr vm dr var lr fundamentals_data Hl) as Hrange.
  cbv zeta in Hrange. rewrite <- Hcr in Hrange.
  repeat split; try lra. exact R2.
Qed.

Lemma overall_of_within (scores : list Q) (hi : Q) :
  0 <= hi -> Forall (fun s => s <= hi) scores ->
  0 <= overall_of scores /\ overall_of scores <= hi.
Proof.
  intros Hhi H. unfold overall_of.
  destruct (filter (fun s => Qgtb s 0) scores) as [|v vs] eqn:E; [lra|].
  apply (mean_between (v :: vs) 0 hi); [discriminate|].
  rewrite <- E. apply Forall_forall. intros x Hx. apply filter_In in Hx.
  destruct Hx as [Hin Hp]. to_Q_props. rewrite Forall_forall in H.
  specialize (H x Hin). lra.
Qed.

Lemma rating_not_strong_buy (s : Q) :
  s < 80 -> Samples.rating_of_score s <> "强烈买入".
Proof.
  intros Hs. unfold Samples.rating_of_score.
  rewrite (proj2 (NumFacts.Qgeb_false s 80) Hs).
  destruct (Qgeb s 65); [discriminate|].
  destruct (Qgeb s 50); [discriminate|].
  destruct (Qgeb s 35); discriminate.
Qed.

(** X23.  For every input the five scores of the package's comprehensive
    analysis are in [0, 100]: the technical score is 0, the fundamentals
    score is 0, 20, 80 or 100, the sentiment score is in [0, 100], and the
    risk score is 0 when the risk analysis failed and in [6.25, 59.5]
    otherwise. *)
Theorem package_scores_within_range (ticker stock_data : string)
        (fundamentals_data news_data market_data : option string)
        (company_name : string) :
  let out := run ticker stock_data fundamentals_data news_data market_data
                 company_name in
  let sm := _generate_comprehensive_summary out in
  comprehensive_summary out = Some sm /\
  technical_score sm = 0 /\
  (fundamentals_score sm = 100 \/ fundamentals_score sm = 80
   \/ fundamentals_score sm = 20 \/ fundamentals_score sm = 0) /\
  (0 <= sentiment_score sm /\ sentiment_score sm <= 100) /\
  (risk_score sm = 0 \/ (6.25 <= risk_score sm /\ risk_score sm <= 59.5)) /\
  (0 <= overall_score sm /\ overall_score sm <= 100).
Proof.
  intros out sm.
  destruct (analyze_keys ticker stock_data fundamentals_data news_data market_data
              company_name) as (_ & _ & _ & _ & Hsm & _).
  destruct (package_scores ticker stock_data fundamentals_data news_data market_data
              company_name) as (Ht & Hf & _ & Hs & _ & Hr & Ho).
  fold out in Hsm, Ht, Hf, Hs, Hr, Ho. fold sm in Hsm, Ht, Hf, Hs, Hr, Ho.
  assert (Hrisk : risk_score sm = 0
                  \/ (6.25 <= risk_score sm /\ risk_score sm <= 59.5)).
  { destruct (analyze_risk_profile np_sqrt np_exp stock_data market_data
                fundamentals_data g); [left; tauto|left; tauto|right; tauto]. }
  split; [exact Hsm|]. split; [exact Ht|]. split; [exact Hf|]. split; [exact Hs|].
  split; [exact Hrisk|].
  rewrite Ho. apply overall_of_within; [discriminate|].
  repeat constructor.
  - rewrite Ht. discriminate.
  - destruct Hf as [-> |[-> |[-> | ->]]]; discriminate.
  - tauto.
  - destruct Hrisk as [-> |[_ H]]; [discriminate|lra].
Qed.

(** X24.  Without news, a comprehensive analysis whose risk analysis
    succeeded has an overall score of at most 79.75: its rating is never
    "强烈买入" and its position size never "重仓". *)
Theorem strong_buy_needs_news (ticker stock_data : string)
        (fundamentals_data news_data market_data : option string)
        (company_name : string) (p : profile) :
  news_data = None \/ news_data = Some "" ->
  analyze_risk_profile np_sqrt np_exp stock_data market_data fundamentals_data g
  = Done p ->
  let out := run ticker stock_data fundamentals_data news_data market_data
                 company_name in
  exists sm rc,
    comprehensive_summary out = Some sm /\
    investment_recommendation out = Some rc /\
    overall_score sm <= 79.75 /\
    rating rc <> "强烈买入" /\ position_size rc <> "重仓".
Proof.
  intros Hnews Hdone out.
  destruct (analyze_keys ticker stock_data fundamentals_data news_data market_data
              company_name) as (_ & _ & _ & _ & Hsm & Hrc).
  destruct (package_scores ticker stock_data fundamentals_data news_data market_data
              company_name) as (Ht & Hf & _ & _ & Hs & Hr & Ho).
  fold out in Hsm, Hrc, Ht, Hf, Hs, Hr, Ho.
  rewrite Hdone in Hr. destruct Hr as (_ & Hr1 & Hr2 & _).
  specialize (Hs Hnews).
  set (sm := _generate_comprehensive_summary out) in *.
  assert (Hover : overall_score sm <= 79.75).
  { rewrite Ho, Ht, Hs. unfold overall_of.
    assert (Hpos : Qgtb (risk_score sm) 0 = true)
      by (apply NumFacts.Qgtb_true; lra).
    destruct Hf as [-> |[-> |[-> | ->]]]; cbn [filter];
      change (Qgtb 0 0) with false; cbv iota;
      rewrite Hpos;
      try change (Qgtb 100 0) with true; try change (Qgtb 80 0) with true;
      try change (Qgtb 20 0) with true; cbv iota;
      unfold count_Q; cbn [Qsum fold_right List.length];
      (apply Qle_shift_div_r; [reflexivity|]);
      match goal with
      | |- context [inject_Z (Z.of_nat 2)] => change (inject_Z (Z.of_nat 2)) with 2
      | |- context [inject_Z (Z.of_nat 1)] => change (inject_Z (Z.of_nat 1)) with 1
      end; lra. }
  exists sm, (_generate_investment_recommendation out).
  split; [exact Hsm|]. split; [exact Hrc|]. split; [exact Hover|].
  split.
  - rewrite (rating_of_recommendation out sm Hsm).
    apply rating_not_strong_buy. lra.
  - pose proof (heavy_position_rule out) as Hheavy.
    intros C. apply Hheavy in C. destruct C as [C _].
    unfold score_read in C. rewrite Hsm in C. lra.
Qed.

(** X25.  A failed analysis drops out of the mean: without news, when the
    risk analysis fails while the price information is extracted and there
    is a fundamentals text, the fundamentals score (100 or 80) is the
    overall score, and the recommendation is "强烈买入" with the position
    size "重仓". *)
Theorem failed_risk_analysis_lifts_rating (ticker stock_data : string)
        (fundamentals_data news_data market_data : option string)
        (company_name : string) :
  news_data = None \/ news_data = Some "" ->
  (forall p, analyze_risk_profile np_sqrt np_exp stock_data market_data
               fundamentals_data g <> Done p) ->
  Fundamentals._extract_price_info stock_data <> None ->
  opt_truthy fundamentals_data = true ->
  let out := run ticker stock_data fundamentals_data news_data market_data
                 company_name in
  exists sm rc,
    comprehensive_summary out = Some sm /\
    investment_recommendation out = Some rc /\
    (overall_score sm == 100 \/ overall_score sm == 80) /\
    rating rc = "强烈买入" /\ position_size rc = "重仓".
Proof.
  intros Hnews Hfail Hx Hfd out.
  destruct (analyze_keys ticker stock_data fundamentals_data news_data market_data
              company_name) as (_ & _ & _ & _ & Hsm & Hrc).
  destruct (package_scores ticker stock_data fundamentals_data news_data market_data
              company_name) as (Ht & _ & Hf & _ & Hs & Hr & Ho).
  fold out in Hsm, Hrc, Ht, Hf, Hs, Hr, Ho.
  specialize (Hs Hnews). specialize (Hf Hx Hfd).
  set (sm := _generate_comprehensive_summary out) in *.
  assert (Hrisk : risk_score sm = 0 /\ high_risk out = false).
  { destruct (analyze_risk_profile np_sqrt np_exp stock_data market_data
                fundamentals_data g) as [| e | p]; try exact Hr.
    exfalso. now apply (Hfail p). }
  destruct Hrisk as [Hr0 Hhigh].
  assert (Hover : overall_score sm == 100 \/ overall_score sm == 80).
  { rewrite Ho, Ht, Hs, Hr0.
    destruct Hf as [-> | ->]; [left|right]; reflexivity. }
  exists sm, (_generate_investment_recommendation out).
  split; [exact Hsm|]. split; [exact Hrc|]. split; [exact Hover|].
  assert (H80 : 80 <= overall_score sm) by (destruct Hover as [-> | ->]; discriminate).
  split.
  - rewrite (rating_of_recommendation out sm Hsm). unfold Samples.rating_of_score.
    now rewrite (proj2 (NumFacts.Qgeb_true _ _) H80).
  - pose proof (heavy_position_rule out) as Hheavy. apply Hheavy.
    unfold score_read. rewrite Hsm. split; [exact H80|exact Hhigh].
Qed.

End Analyzers.

End PackageFacts.

Module FundamentalsFacts.
Import PyStr PyText PyNum PyExc Fundamentals FundamentalsProfile StringFacts ExcFacts.
Local Open Scope exc_scope.
Local Open Scope string_scope.

Lemma split_without_separator (sep : ascii) (s : string) :
  contains (String sep "") s = false -> split sep s = [s].
Proof.
  induction s as [|c t IH]; [reflexivity|].
  cbn [contains split String.prefix].
  destruct (Ascii.ascii_dec sep c) as [->|Hne].
  - destruct t; discriminate.
  - intros H. destruct (Ascii.eqb c sep) eqn:E.
    + apply Ascii.eqb_eq in E. congruence.
    + rewrite IH; [reflexivity|]. destruct t; exact H.
Qed.

Lemma no_colon_no_label (label line : string) :
  contains ":" label = true -> contains ":" line = false ->
  contains label line = false.
Proof.
  intros Hl Hn. destruct (contains label line) eqn:E; [|reflexivity].
  rewrite (contains_trans _ _ _ Hl E) in Hn. discriminate Hn.
Qed.

(** whether a line makes the loop raise does not depend on what was
    extracted before *)
Lemma extract_line_raises (pi pi' : price_info) (raw : string) (e : error) :
  extract_line pi raw = Raise e -> extract_line pi' raw = Raise e.
Proof.
  unfold extract_line.
  destruct (contains "当前价格:" (strip raw) || contains "最新价:" (strip raw)).
  { destruct (index (split ":" (strip raw)) 1) as [f|e0]; cbn [bind]; [|trivial].
    destruct (number_in f) as [v|e1]; cbn [bind]; [discriminate|trivial]. }
  destruct (contains "市值:" (strip raw) || contains "总市值:" (strip raw)).
  { destruct (index (split ":" (strip raw)) 1) as [f|e0]; cbn [bind]; [|trivial].
    destruct (search_run is_digit_or_dot (strip f)) as [[run rest]|]; [|discriminate].
    destruct (of_option ValueError (float_of_run run)) as [v|e1]; cbn [bind];
      [discriminate|trivial]. }
  destruct (contains "PE" (upper (strip raw)) || contains "市盈率" (strip raw)).
  { destruct (index (split ":" (strip raw)) 1) as [f|e0]; cbn [bind]; [|trivial].
    destruct (number_in f) as [v|e1]; cbn [bind]; [discriminate|trivial]. }
  destruct (contains "PB" (upper (strip raw)) || contains "市净率" (strip raw)).
  { destruct (index (split ":" (strip raw)) 1) as [f|e0]; cbn [bind]; [|trivial].
    destruct (number_in f) as [v|e1]; cbn [bind]; [discriminate|trivial]. }
  destruct (contains "股息" (strip raw) || contains "分红" (strip raw)).
  { destruct (search_run_before _ _ _ _) as [run|]; [|discriminate].
    destruct (of_option ValueError (float_of_run run)) as [v|e1]; cbn [bind];
      [discriminate|trivial]. }
  destruct (contains "成交量" (strip raw)); [|discriminate].
  destruct (index (split ":" (strip raw)) 1) as [f|e0]; cbn [bind]; [|trivial].
  destruct (number_in f) as [v|e1]; cbn [bind]; [discriminate|trivial].
Qed.

Lemma bare_label_raises (pi : price_info) (raw : string) :
  bare_label raw = true -> extract_line pi raw = Raise IndexError.
Proof.
  unfold bare_label, extract_line. set (line := strip raw).
  intros H. apply andb_true_iff in H. destruct H as [Hc H].
  apply negb_true_iff in Hc.
  rewrite (no_colon_no_label "当前价格:" line eq_refl Hc).
  rewrite (no_colon_no_label "最新价:" line eq_refl Hc).
  rewrite (no_colon_no_label "市值:" line eq_refl Hc).
  rewrite (no_colon_no_label "总市值:" line eq_refl Hc).
  cbn [orb]. rewrite (split_without_separator ":" line Hc).
  destruct (contains "PE" (upper line)); [reflexivity|].
  destruct (contains "市盈率" line); [reflexivity|].
  destruct (contains "PB" (upper line)); [reflexivity|].
  destruct (contains "市净率" line); [reflexivity|].
  cbn [orb] in H |- *.
  destruct (contains "股息" line || contains "分红" line); [discriminate H|].
  cbn [negb andb] in H. rewrite H. reflexivity.
Qed.

(** a loop whose body raises independently of the state raises exactly
    when one of its items does *)
Lemma fold_exc_raises_iff {A S} (f : S -> A -> exc S) (l : list A) (s0 : S) :
  (forall a s s' e, f s a = Raise e -> f s' a = Raise e) ->
  forall s,
    (exists e, fold_exc f l s = Raise e)
    <-> exists a e, In a l /\ f s0 a = Raise e.
Proof.
  intros Hind. induction l as [|a l IH]; intros s.
  - cbn. split; [intros [e H]; discriminate H|intros (a & e & [] & _)].
  - cbn [fold_exc]. destruct (f s a) as [s1|e1] eqn:E; cbn [bind].
    + rewrite IH. split.
      * intros (b & e & Hin & Hb). exists b, e. split; [now right|exact Hb].
      * intros (b & e & [<-|Hin] & Hb).
        -- rewrite (Hind _ _ s _ Hb) in E. discriminate E.
        -- now exists b, e.
    + split; [|intros _; now exists e1].
      intros _. exists a, e1. split; [now left|]. exact (Hind _ _ s0 _ E).
Qed.

(** X26.  The fundamentals analysis returns its error exactly when one
    line of the stock text makes the extraction raise, whatever the other
    lines hold; this is what a line does that names a ratio or the volume
    without a colon ("PE", "PB" in any case, "市盈率", "市净率", "成交量"),
    the header of a price table with an "open" column included.  A text
    without such a line, the empty text included, is analysed. *)
Theorem fundamentals_error_is_a_raising_line (stock_data : string)
        (fundamentals_data : option string) :
  ((exists msg, analyze_fundamentals stock_data fundamentals_data = FundError msg)
   <-> exists line e, In line (split "010" stock_data)
                      /\ extract_line empty_price_info line = Raise e) /\
  (forall line, In line (split "010" stock_data) -> bare_label line = true ->
                analyze_fundamentals stock_data fundamentals_data
                = FundError "无法解析股票价格数据").
Proof.
  assert (Hiff : _extract_price_info stock_data = None
                 <-> exists line e, In line (split "010" stock_data)
                                    /\ extract_line empty_price_info line = Raise e).
  { rewrite <- (fold_exc_raises_iff extract_line (split "010" stock_data)
                  empty_price_info
                  (fun a s s' e => extract_line_raises s s' a e) empty_price_info).
    unfold _extract_price_info.
    destruct (fold_exc extract_line (split "010" stock_data) empty_price_info)
      as [pi|e]; cbn [bind try_except].
    - split; [discriminate|intros [e H]; discriminate H].
    - split; [intros _; now exists e|reflexivity]. }
  assert (Herr : (exists msg, analyze_fundamentals stock_data fundamentals_data
                              = FundError msg)
                 <-> _extract_price_info stock_data = None).
  { unfold analyze_fundamentals.
    destruct (_extract_price_info stock_data); split; try discriminate;
      try reflexivity; [intros [msg H]; discriminate H|intros _; eexists; reflexivity]. }
  split; [now rewrite Herr|].
  intros line Hin Hbare.
  assert (Hnone : _extract_price_info stock_data = None).
  { apply Hiff. exists line, IndexError. split; [exact Hin|].
    now apply bare_label_raises. }
  unfold analyze_fundamentals. now rewrite Hnone.
Qed.

(** X27.  The relative valuation of the industry comparison is read off
    the PE ratio alone: "相对低估" below 14.8, "相对高估" above 22.2,
    "相对合理" between, "未知" for a missing or zero ratio.  It never
    contradicts the valuation level: a level "低估" comes with "相对低估" or
    "相对合理", and a PE ratio above 30 with "相对高估". *)
Theorem relative_valuation_agrees_with_level (pi : price_info)
        (fundamentals_data : option string) :
  let vm := _calculate_valuation_metrics pi fundamentals_data in
  let ic := _perform_industry_comparison pi vm in
  (num_truthy (pe_ratio pi) = false -> relative_valuation ic = "未知") /\
  (num_truthy (pe_ratio pi) = true ->
   (num (pe_ratio pi) < 14.8 -> relative_valuation ic = "相对低估") /\
   (22.2 < num (pe_ratio pi) -> relative_valuation ic = "相对高估") /\
   (14.8 <= num (pe_ratio pi) -> num (pe_ratio pi) <= 22.2 ->
    relative_valuation ic = "相对合理")) /\
  (valuation_level vm = "低估" ->
   relative_valuation ic = "相对低估" \/ relative_valuation ic = "相对合理") /\
  (valuation_level vm = "高估" -> 30 < num (pe_ratio pi) ->
   relative_valuation ic = "相对高估").
Proof.
  unfold _perform_industry_comparison, _calculate_valuation_metrics.
  cbn [v_pe_ratio relative_valuation valuation_level].
  set (pe := num (pe_ratio pi)).
  destruct (num_truthy (pe_ratio pi)) eqn:Et; cbn [andb].
  - destruct (Qltb pe (18.5 * 0.8)) eqn:E1;
      [|destruct (Qgtb pe (18.5 * 1.2)) eqn:E2]; to_Q_props;
      assert (Ha : 18.5 * 0.8 == 14.8) by reflexivity;
      assert (Hb : 18.5 * 1.2 == 22.2) by reflexivity;
      (split; [discriminate|]);
      (split; [intros _; repeat split; intros; try reflexivity; exfalso; lra|]);
      (destruct (num_truthy (pb_ratio pi));
       [destruct (Qltb pe 15 && Qltb (num (pb_ratio pi)) 2) eqn:Elow;
        [|destruct (Qgtb pe 30 || Qgtb (num (pb_ratio pi)) 5)]|]);
      split; intros; try discriminate; auto; try (exfalso; lra).
    apply andb_true_iff in Elow. destruct Elow as [Elow _]. to_Q_props.
    exfalso. lra.
  - split; [reflexivity|]. split; [discriminate|].
    split; intros; discriminate.
Qed.

(** X28.  The data quality of a fundamentals analysis depends on two
    tests only, a stock text and a fundamentals text of more than 100
    characters each: the overall score is 89.5 with the level "优秀" when
    both hold, 69.5 with "良好" when one holds, and 49.5 with "一般" when
    none does. *)
Theorem data_quality_by_text_length (stock_data : string)
        (fundamentals_data : option string) :
  let q := _assess_data_quality stock_data fundamentals_data in
  let long := (if long_text stock_data then 1 else 0)
              + (if opt_long_text fundamentals_data then 1 else 0) in
  overall_score q == 49.5 + 20 * long /\
  (quality_level q = "优秀" <-> long == 2) /\
  (quality_level q = "良好" <-> long == 1) /\
  (quality_level q = "一般" <-> long == 0).
Proof.
  unfold _assess_data_quality.
  destruct (long_text stock_data), (opt_long_text fundamentals_data);
    cbn -[Qeq]; (split; [reflexivity|]);
    repeat split; intros; try reflexivity; try discriminate.
Qed.

End FundamentalsFacts.

Module Witnesses.
Import PyStr PyNum PyExc Samples Instances.
Local Open Scope string_scope.

Lemma sqrt_approx_nonneg (q : Q) : 0 <= q -> 0 <= sqrt_approx q.
Proof.
  intros _. unfold sqrt_approx, Qle. cbn [Qnum Qden].
  rewrite Z.mul_1_r, Z.mul_0_l. apply Z.sqrt_nonneg.
Qed.

(** the empty text is analysed, on the simulated prices and volumes *)
Lemma empty_text_is_analysed (md fd : option string) (g : Rng.t) :
  exists p, RiskProfile.analyze_risk_profile sqrt_approx exp_approx "" md fd g
            = RiskProfile.Done p.
Proof.
  apply (RiskProfileFacts.analysis_succeeds sqrt_approx exp_approx "" md fd g [] []);
    reflexivity.
Qed.

(** the drawdown of the prices 10, 12, 9 *)
Lemma drawdown_within_bounds_witness :
  exists dr d,
    RiskProfile._calculate_downside_risk sqrt_approx
      (Risk._calculate_returns [10; 12; 9]) = Ret dr /\
    RiskProfile.maximum_drawdown dr = Fin d /\ -1 < d /\ d <= 0 /\
    nonneg (RiskProfile.pain_index dr) /\
    (RiskProfile.calmar_ratio dr = None <-> d == 0).
Proof.
  apply (DownsideFacts.drawdown_within_bounds sqrt_approx [10; 12; 9]).
  - cbn. lia.
  - repeat constructor.
Defined.

(** the returns of the prices 10, 12, 9 *)
Lemma returns_are_price_ratios_witness :
  List.length (Risk._calculate_returns [10; 12; 9]) = 2%nat /\
  Forall (fun r => -1 < r) (Risk._calculate_returns [10; 12; 9]) /\
  Forall2 Qeq
    (RiskProfile.np_cumprod (map (fun r => 1 + r) (Risk._calculate_returns [10; 12; 9])))
    [12 / 10; 9 / 10].
Proof.
  apply (ReturnsFacts.returns_are_price_ratios 10 [12; 9]).
  repeat constructor.
Defined.

(** a volume with two dots *)
Lemma malformed_volume_fails_the_analysis_witness :
  exists e,
    RiskProfile.analyze_risk_profile sqrt_approx exp_approx malformed_volume None None
      rng_a = RiskProfile.Failed e.
Proof.
  apply (RiskProfileFacts.malformed_volume_fails_the_analysis sqrt_approx exp_approx
           malformed_volume None None rng_a [10.0] "成交量: 1.2.3" ValueError).
  - reflexivity.
  - right. left. reflexivity.
  - reflexivity.
Defined.

(** the risk level of the empty text *)
Lemma risk_level_never_low_witness :
  exists p,
    RiskProfile.analyze_risk_profile sqrt_approx exp_approx "" None None rng_a
    = RiskProfile.Done p /\
    40.5 <= RiskProfile.overall_risk_score (RiskProfile.p_comprehensive_risk p) /\
    RiskProfile.risk_level (RiskProfile.p_comprehensive_risk p) <> "低".
Proof.
  destruct (empty_text_is_analysed None None rng_a) as [p Hp].
  exists p. split; [exact Hp|].
  pose proof (RiskProfileFacts.risk_level_never_low sqrt_approx exp_approx "" None None
                rng_a p Hp) as H.
  cbv zeta in H. split; [exact (proj1 H)|exact (proj1 (proj2 (proj2 H)))].
Defined.

(** no fundamentals text *)
Lemma missing_fundamentals_is_a_risk_factor_witness :
  exists p,
    RiskProfile.analyze_risk_profile sqrt_approx exp_approx "" None None rng_a
    = RiskProfile.Done p /\
    In "fundamental_risk"
       (RiskProfile.risk_factors (RiskProfile.p_comprehensive_risk p)).
Proof.
  destruct (empty_text_is_analysed None None rng_a) as [p Hp].
  exists p. split; [exact Hp|].
  pose proof (RiskFactorFacts.missing_fundamentals_is_a_risk_factor sqrt_approx
                exp_approx "" None None rng_a p Hp) as H.
  cbv zeta in H. exact (proj1 (proj2 (proj2 (proj1 H eq_refl)))).
Defined.

(** three returns *)
Lemma var_99_at_most_var_95_witness :
  exists v99 v95,
    Risk.var_99 (fst (Risk._calculate_var_metrics sqrt_approx [-0.02; 0.01; 0.03] rng_a))
    = Fin v99 /\
    Risk.var_95 (fst (Risk._calculate_var_metrics sqrt_approx [-0.02; 0.01; 0.03] rng_a))
    = Fin v95 /\
    v99 <= v95.
Proof.
  assert (Hne : [-0.02; 0.01; 0.03] <> []) by (intro E; discriminate E).
  destruct (RiskFactorFacts.var_99_at_most_var_95 sqrt_approx [-0.02; 0.01; 0.03]
              rng_a Hne) as (v99 & v95 & H1 & H2 & H3 & _).
  exists v99, v95. split; [exact H1|]. split; [exact H2|exact H3].
Defined.

(** a summary of three analyses *)
Lemma summary_scores_within_range_witness :
  0 <= Toolkit.overall_score (Toolkit._generate_comprehensive_summary three_analyses)
  /\ Toolkit.overall_score (Toolkit._generate_comprehensive_summary three_analyses)
     <= 100.
Proof.
  apply (SummaryFacts.summary_scores_within_range three_analyses).
  - intros fund H. inversion H; subst. cbn. split; discriminate.
  - intros sent H. inversion H; subst. cbn. repeat split; discriminate.
  - intros risk H. inversion H; subst. cbn. split; discriminate.
Defined.

(** the weight of "新浪财经" *)
Lemma source_weight_never_seven_tenths_witness :
  News._get_source_weight "新浪财经" = 1.0 \/ News._get_source_weight "新浪财经" = 0.9
  \/ News._get_source_weight "新浪财经" = 0.8.
Proof.
  apply (proj2 (NewsFacts.source_weight_never_seven_tenths "新浪财经")).
  left. reflexivity.
Defined.

(** three items have no trend *)
Lemma trend_needs_four_items_witness :
  News.trend_direction
    (News._analyze_sentiment_trend sqrt_approx three_items
       (News._calculate_sentiment_scores sqrt_approx three_items)) = "稳定".
Proof.
  apply (NewsTrend.trend_needs_four_items sqrt_approx sqrt_approx three_items).
  cbn. lia.
Defined.

(** the bands of thirty rising bars *)
Lemma bollinger_bands_are_ordered_witness :
  exists bb up mid lo,
    Technical.calc_bollinger sqrt_approx rising_frame = Some bb /\
    Technical.bb_upper_value bb = Fin up /\ Technical.bb_middle bb = Fin mid /\
    Technical.bb_lower_value bb = Fin lo /\ lo <= mid /\ mid <= up.
Proof.
  apply (BandFacts.bollinger_bands_are_ordered sqrt_approx sqrt_approx_nonneg
           rising_frame).
  cbn. lia.
Defined.


(** the averages of thirty bars rising from 10 to 39 *)
Lemma averages_within_price_range_witness :
  Forall (fun c => 10 <= c /\ c <= 39) (Technical.closes rising_frame) /\
  Forall (fun entry =>
            exists v, TechnicalLevels.ema_value (snd entry) = Fin v
                      /\ round_digits 2 10 <= v /\ v <= round_digits 2 39)
         (TechnicalLevels.ema rising_frame).
Proof.
  assert (H : Forall (fun c => 10 <= c /\ c <= 39) (Technical.closes rising_frame))
    by (vm_compute; repeat constructor; discriminate).
  split; [exact H|].
  apply Forall_forall. intros [period info] Hin.
  exact (proj2 (AverageFacts.averages_within_price_range rising_frame 10 39 H)
           period info Hin).
Defined.

(** the header of a price table fails the fundamentals analysis *)
Lemma fundamentals_error_is_a_raising_line_witness :
  Fundamentals.analyze_fundamentals price_table None
  = Fundamentals.FundError "无法解析股票价格数据".
Proof.
  apply (proj2 (FundamentalsFacts.fundamentals_error_is_a_raising_line price_table None)
           "date,open,high,low,close,volume").
  - left. reflexivity.
  - reflexivity.
Defined.

(** the empty text without news *)
Lemma strong_buy_needs_news_witness :
  exists sm rc,
    Toolkit.comprehensive_summary
      (ToolkitQuality.analyze sqrt_approx sqrt_approx exp_approx three_decimals today
         rng_a "000001" "" (Some "报告") None None "平安银行") = Some sm /\
    Toolkit.investment_recommendation
      (ToolkitQuality.analyze sqrt_approx sqrt_approx exp_approx three_decimals today
         rng_a "000001" "" (Some "报告") None None "平安银行") = Some rc /\
    Toolkit.overall_score sm <= 79.75 /\
    Toolkit.rating rc <> "强烈买入" /\ Toolkit.position_size rc <> "重仓".
Proof.
  destruct (empty_text_is_analysed None (Some "报告") rng_a) as [p Hp].
  exact (PackageFacts.strong_buy_needs_news sqrt_approx sqrt_approx exp_approx
           three_decimals today rng_a "000001" "" (Some "报告") None None "平安银行"
           p (or_introl eq_refl) Hp).
Defined.

(** a malformed price with a fundamentals text *)
Lemma failed_risk_analysis_lifts_rating_witness :
  exists sm rc,
    Toolkit.comprehensive_summary
      (ToolkitQuality.analyze sqrt_approx sqrt_approx exp_approx three_decimals today
         rng_a "000001" "Close: 1.2.3" (Some "报告") None None "平安银行") = Some sm /\
    Toolkit.investment_recommendation
      (ToolkitQuality.analyze sqrt_approx sqrt_approx exp_approx three_decimals today
         rng_a "000001" "Close: 1.2.3" (Some "报告") None None "平安银行") = Some rc /\
    (Toolkit.overall_score sm == 100 \/ Toolkit.overall_score sm == 80) /\
    Toolkit.rating rc = "强烈买入" /\ Toolkit.position_size rc = "重仓".
Proof.
  apply (PackageFacts.failed_risk_analysis_lifts_rating sqrt_approx sqrt_approx
           exp_approx three_decimals today rng_a "000001" "Close: 1.2.3" (Some "报告")
           None None "平安银行").
  - left. reflexivity.
  - intros p H. vm_compute in H. discriminate H.
  - intros H. vm_compute in H. discriminate H.
  - reflexivity.
Defined.

End Witnesses.
